(** * CR30 -> TI3 converter: shallow embedding of [build_profile.py] and
    [cr30_to_ti3.py].

    Modelling conventions.
    - Python [str] values are Rocq [string]s whose characters are code
      points 0..255 (latin-1 range); [strip], [split], [lower], [upper] and
      the regular-expression classes follow Python's definitions on that
      range.
    - Python [float] values are rationals [Q]; the literal reader [float(s)]
      is left as a parameter [py_float : string -> option Q] ([None] is the
      [ValueError] branch), so every theorem holds for any such reader.
    - A Python [dict] is an association list kept in insertion order
      ([dict_set] updates in place or appends, as CPython does).
    - Raised exceptions are the [Err] branch of [result]; the spec's
      ParseError is the [ValueError] raised by the parsers.
    - The TI3 writers produce a structured document: the header lines before
      [NUMBER_OF_FIELDS], the field list, [NUMBER_OF_SETS] and the data rows
      as token lists; a numeric token [f'{v:.Nf}'] is [TFix N v]. *)

From Stdlib Require Import String Ascii List Bool ZArith QArith Qround Lia
  Psatz DecimalString Sorting Permutation.
From Stdlib Require Import Lqa.
From Stdlib Require Strings.Byte.
From Stdlib Require DecimalZ.
Import ListNotations.
Open Scope string_scope.
Open Scope list_scope.
Open Scope nat_scope.

Infix "+++" := String.append (at level 60, right associativity).

(** ** Results (Python exceptions) *)

Inductive error := ParseError | IOError.

Inductive result (A : Type) : Type :=
| Ok (a : A)
| Err (e : error).
Arguments Ok {A} a.
Arguments Err {A} e.

Definition rbind {A B} (m : result A) (f : A -> result B) : result B :=
  match m with Ok a => f a | Err e => Err e end.

(** ** Python string primitives *)
Module Py.

(** [str.isspace] / regex [\s] on code points 0..255. *)
Definition is_space (c : ascii) : bool :=
  let n := nat_of_ascii c in
  ((9 <=? n) && (n <=? 13)) || ((28 <=? n) && (n <=? 32))
  || (n =? 133) || (n =? 160).

Definition is_digit (c : ascii) : bool :=
  let n := nat_of_ascii c in (48 <=? n) && (n <=? 57).
Definition is_upper (c : ascii) : bool :=
  let n := nat_of_ascii c in (65 <=? n) && (n <=? 90).
Definition is_lower (c : ascii) : bool :=
  let n := nat_of_ascii c in (97 <=? n) && (n <=? 122).

Definition to_lower_c (c : ascii) : ascii :=
  if is_upper c then ascii_of_nat (nat_of_ascii c + 32) else c.
Definition to_upper_c (c : ascii) : ascii :=
  if is_lower c then ascii_of_nat (nat_of_ascii c - 32) else c.

(** [str.lower] / [str.upper] restricted to ASCII letters.  On the latin-1
    range the other case mappings never produce an ASCII character except
    [upper('ß') = 'SS'], and the only uses of [upper] compare with the
    constants [STRIP_THEN_PATCH], [PATCH_THEN_STRIP] and [D50]/[D65], which
    contain no [SS]; so every comparison the code makes comes out the same. *)
Fixpoint map_s (f : ascii -> ascii) (s : string) : string :=
  match s with EmptyString => EmptyString | String c r => String (f c) (map_s f r) end.
Definition lower := map_s to_lower_c.
Definition upper := map_s to_upper_c.

Fixpoint filter_s (p : ascii -> bool) (s : string) : string :=
  match s with
  | EmptyString => EmptyString
  | String c r => if p c then String c (filter_s p r) else filter_s p r
  end.

Fixpoint lstrip_by (p : ascii -> bool) (s : string) : string :=
  match s with
  | EmptyString => EmptyString
  | String c r => if p c then lstrip_by p r else s
  end.

Fixpoint rev_s (s : string) : string :=
  match s with EmptyString => EmptyString | String c r => rev_s r +++ String c EmptyString end.

Definition rstrip_by (p : ascii -> bool) (s : string) : string :=
  rev_s (lstrip_by p (rev_s s)).

(** [s.strip()] *)
Definition strip (s : string) : string := rstrip_by is_space (lstrip_by is_space s).

(** [s.rstrip(ch)] *)
Definition rstrip_char (ch : ascii) (s : string) : string :=
  rstrip_by (fun c => Ascii.eqb c ch) s.

(** [s.split(sep)] for a one-character separator: always at least one piece. *)
Fixpoint split_go (sep : ascii) (s : string) (cur : string) : list string :=
  match s with
  | EmptyString => [rev_s cur]
  | String c r =>
      if Ascii.eqb c sep then rev_s cur :: split_go sep r EmptyString
      else split_go sep r (String c cur)
  end.
Definition split_sep (sep : ascii) (s : string) : list string := split_go sep s EmptyString.

(** [s.split()]: maximal runs of non-whitespace. *)
Fixpoint split_ws_go (s : string) (cur : string) : list string :=
  match s with
  | EmptyString => match cur with EmptyString => [] | _ => [rev_s cur] end
  | String c r =>
      if is_space c then
        match cur with
        | EmptyString => split_ws_go r EmptyString
        | _ => rev_s cur :: split_ws_go r EmptyString
        end
      else split_ws_go r (String c cur)
  end.
Definition split_ws (s : string) : list string := split_ws_go s EmptyString.

(** [s.replace(a, b)] for single characters. *)
Definition replace_c (a b : ascii) : string -> string :=
  map_s (fun c => if Ascii.eqb c a then b else c).

Definition startswith (p s : string) : bool := String.prefix p s.

Fixpoint take_s (n : nat) (s : string) : string :=
  match n, s with
  | O, _ => EmptyString
  | _, EmptyString => EmptyString
  | S k, String c r => String c (take_s k r)
  end.
Fixpoint drop_s (n : nat) (s : string) : string :=
  match n, s with
  | O, _ => s
  | _, EmptyString => EmptyString
  | S k, String _ r => drop_s k r
  end.

(** Decimal value of a digit string (no sign, no underscores). *)
Fixpoint digits_val_go (s : string) (acc : Z) : Z :=
  match s with
  | EmptyString => acc
  | String c r => digits_val_go r (10 * acc + Z.of_nat (nat_of_ascii c - 48))%Z
  end.
Definition digits_val (s : string) : Z := digits_val_go s 0%Z.

Fixpoint all_s (p : ascii -> bool) (s : string) : bool :=
  match s with EmptyString => true | String c r => p c && all_s p r end.

(** Underscores are allowed only singly and between digits, as in
    Python integer literals accepted by [int()]. *)
Fixpoint underscores_ok (prev_digit : bool) (s : string) : bool :=
  match s with
  | EmptyString => prev_digit
  | String c r =>
      if is_digit c then underscores_ok true r
      else if Ascii.eqb c "_" then prev_digit && underscores_ok false r
      else false
  end.

(** [int(s)] for a [str] argument ([None] is the [ValueError] branch). *)
Definition py_int (s0 : string) : option Z :=
  let s := strip s0 in
  let '(neg, body) :=
    match s with
    | String c r => if Ascii.eqb c "-" then (true, r)
                    else if Ascii.eqb c "+" then (false, r) else (false, s)
    | EmptyString => (false, s)
    end in
  match body with
  | EmptyString => None
  | String c _ =>
      if is_digit c && underscores_ok false body then
        let v := digits_val (filter_s is_digit body) in
        Some (if neg then Z.opp v else v)
      else None
  end.

(** [str(z)] / [f"{z}"] for integers. *)
Definition z_str (z : Z) : string := NilZero.string_of_int (Z.to_int z).
Definition nat_str (n : nat) : string := z_str (Z.of_nat n).

(** [f"{z:03d}"]: zero padding up to width 3, sign included in the width. *)
Fixpoint zeros (n : nat) : string :=
  match n with O => EmptyString | S k => String "0" (zeros k) end.
Definition fmt03d (z : Z) : string :=
  let sign := if (z <? 0)%Z then "-" else EmptyString in
  let ds := z_str (Z.abs z) in
  sign +++ zeros (3 - String.length sign - String.length ds) +++ ds.

End Py.

(** ** A backtracking matcher for the regular expressions of the source

    Each pattern used by the code is a sequence of greedy quantified
    character classes, literals, optional literals and [$]; Python's [re]
    tries the choices of such a sequence longest-first, left to right, which
    is what [mt] does.  [Rep true ..] is a capturing group around the
    quantified class. *)
Module Re.

Inductive item :=
| Rep (cap : bool) (lo : nat) (hi : option nat) (p : ascii -> bool)
| Lit (s : string)
| OptLit (s : string)
| EndA.

Fixpoint count_prefix (p : ascii -> bool) (hi : option nat) (s : string) : nat :=
  match hi with
  | Some O => O
  | _ =>
      match s with
      | EmptyString => O
      | String c r =>
          if p c then S (count_prefix p (option_map pred hi) r) else O
      end
  end.

Fixpoint first_some {A} (f : nat -> option A) (l : list nat) : option A :=
  match l with
  | [] => None
  | n :: l' => match f n with Some a => Some a | None => first_some f l' end
  end.

Fixpoint mt (r : list item) (s : string) : option (list string) :=
  match r with
  | [] => Some []
  | Rep cap lo hi p :: r' =>
      let k := count_prefix p hi s in
      first_some
        (fun n => match mt r' (Py.drop_s n s) with
                  | Some cs => Some (if cap then Py.take_s n s :: cs else cs)
                  | None => None
                  end)
        (rev (seq lo (S k - lo)))
  | Lit l :: r' =>
      if String.prefix l s then mt r' (Py.drop_s (String.length l) s) else None
  | OptLit l :: r' =>
      match (if String.prefix l s then mt r' (Py.drop_s (String.length l) s) else None) with
      | Some cs => Some cs
      | None => mt r' s
      end
  | EndA :: r' =>
      if String.eqb s EmptyString || String.eqb s (String "010" EmptyString) then mt r' s else None
  end.

(** [re.match(p, s)]: captured groups of a match at position 0. *)
Definition rmatch (r : list item) (s : string) : option (list string) := mt r s.

(** [re.search(p, s)]: the leftmost position with a match. *)
Fixpoint rsearch (r : list item) (s : string) : option (list string) :=
  match mt r s with
  | Some cs => Some cs
  | None => match s with EmptyString => None | String _ s' => rsearch r s' end
  end.

Definition dq : ascii := ascii_of_nat 34.
Definition dq_s : string := String dq EmptyString.
Definition any_c (_ : ascii) := true.
Definition not_c (ch : ascii) (c : ascii) := negb (Ascii.eqb c ch).
Definition is_c (ch : ascii) (c : ascii) := Ascii.eqb c ch.

(** [^COLOR_REP\s+Q([^Q]+)Q], Q standing for a double quote *)
Definition color_rep_re : list item :=
  [Lit "COLOR_REP"; Rep false 1 None Py.is_space; Lit dq_s;
   Rep true 1 None (not_c dq); Lit dq_s].

(** [^([A-Z0-9_]+)\s+Q?([^Q]+)Q?\s*$], Q a double quote (TI2 header key/value) *)
Definition header_kv_re : list item :=
  [Rep true 1 None (fun c => Py.is_upper c || Py.is_digit c || Ascii.eqb c "_");
   Rep false 1 None Py.is_space; Rep false 0 (Some 1) (is_c dq);
   Rep true 1 None (not_c dq); Rep false 0 (Some 1) (is_c dq);
   Rep false 0 None Py.is_space; EndA].

(** [^([A-Z0-9_]+)\s+(.STAR)$], STAR the Kleene star (TI3 header promotion) *)
Definition promote_re : list item :=
  [Rep true 1 None (fun c => Py.is_upper c || Py.is_digit c || Ascii.eqb c "_");
   Rep false 1 None Py.is_space; Rep true 0 None (not_c "010"); EndA].

(** [(\d{3})(?:nm)?$] (spectral column names, used with [re.search]) *)
Definition spectral_re : list item :=
  [Rep true 3 (Some 3) Py.is_digit; OptLit "nm"; EndA].

(** [([A-Za-z0-9]+)\s*/\s*(\d+)\s*°?] (light source / angle) *)
Definition illum_re : list item :=
  [Rep true 1 None (fun c => Py.is_upper c || Py.is_lower c || Py.is_digit c);
   Rep false 0 None Py.is_space; Lit "/"; Rep false 0 None Py.is_space;
   Rep true 1 None Py.is_digit; Rep false 0 None Py.is_space;
   OptLit (String "176" EmptyString)].

End Re.

Example re_t1 : Re.rmatch Re.color_rep_re ("COLOR_REP " +++ Re.dq_s +++ "iRGB" +++ Re.dq_s +++ " x") = Some ["iRGB"].
Proof. vm_compute. reflexivity. Qed.
Example re_t2 : Re.rmatch Re.header_kv_re ("STEPS_IN_PASS " +++ Re.dq_s +++ "2" +++ Re.dq_s) = Some ["STEPS_IN_PASS"; "2"].
Proof. vm_compute. reflexivity. Qed.
Example re_t3 : Re.rsearch Re.spectral_re "r1400nm" = Some ["400"].
Proof. vm_compute. reflexivity. Qed.
Example re_t4 : Re.rmatch Re.illum_re "D50 / 10" = Some ["D50"; "10"].
Proof. vm_compute. reflexivity. Qed.
Example py_t1 : Py.split_ws ("  1  0.5 " +++ Re.dq_s +++ "A1" +++ Re.dq_s +++ "  ") = ["1"; "0.5"; Re.dq_s +++ "A1" +++ Re.dq_s].
Proof. vm_compute. reflexivity. Qed.
Example py_t2 : (Py.py_int "1_0", Py.py_int "_1", Py.py_int "-07") = (Some 10%Z, None, Some (-7)%Z).
Proof. vm_compute. reflexivity. Qed.
Example py_t3 : (Py.fmt03d 5, Py.fmt03d 400, Py.fmt03d (-5)) = ("005", "400", "-05").
Proof. vm_compute. reflexivity. Qed.

(** ** Containers *)

(** A Python [dict] in insertion order. *)
Fixpoint dict_get {K V} (eqb : K -> K -> bool) (k : K) (d : list (K * V)) : option V :=
  match d with
  | [] => None
  | (k', v) :: d' => if eqb k k' then Some v else dict_get eqb k d'
  end.

(** [d[k] = v]: an existing key keeps its position. *)
Fixpoint dict_set {K V} (eqb : K -> K -> bool) (k : K) (v : V) (d : list (K * V))
  : list (K * V) :=
  match d with
  | [] => [(k, v)]
  | (k', v') :: d' =>
      if eqb k k' then (k', v) :: d' else (k', v') :: dict_set eqb k v d'
  end.

(** [list.index(x)] *)
Fixpoint index_of (x : string) (l : list string) : option nat :=
  match l with
  | [] => None
  | y :: l' => if String.eqb x y then Some 0 else option_map S (index_of x l')
  end.

Fixpoint first_map {A B} (f : A -> option B) (l : list A) : option B :=
  match l with
  | [] => None
  | x :: l' => match f x with Some b => Some b | None => first_map f l' end
  end.

(** Python's [list.sort(key=...)] is stable; so is this insertion sort. *)
Fixpoint insert_by {A} (key : A -> Z) (x : A) (l : list A) : list A :=
  match l with
  | [] => [x]
  | y :: l' => if (key x <=? key y)%Z then x :: l else y :: insert_by key x l'
  end.
Fixpoint sort_by {A} (key : A -> Z) (l : list A) : list A :=
  match l with
  | [] => []
  | x :: l' => insert_by key x (sort_by key l')
  end.

(** [sorted(s)] of a Python [set] of ints: distinct elements, ascending. *)
Fixpoint dedup_Z (l : list Z) : list Z :=
  match l with
  | [] => []
  | x :: l' => x :: filter (fun y => negb (Z.eqb y x)) (dedup_Z l')
  end.
Definition sorted_set (l : list Z) : list Z := sort_by (fun z => z) (dedup_Z l).

Definition enumerate {A} (l : list A) : list (nat * A) := combine (seq 0 (length l)) l.

(** Python truthiness of an [Optional[int]] in [a or b]. *)
Definition py_or (a b : option nat) : option nat :=
  match a with Some (S _) => a | _ => b end.

(** ** Data model *)

(** One parsed CSV row ([parse_cr30_csv]); [m_spectral] is the dict
    wavelength -> reflectance. *)
Record mrow := {
  m_name : string; m_date : string; m_test_mode : string; m_lsag : string;
  m_L : option Q; m_a : option Q; m_b : option Q;
  m_X : option Q; m_Y : option Q; m_Z : option Q;
  m_spectral : list (Z * Q)
}.

Record mset := {
  ms_rows : list mrow;
  ms_illum_code : option string;
  ms_observer_deg : option Z
}.

(** [parse_ti2]'s result dict. *)
Record layout := {
  device_fields : list string;
  device_values : list (Z * list Q);
  sample_locs : list (Z * string);
  color_rep_device : option string;
  header_lines : list string
}.

(** [parse_ti1]'s result dict. *)
Record layout1 := {
  t1_device_fields : list string;
  t1_device_values : list (Z * list Q);
  t1_color_rep_device : option string
}.

(** ** The parsers *)
Section Parsers.

(** [float(s)]; [None] is its [ValueError]. *)
Variable py_float : string -> option Q.

(** [_to_float] *)
Definition to_float (v : string) : option Q :=
  let s := Py.replace_c "," "." (Py.strip v) in
  if String.eqb s EmptyString || String.eqb (Py.lower s) "nan"
     || String.eqb (Py.lower s) "null"
  then None else py_float s.

(** [norm = lambda s: re.sub(r'[^a-z0-9_]+', '', s.strip().lower())] *)
Definition norm (h : string) : string :=
  Py.filter_s (fun c => Py.is_lower c || Py.is_digit c || Ascii.eqb c "_")
    (Py.lower (Py.strip h)).

(** [hmap = {norm(h): i for i, h in enumerate(header)}] *)
Definition header_map_csv (header : list string) : list (string * nat) :=
  fold_left (fun d '(i, h) => dict_set String.eqb (norm h) i d) (enumerate header) [].

Record csv_idx := {
  idx_name : option nat; idx_date : option nat; idx_mode : option nat;
  idx_lsag : option nat;
  idx_L : option nat; idx_a : option nat; idx_b : option nat;
  idx_X : option nat; idx_Y : option nat; idx_Z : option nat
}.

Definition csv_indices (hmap : list (string * nat)) : csv_idx :=
  let g k := dict_get String.eqb k hmap in
  {| idx_name := g "name"; idx_date := g "date"; idx_mode := g "testmode";
     idx_lsag := g "lightsourceangle";
     idx_L := py_or (py_or (g "l") (g "l*")) (g "lstar");
     idx_a := py_or (py_or (g "a") (g "a*")) (g "astar");
     idx_b := py_or (py_or (g "b") (g "b*")) (g "bstar");
     idx_X := g "x"; idx_Y := g "y"; idx_Z := g "z" |}.

(** [spec_cols], sorted by wavelength. *)
Definition spec_cols_of (hmap : list (string * nat)) : list (nat * Z) :=
  sort_by snd
    (flat_map (fun '(key, i) =>
       match Re.rsearch Re.spectral_re key with
       | Some [g] =>
           let wl := Py.digits_val g in
           if ((300 <=? wl) && (wl <=? 1100))%Z then [(i, wl)] else []
       | _ => []
       end) hmap).

(** [parts[i] if i is not None and i < len(parts) else ...] *)
Definition cell (parts : list string) (i : option nat) : option string :=
  match i with Some k => nth_error parts k | None => None end.

Definition num_cell (parts : list string) (i : option nat) : option Q :=
  match cell parts i with Some p => to_float p | None => None end.

Definition str_cell (parts : list string) (i : option nat) : string :=
  match cell parts i with Some p => p | None => EmptyString end.

Record csv_state := {
  cs_rows : list mrow;            (* in reverse order *)
  cs_illum : option string;
  cs_observer : option Z
}.

(** One iteration of the [for line in lines[1:]] loop. *)
Definition csv_line (ix : csv_idx) (spec_cols : list (nat * Z))
    (st : csv_state) (line : string) : csv_state :=
  if String.eqb (Py.strip line) EmptyString then st else
  let parts := Py.split_sep ";" line in
  let name := str_cell parts (idx_name ix) in
  let L := num_cell parts (idx_L ix) in
  let a := num_cell parts (idx_a ix) in
  let b := num_cell parts (idx_b ix) in
  let X := num_cell parts (idx_X ix) in
  let Y := num_cell parts (idx_Y ix) in
  let Z := num_cell parts (idx_Z ix) in
  match L, X with
  | None, None => st
  | _, _ =>
    let lsag := str_cell parts (idx_lsag ix) in
    let test_mode := str_cell parts (idx_mode ix) in
    let date := str_cell parts (idx_date ix) in
    let spectral :=
      fold_left (fun sp '(ci, wl) =>
        match nth_error parts ci with
        | Some p => match to_float p with
                    | Some v => dict_set Z.eqb wl v sp
                    | None => sp
                    end
        | None => sp
        end) spec_cols [] in
    let '(illum, obs) :=
      match cs_illum st with
      | None =>
          if negb (String.eqb lsag EmptyString) then
            match Re.rmatch Re.illum_re lsag with
            | Some [g1; g2] => (Some (Py.upper g1), Some (Py.digits_val g2))
            | _ => (cs_illum st, cs_observer st)
            end
          else (cs_illum st, cs_observer st)
      | Some _ => (cs_illum st, cs_observer st)
      end in
    {| cs_rows := {| m_name := name; m_date := date; m_test_mode := test_mode;
                     m_lsag := lsag; m_L := L; m_a := a; m_b := b;
                     m_X := X; m_Y := Y; m_Z := Z; m_spectral := spectral |}
                  :: cs_rows st;
       cs_illum := illum; cs_observer := obs |}
  end.

(** [parse_cr30_csv] after decoding ([text] is the decoded file); the
    function is the same in both source files. *)
Definition parse_cr30_csv (text : string) : result mset :=
  let lines := map (Py.rstrip_char "013") (Py.split_sep "010" text) in
  match lines with
  | [] => Err ParseError
  | l0 :: rest =>
      let header := map Py.strip (Py.split_sep ";" l0) in
      let hmap := header_map_csv header in
      let ix := csv_indices hmap in
      let sc := spec_cols_of hmap in
      let st := fold_left (csv_line ix sc)
                  rest {| cs_rows := []; cs_illum := None; cs_observer := None |} in
      Ok {| ms_rows := rev (cs_rows st); ms_illum_code := cs_illum st;
            ms_observer_deg := cs_observer st |}
  end.

End Parsers.

(** ** Layout files ([parse_ti2], [parse_ti1]) *)
Section Layout.

Variable py_float : string -> option Q.

(** [COLOR_REP] of the first matching line among the first [n] lines. *)
Definition color_rep_scan (n : nat) (lines : list string) : option string :=
  first_map (fun ln => match Re.rmatch Re.color_rep_re ln with
                       | Some [g] => Some g
                       | _ => None
                       end) (firstn n lines).

(** The [for i, ln in enumerate(lines)] loop locating the format block. *)
Fixpoint fmt_scan (i : nat) (lines : list string) (start : option nat)
  : option nat * option nat :=
  match lines with
  | [] => (start, None)
  | ln :: r =>
      let s := Py.strip ln in
      if String.eqb s "BEGIN_DATA_FORMAT" then fmt_scan (S i) r (Some (S i))
      else if String.eqb s "END_DATA_FORMAT" then (start, Some i)
      else fmt_scan (S i) r start
  end.

(** [None] is the [raise ValueError('... missing data format block')]. *)
Definition fmt_bounds (lines : list string) : option (nat * nat) :=
  match fmt_scan 0 lines None with
  | (Some a, Some b) => Some (a, b)
  | _ => None
  end.

(** Last index [< n] whose stripped line starts with [NUMBER_OF_FIELDS]
    (the backwards [range(fmt_start - 1, -1, -1)] loop). *)
Fixpoint last_nof (i : nat) (lines : list string) (acc : option nat) : option nat :=
  match lines with
  | [] => acc
  | ln :: r =>
      last_nof (S i) r
        (if Py.startswith "NUMBER_OF_FIELDS" (Py.strip ln) then Some i else acc)
  end.

Definition ti2_header_lines (lines : list string) (fmt_start : nat) : list string :=
  let header_end_idx :=
    match last_nof 0 (firstn fmt_start lines) None with
    | Some i => i
    | None => fmt_start - 1
    end in
  filter (fun ln => let s := Py.strip ln in
                    negb (String.eqb s EmptyString) && negb (Py.startswith "CTI" s))
    (firstn header_end_idx lines).

Definition ti2_header_map (hl : list string) : list (string * string) :=
  fold_left (fun d h => match Re.rmatch Re.header_kv_re (Py.strip h) with
                        | Some [k; v] => dict_set String.eqb k v d
                        | _ => d
                        end) hl [].

(** [lines[a:b]] *)
Definition slice {A} (l : list A) (a b : nat) : list A := firstn (b - a) (skipn a l).

Definition fmt_fields (lines : list string) (a b : nat) : list string :=
  concat (map Py.split_ws (slice lines a b)).

Definition allowed_prefixes := ["RGB_"; "CMYK_"; "GRAY_"; "K_"].
Definition canonical_fields :=
  ["RGB_R"; "RGB_G"; "RGB_B"; "CMYK_C"; "CMYK_M"; "CMYK_Y"; "CMYK_K"].

Definition select_device_fields (fields : list string) : list string :=
  match filter (fun f => existsb (fun p => Py.startswith p f) allowed_prefixes) fields with
  | [] => filter (fun f => existsb (String.eqb f) fields) canonical_fields
  | df => df
  end.

(** [raw[1:-1]] when [raw] is surrounded by double quotes. *)
Definition is_dq_at (k : nat) (raw : string) : bool :=
  match String.get k raw with Some c => Ascii.eqb c Re.dq | None => false end.
Definition unquote (raw : string) : string :=
  let n := String.length raw in
  if (2 <=? n) && is_dq_at 0 raw && is_dq_at (n - 1) raw
  then String.substring 1 (n - 2) raw else raw.

(** The [for ln in lines] data loop: device rows and explicit [SAMPLE_LOC]
    entries in file order.  [loc_index] is [None] for [parse_ti1], which
    has no location capture. *)
Fixpoint ti_data (fields dfields : list string) (loc_index : option nat)
    (in_data : bool) (lines : list string) : list (Z * list Q) * list (Z * string) :=
  match lines with
  | [] => ([], [])
  | ln :: r =>
      let s := Py.strip ln in
      if String.eqb s "BEGIN_DATA" then ti_data fields dfields loc_index true r
      else if String.eqb s "END_DATA" then ([], [])
      else if in_data && negb (String.eqb s EmptyString) then
        let parts := Py.split_ws s in
        match Py.py_int (hd EmptyString parts) with
        | None => ti_data fields dfields loc_index in_data r
        | Some sid =>
            let loc :=
              match loc_index with
              | Some li =>
                  if li <? length fields then
                    match nth_error parts li with
                    | Some raw => [(sid, unquote raw)]
                    | None => []
                    end
                  else []
              | None => []
              end in
            let vals :=
              map (fun f => match index_of f fields with
                            | None => 0%Q
                            | Some idx =>
                                match nth_error parts idx with
                                | Some p => match to_float py_float p with
                                            | Some v => v
                                            | None => 0%Q
                                            end
                                | None => 0%Q
                                end
                            end) dfields in
            let '(dv, locs) := ti_data fields dfields loc_index in_data r in
            ((sid, vals) :: dv, loc ++ locs)
        end
      else ti_data fields dfields loc_index in_data r
  end.

(** [int(x)] of a finite float: truncation toward zero. *)
Definition py_trunc (q : Q) : Z := Z.quot (Qnum q) (Zpos (Qden q)).

(** [int(float(v.strip())) if isinstance(v, str) and v.strip() else None];
    [Err] is the exception caught by the surrounding [try]. *)
Definition grid_dim (v : option string) : result (option Z) :=
  match v with
  | Some s =>
      if negb (String.eqb (Py.strip s) EmptyString) then
        match py_float (Py.strip s) with
        | Some q => Ok (Some (py_trunc q))
        | None => Err ParseError
        end
      else Ok None
  | None => Ok None
  end.

(** [cols], [rows] after the [try ... except Exception: cols = rows = None]. *)
Definition ti2_grid (hm : list (string * string)) : option Z * option Z :=
  match grid_dim (dict_get String.eqb "STEPS_IN_PASS" hm),
        grid_dim (dict_get String.eqb "PASSES_IN_STRIPS2" hm) with
  | Ok c, Ok r => (c, r)
  | _, _ => (None, None)
  end.

Definition index_order_of (hm : list (string * string)) : string :=
  Py.upper (Py.strip (match dict_get String.eqb "INDEX_ORDER" hm with
                      | Some v => v
                      | None => EmptyString
                      end)).

(** The nested [row_label] ([while True] loop with [fuel] iterations). *)
Fixpoint row_label_go (fuel i : nat) (s : string) : string :=
  match fuel with
  | O => s
  | S f =>
      let s' := String (ascii_of_nat (65 + i mod 26)) s in
      if i / 26 =? 0 then s' else row_label_go f (i / 26 - 1) s'
  end.
Definition row_label (idx0 : nat) : string := row_label_go (S idx0) idx0 EmptyString.

(** Label of positional index [i] for the three branches on [index_order]. *)
Definition grid_label (index_order : string) (cols rows i : nat) : string :=
  if String.eqb index_order "STRIP_THEN_PATCH" then
    row_label (i / cols) +++ Py.nat_str (i mod cols + 1)
  else if String.eqb index_order "PATCH_THEN_STRIP" then
    row_label (i mod rows) +++ Py.nat_str (i / rows + 1)
  else
    row_label (i / cols) +++ Py.nat_str (i mod cols + 1).

(** [SAMPLE_LOC] generation of [parse_ti2] (the [else] branch taken when no
    explicit location was read), on the sorted device values. *)
Definition derive_locs (hm : list (string * string)) (dv : list (Z * list Q))
  : list (Z * string) :=
  let '(cols, rows) := ti2_grid hm in
  let index_order := index_order_of hm in
  match cols, rows with
  | Some c, Some r =>
      if ((0 <? c) && (0 <? r) && (Z.of_nat (length dv) =? c * r))%Z then
        sort_by fst
          (map (fun i => (fst (nth i dv (0%Z, [])),
                          grid_label index_order (Z.to_nat c) (Z.to_nat r) i))
               (seq 0 (length dv)))
      else []
  | _, _ => []
  end.

Definition parse_ti2 (lines : list string) : result layout :=
  let color_rep := color_rep_scan 80 lines in
  match fmt_bounds lines with
  | None => Err ParseError
  | Some (fmt_start, fmt_end) =>
      let hl := ti2_header_lines lines fmt_start in
      let hm := ti2_header_map hl in
      let fields := fmt_fields lines fmt_start fmt_end in
      let dfields := select_device_fields fields in
      let '(dv_raw, locs_raw) :=
        ti_data fields dfields (index_of "SAMPLE_LOC" fields) false lines in
      let dv := sort_by fst dv_raw in
      let locs := match locs_raw with
                  | [] => derive_locs hm dv
                  | _ => sort_by fst locs_raw
                  end in
      Ok {| device_fields := dfields; device_values := dv; sample_locs := locs;
            color_rep_device := color_rep; header_lines := hl |}
  end.

Definition parse_ti1 (lines : list string) : result layout1 :=
  let color_rep := color_rep_scan 50 lines in
  match fmt_bounds lines with
  | None => Err ParseError
  | Some (fmt_start, fmt_end) =>
      let fields := fmt_fields lines fmt_start fmt_end in
      let dfields := select_device_fields fields in
      let dv := sort_by fst (fst (ti_data fields dfields None false lines)) in
      Ok {| t1_device_fields := dfields; t1_device_values := dv;
            t1_color_rep_device := color_rep |}
  end.

End Layout.

(** ** TI3 writers *)

Inductive token :=
| TInt (z : Z)              (* str(sid) *)
| TQuoted (s : string)      (* f'"{loc}"' *)
| TFix (prec : nat) (v : Q). (* f'{v:.{prec}f}' *)

Record ti3_doc := {
  t_header : list string;   (* lines written before NUMBER_OF_FIELDS *)
  t_fields : list string;   (* the BEGIN_DATA_FORMAT line *)
  t_nsets : nat;            (* NUMBER_OF_SETS *)
  t_data : list (list token) (* the BEGIN_DATA block, one list per line *)
}.

Definition quoted (s : string) : string := Re.dq_s +++ s +++ Re.dq_s.
Definition kv (k v : string) : string := k +++ " " +++ quoted v.

Definition is_some {A} (o : option A) : bool := match o with Some _ => true | None => false end.
Definition nonempty {A} (l : list A) : bool := match l with [] => false | _ => true end.

(** [any(r.get('L') is not None for r in cr30['rows'])] and its siblings. *)
Definition has_lab (rows : list mrow) : bool := existsb (fun r => is_some (m_L r)) rows.
Definition has_xyz (rows : list mrow) : bool := existsb (fun r => is_some (m_X r)) rows.
Definition has_spec (rows : list mrow) : bool := existsb (fun r => nonempty (m_spectral r)) rows.

Definition dev_tag (dfs : list string) : string :=
  if existsb (Py.startswith "RGB_") dfs then "RGB"
  else if existsb (Py.startswith "CMYK_") dfs then "CMYK" else "DEV".

(** [set.intersection] of the key sets of the rows with spectral data ([set()] when there are none) *)
Definition common_wls (rows : list mrow) : list Z :=
  match map (fun r => map fst (m_spectral r)) (filter (fun r => nonempty (m_spectral r)) rows) with
  | [] => []
  | s0 :: rest => filter (fun w => forallb (fun s => existsb (Z.eqb w) s) rest) s0
  end.

(** [spec_wls_sorted] *)
Definition spec_wls (rows : list mrow) : list Z :=
  if has_spec rows then sorted_set (common_wls rows) else [].

Definition spec_field (wl : Z) : string := "SPEC_" +++ Py.fmt03d wl.

Definition zero3 (prec : nat) : list token := [TFix prec 0%Q; TFix prec 0%Q; TFix prec 0%Q].

Definition xyz_tokens (row : mrow) : list token :=
  match m_X row, m_Y row, m_Z row with
  | Some x, Some y, Some z => [TFix 6 x; TFix 6 y; TFix 6 z]
  | _, _, _ => zero3 6
  end.

Definition lab_tokens (row : mrow) : list token :=
  match m_L row, m_a row, m_b row with
  | Some l, Some a, Some b => [TFix 2 l; TFix 2 a; TFix 2 b]
  | _, _, _ => zero3 2
  end.

Definition spec_tokens (wls : list Z) (row : mrow) : list token :=
  map (fun wl => TFix 6 (match dict_get Z.eqb wl (m_spectral row) with
                         | Some v => v
                         | None => 0%Q
                         end)) wls.

Definition spectral_header (hs : bool) (wls : list Z) : list string :=
  if hs then
    kv "INSTRUMENT_TYPE_SPECTRAL" "YES"
    :: match wls with
       | [] => []
       | w0 :: _ =>
           [kv "SPECTRAL_BANDS" (Py.nat_str (length wls));
            kv "SPECTRAL_START_NM" (Py.z_str w0 +++ ".000000");
            kv "SPECTRAL_END_NM" (Py.z_str (last wls w0) +++ ".000000")]
       end
  else [kv "INSTRUMENT_TYPE_SPECTRAL" "NO"].

Definition empty_row : mrow :=
  {| m_name := EmptyString; m_date := EmptyString; m_test_mode := EmptyString;
     m_lsag := EmptyString; m_L := None; m_a := None; m_b := None;
     m_X := None; m_Y := None; m_Z := None; m_spectral := [] |}.

(** [loc_by_index]: [if sample_locs and len(sample_locs) >= N]. *)
Definition loc_table (N : nat) (sl : option (list (Z * string))) : option (list string) :=
  match sl with
  | Some l => if nonempty l && (N <=? length l) then Some (map snd (firstn N l)) else None
  | None => None
  end.

Definition whitelist := ["COMP_GREY_STEPS"; "PAPER_SIZE"; "CHART_ID"].

Definition promoted (hls : option (list string)) : list string :=
  match hls with
  | Some l =>
      flat_map (fun hl =>
        let s := Py.strip hl in
        if String.eqb s EmptyString then [] else
        match Re.rmatch Re.promote_re s with
        | Some [key; rest] =>
            if existsb (String.eqb key) whitelist then [key +++ " " +++ rest] else []
        | _ => []
        end) l
  | None => []
  end.

(** One data line of [build_profile.write_ti3]. *)
Definition bp_row (include_xyz include_lab : bool) (wls : list Z)
    (loc_by_index : option (list string)) (i : nat)
    (dv_i : Z * list Q) (row : mrow) : list token :=
  [TInt (fst dv_i)]
  ++ match loc_by_index with Some ls => [TQuoted (nth i ls EmptyString)] | None => [] end
  ++ map (TFix 5) (snd dv_i)
  ++ (if include_xyz then xyz_tokens row else [])
  ++ (if include_lab then lab_tokens row else [])
  ++ (if nonempty wls then spec_tokens wls row else []).

(** [build_profile.write_ti3] (pass-through writer).  [now] is the
    [datetime.now()] stamp of the [CREATED] line. *)
Definition write_ti3 (now : string) (dfs : list string) (dv : list (Z * list Q))
    (cr30 : mset) (sl : option (list (Z * string))) (device_class : string)
    (hls : option (list string)) : ti3_doc :=
  let rows := ms_rows cr30 in
  let include_xyz := has_xyz rows in
  let include_lab := has_lab rows in
  let pcs := if include_xyz then "XYZ" else if include_lab then "LAB" else "XYZ" in
  let color_rep := "i" +++ dev_tag dfs +++ "_" +++ pcs in
  let N := Nat.min (length dv) (length rows) in
  let loc_by_index := loc_table N sl in
  let wls := spec_wls rows in
  let fields :=
    ["SAMPLE_ID"]
    ++ (if is_some loc_by_index then ["SAMPLE_LOC"] else [])
    ++ dfs
    ++ (if include_xyz then ["XYZ_X"; "XYZ_Y"; "XYZ_Z"] else [])
    ++ (if include_lab then ["LAB_L"; "LAB_A"; "LAB_B"] else [])
    ++ map spec_field wls in
  let ordered_rows := firstn N rows in
  {| t_header :=
       ["CTI3   "; EmptyString;
        kv "DESCRIPTOR" "CR30 converted measurements";
        kv "ORIGINATOR" "build_profile.py";
        kv "CREATED" now;
        kv "DEVICE_CLASS" device_class;
        kv "COLOR_REP" color_rep]
       ++ spectral_header (has_spec rows) wls
       ++ promoted hls;
     t_fields := fields;
     t_nsets := N;
     t_data := map (fun i => bp_row include_xyz include_lab wls loc_by_index i
                               (nth i dv (0%Z, [])) (nth i ordered_rows empty_row))
                   (seq 0 N) |}.

(** [cr30_to_ti3.lab_to_xyz] *)
Definition ref_white (illuminant : string) : Q * Q * Q :=
  if String.eqb (Py.upper illuminant) "D50" then (96422 # 1000, 100 # 1, 82521 # 1000)
  else if String.eqb (Py.upper illuminant) "D65" then (95047 # 1000, 100 # 1, 108883 # 1000)
  else (96422 # 1000, 100 # 1, 82521 # 1000).

Definition f_inv (t : Q) : Q :=
  let delta := 6 # 29 in
  if negb (Qle_bool t delta) then (t * t * t)%Q else ((3 # 1) * delta * delta * (t - (4 # 29)))%Q.

Definition lab_to_xyz (L a b : Q) (illuminant : string) : Q * Q * Q :=
  let '(Xn, Yn, Zn) := ref_white illuminant in
  let fy := ((L + (16 # 1)) / (116 # 1))%Q in
  let fx := (fy + a / (500 # 1))%Q in
  let fz := (fy - b / (200 # 1))%Q in
  ((Xn * f_inv fx)%Q, (Yn * f_inv fy)%Q, (Zn * f_inv fz)%Q).

(** XYZ tokens of [cr30_to_ti3.write_ti3]: back-filled from Lab. *)
Definition xyz_tokens_sib (row : mrow) : list token :=
  match m_X row, m_Y row, m_Z row with
  | Some x, Some y, Some z => [TFix 6 x; TFix 6 y; TFix 6 z]
  | _, _, _ =>
      match m_L row, m_a row, m_b row with
      | Some l, Some a, Some b =>
          let '(xc, yc, zc) := lab_to_xyz l a b "D50" in [TFix 6 xc; TFix 6 yc; TFix 6 zc]
      | _, _, _ => zero3 6
      end
  end.

(** [include_xyz], [include_lab] of [cr30_to_ti3.write_ti3]. *)
Definition sib_include (hx hl hs prefer_spectral prefer_xyz_over_lab : bool) : bool * bool :=
  if hs && prefer_spectral then (false, false)
  else if hx && (negb hl || prefer_xyz_over_lab) then (true, false)
  else if hl then (false, true)
  else (false, false).

Definition sib_row (include_xyz include_lab : bool) (wls : list Z)
    (dv_i : Z * list Q) (row : mrow) : list token :=
  [TInt (fst dv_i)]
  ++ map (TFix 5) (snd dv_i)
  ++ (if include_xyz then xyz_tokens_sib row else [])
  ++ (if include_lab then lab_tokens row else [])
  ++ (if nonempty wls then spec_tokens wls row else []).

(** [cr30_to_ti3.write_ti3] (single-path writer). *)
Definition write_ti3_sib (now : string) (dfs : list string) (dv : list (Z * list Q))
    (cr30 : mset) (device_class : string)
    (prefer_spectral prefer_xyz_over_lab : bool) : ti3_doc :=
  let rows := ms_rows cr30 in
  let hl := has_lab rows in
  let hx := has_xyz rows in
  let hs := has_spec rows in
  let '(include_xyz, include_lab) := sib_include hx hl hs prefer_spectral prefer_xyz_over_lab in
  let pcs := if include_xyz || (hs && prefer_spectral) then "XYZ" else "LAB" in
  let color_rep := "i" +++ dev_tag dfs +++ "_" +++ pcs in
  let wls := spec_wls rows in
  let fields :=
    ["SAMPLE_ID"] ++ dfs
    ++ (if include_xyz then ["XYZ_X"; "XYZ_Y"; "XYZ_Z"] else [])
    ++ (if include_lab then ["LAB_L"; "LAB_A"; "LAB_B"] else [])
    ++ map spec_field wls in
  let N := Nat.min (length dv) (length rows) in
  let ordered_rows := firstn N rows in
  {| t_header :=
       ["CTI3   "; EmptyString;
        kv "DESCRIPTOR" "CR30 converted measurements";
        kv "ORIGINATOR" "cr30_to_ti3.py";
        kv "CREATED" now;
        kv "DEVICE_CLASS" device_class;
        kv "COLOR_REP" color_rep]
       ++ spectral_header hs wls
       ++ (match ms_illum_code cr30 with
           | Some ls => if String.eqb ls EmptyString then [] else ["# " +++ kv "ILLUMINANT_CODE" ls]
           | None => [] end)
       ++ (match ms_observer_deg cr30 with
           | Some o => if Z.eqb o 0 then [] else ["# " +++ kv "OBSERVER" (Py.z_str o +++ " deg")]
           | None => [] end)
       ++ ["# " +++ kv "INSTRUMENT" "CHNSPEC CR30"; "# " +++ kv "GEOMETRY" "45/0"];
     t_fields := fields;
     t_nsets := N;
     t_data := map (fun i => sib_row include_xyz include_lab wls
                               (nth i dv (0%Z, [])) (nth i ordered_rows empty_row))
                   (seq 0 N) |}.

(** ** Conversion runs: a state and error monad over the written files *)

Definition fsys := list (string * ti3_doc).
Definition io (A : Type) := fsys -> result A * fsys.

Definition io_ret {A} (a : A) : io A := fun s => (Ok a, s).
Definition io_bind {A B} (m : io A) (f : A -> io B) : io B :=
  fun s => match m s with
           | (Ok a, s') => f a s'
           | (Err e, s') => (Err e, s')
           end.
Definition io_lift {A} (r : result A) : io A := fun s => (r, s).
Definition write_file (path : string) (d : ti3_doc) : io unit :=
  fun s => (Ok tt, dict_set String.eqb path d s).

Notation "x <- m ;; k" := (io_bind m (fun x => k))
  (at level 61, m at next level, right associativity).

(** [build_profile.main] from the parses to the TI3 write (after the
    preflight checks; [colprof] is outside the model). *)
Definition main_convert (py_float : string -> option Q) (now out_ti3 device_class : string)
    (csv_text : string) (ti2_lines : list string) : io unit :=
  cr30 <- io_lift (parse_cr30_csv py_float csv_text) ;;
  t <- io_lift (parse_ti2 py_float ti2_lines) ;;
  write_file out_ti3
    (write_ti3 now (device_fields t) (device_values t) cr30 (Some (sample_locs t))
       device_class (Some (header_lines t))).

(** [cr30_to_ti3.main] *)
Definition main_convert_sib (py_float : string -> option Q) (now out device_class : string)
    (no_prefer_spectral prefer_lab : bool)
    (csv_text : string) (ti1_lines : list string) : io unit :=
  cr30 <- io_lift (parse_cr30_csv py_float csv_text) ;;
  t <- io_lift (parse_ti1 py_float ti1_lines) ;;
  write_file out
    (write_ti3_sib now (t1_device_fields t) (t1_device_values t) cr30 device_class
       (negb no_prefer_spectral) (negb prefer_lab)).

(** [_read_text_with_fallback]: the text-mode reads with utf-8, utf-8-sig
    and cp1252 are parameters ([None] is [UnicodeDecodeError]; their text
    includes the universal-newline translation of [open(..., 'r')]);
    latin-1 maps each byte to the code point of the same value. *)
Definition latin1 (bs : list Byte.byte) : string :=
  string_of_list_ascii (map ascii_of_byte bs).

(** Universal-newline translation of text mode: [\r\n] and a lone [\r]
    become [\n]. *)
Fixpoint univ_nl (s : string) : string :=
  match s with
  | EmptyString => EmptyString
  | String c r =>
      if Ascii.eqb c "013" then
        match r with
        | String d r' => if Ascii.eqb d "010" then String "010" (univ_nl r')
                         else String "010" (univ_nl r)
        | EmptyString => String "010" EmptyString
        end
      else String c (univ_nl r)
  end.

Definition read_text_with_fallback (utf8 utf8_sig cp1252 : list Byte.byte -> option string)
    (bs : list Byte.byte) : result string :=
  match first_map (fun dec => dec bs) [utf8; utf8_sig; cp1252; fun b => Some (univ_nl (latin1 b))] with
  | Some t => Ok t
  | None => Ok (latin1 bs)
  end.

Definition parse_cr30_csv_file (py_float : string -> option Q)
    (utf8 utf8_sig cp1252 : list Byte.byte -> option string) (bs : list Byte.byte)
  : result mset :=
  rbind (read_text_with_fallback utf8 utf8_sig cp1252 bs) (parse_cr30_csv py_float).

(** ** Concrete inputs of the examples *)

(** A reader for unsigned decimal integer literals, one instance of
    [py_float] used to run the examples. *)
Definition decimal_reader (s : string) : option Q :=
  if nonempty (list_ascii_of_string s) && Py.all_s Py.is_digit s
  then Some (inject_Z (Py.digits_val s)) else None.

Definition nl : string := String "010" EmptyString.

(** CSV with three measurement rows and one row without any value. *)
Definition csv_scenario : string :=
  String.concat nl ["Name;L;a;b"; "p1;50;0;0"; "p2;60;1;1"; "p3;70;2;2"; "p4;;;"].

(** TI2 with four samples, no SAMPLE_LOC, a 2 x 2 strip-then-patch grid. *)
Definition ti2_scenario : list string :=
  ["CTI2"; EmptyString; "STEPS_IN_PASS 2"; "PASSES_IN_STRIPS2 2";
   "INDEX_ORDER STRIP_THEN_PATCH"; "NUMBER_OF_FIELDS 4"; "BEGIN_DATA_FORMAT";
   "SAMPLE_ID RGB_R RGB_G RGB_B"; "END_DATA_FORMAT"; "NUMBER_OF_SETS 4";
   "BEGIN_DATA"; "1 0 0 0"; "2 50 0 0"; "3 0 50 0"; "4 0 0 50"; "END_DATA"].

(** CSV with one measurement row carrying a light source and two
    spectral columns. *)
Definition csv_spectral : string :=
  String.concat nl ["Name;L;Light Source/Angle;400nm;410nm"; "p1;50;D65/10;5;6"].

Definition hm_2x3 : list (string * string) :=
  [("STEPS_IN_PASS", "2"); ("PASSES_IN_STRIPS2", "3"); ("INDEX_ORDER", "STRIP_THEN_PATCH")].

Definition dv_1to6 : list (Z * list Q) :=
  [(1%Z, []); (2%Z, []); (3%Z, []); (4%Z, []); (5%Z, []); (6%Z, [])].

Definition mk_row (l a b x y z : option Q) (sp : list (Z * Q)) : mrow :=
  {| m_name := EmptyString; m_date := EmptyString; m_test_mode := EmptyString;
     m_lsag := EmptyString; m_L := l; m_a := a; m_b := b;
     m_X := x; m_Y := y; m_Z := z; m_spectral := sp |}.

Definition mk_set (rows : list mrow) : mset :=
  {| ms_rows := rows; ms_illum_code := None; ms_observer_deg := None |}.

Definition lab_row : mrow := mk_row (Some 50%Q) (Some 0%Q) (Some 0%Q) None None None [].
Definition x_only_row : mrow := mk_row None None None (Some 1%Q) None None [].

(** A TI1/TI2 layout whose [COLOR_REP] line is its 61st line. *)
Definition late_color_rep : list string :=
  repeat "# note" 60
  ++ ["COLOR_REP " +++ Re.dq_s +++ "RGB" +++ Re.dq_s;
      "BEGIN_DATA_FORMAT"; "SAMPLE_ID RGB_R RGB_G RGB_B"; "END_DATA_FORMAT"].

(** The standard CIE L*a*b* -> XYZ inverse, with its constants
    epsilon = 216/24389 and kappa = 24389/27, for a reference white. *)
Definition cie_eps : Q := 216 # 24389.
Definition cie_kappa : Q := 24389 # 27.
(** The piecewise inverse of the CIE standard for one of [fx], [fz]. *)
Definition cie_piece (t : Q) : Q :=
  if Qlt_le_dec cie_eps (t * t * t) then (t * t * t)%Q
  else (((116 # 1) * t - (16 # 1)) / cie_kappa)%Q.
Definition cie_lab_to_xyz (white : Q * Q * Q) (L a b : Q) : Q * Q * Q :=
  let '(Xn, Yn, Zn) := white in
  let fy := ((L + (16 # 1)) / (116 # 1))%Q in
  let fx := (a / (500 # 1) + fy)%Q in
  let fz := (fy - b / (200 # 1))%Q in
  let xr := cie_piece fx in
  let yr := if Qlt_le_dec (cie_kappa * cie_eps) L then (fy * fy * fy)%Q
            else (L / cie_kappa)%Q in
  let zr := cie_piece fz in
  ((xr * Xn)%Q, (yr * Yn)%Q, (zr * Zn)%Q).

(** The D50 reference white (ASTM E308, 2 degree observer). *)
Definition d50_white : Q * Q * Q := (96422 # 1000, 100 # 1, 82521 # 1000).

(** A layout has a complete format block when some [BEGIN_DATA_FORMAT]
    line precedes some [END_DATA_FORMAT] line. *)
Definition has_format_block (lines : list string) : Prop :=
  exists i j, i < j /\ j < length lines
    /\ Py.strip (nth i lines EmptyString) = "BEGIN_DATA_FORMAT"
    /\ Py.strip (nth j lines EmptyString) = "END_DATA_FORMAT".

Definition complete_xyz (r : mrow) : Prop :=
  exists x y z, m_X r = Some x /\ m_Y r = Some y /\ m_Z r = Some z.
Definition complete_lab (r : mrow) : Prop :=
  exists l a b, m_L r = Some l /\ m_a r = Some a /\ m_b r = Some b.

(** The header cells of a CSV text, as [parse_cr30_csv] reads them. *)
Definition csv_header (text : string) : list string :=
  match map (Py.rstrip_char "013") (Py.split_sep "010" text) with
  | [] => []
  | l0 :: _ => map Py.strip (Py.split_sep ";" l0)
  end.

(** A quoted ([SAMPLE_LOC]) token of a data row. *)
Definition is_quoted (t : token) : bool :=
  match t with TQuoted _ => true | _ => false end.

(** ** Auxiliary predicates of the extra properties *)

(** A line the [parse_ti2] / [parse_ti1] data loop treats as a marker. *)
Definition is_marker (ln : string) : bool :=
  String.eqb (Py.strip ln) "BEGIN_DATA" || String.eqb (Py.strip ln) "END_DATA".

(** The value one TI2 header line gives to key [k] in the header map. *)
Definition header_value (k h : string) : option string :=
  match Re.rmatch Re.header_kv_re (Py.strip h) with
  | Some [k'; v] => if String.eqb k' k then Some v else None
  | _ => None
  end.

(** [NUMBER_OF_SETS] counts the data lines and each data line has one
    value per field of the [BEGIN_DATA_FORMAT] line. *)
Definition rows_match_fields (d : ti3_doc) : Prop :=
  length (t_data d) = t_nsets d
  /\ forall row, In row (t_data d) -> length row = length (t_fields d).

(** Wavelength keys of a spectral map: distinct and within [300, 1100]. *)
Definition good_spec (sp : list (Z * Q)) : Prop :=
  NoDup (map fst sp) /\ forall w, In w (map fst sp) -> (300 <= w <= 1100)%Z.

(** The illuminant code and observer angle a CSV row would set, read as
    [parse_cr30_csv] reads them from its light-source field. *)
Definition illum_of (r : mrow) : option (string * Z) :=
  if negb (String.eqb (m_lsag r) EmptyString) then
    match Re.rmatch Re.illum_re (m_lsag r) with
    | Some [g1; g2] => Some (Py.upper g1, Py.digits_val g2)
    | _ => None
    end
  else None.

Definition illum_inv (rows : list mrow) (ic : option string) (ob : option Z) : Prop :=
  match first_map illum_of rows with
  | Some (c, o) => ic = Some c /\ ob = Some o
  | None => ic = None /\ ob = None
  end.

(** ** [build_profile] paths and the [colprof] command *)


(** ** Paths ([posixpath]) *)
Module Path.

(** [str.rfind(c)]; [None] is [-1]. *)
Fixpoint rfind_go (c : ascii) (s : string) (i : nat) (acc : option nat) : option nat :=
  match s with
  | EmptyString => acc
  | String x r => rfind_go c r (S i) (if Ascii.eqb x c then Some i else acc)
  end.
Definition rfind (c : ascii) (s : string) : option nat := rfind_go c s 0 None.

(** [c in s] for one character *)
Definition has_c (c : ascii) (s : string) : bool := negb (Py.all_s (fun x => negb (Ascii.eqb x c)) s).

Definition endswith (suf s : string) : bool := String.prefix (Py.rev_s suf) (Py.rev_s s).

Definition isabs (p : string) : bool := Py.startswith "/" p.

(** [os.path.join(a, b)] *)
Definition join (a b : string) : string :=
  if Py.startswith "/" b then b
  else if String.eqb a EmptyString || endswith "/" a then a +++ b
  else a +++ "/" +++ b.

(** [os.path.dirname] *)
Definition dirname (p : string) : string :=
  let i := match rfind "/" p with Some k => S k | None => O end in
  let head := Py.take_s i p in
  if negb (String.eqb head EmptyString) && negb (Py.all_s (fun c => Ascii.eqb c "/") head)
  then Py.rstrip_char "/" head else head.

Fixpoint slashes (n : nat) : string :=
  match n with O => EmptyString | S k => String "/" (slashes k) end.

(** One step of the [for comp in comps] loop of [normpath]. *)
Definition norm_step (initial : nat) (nc : list string) (comp : string) : list string :=
  if String.eqb comp EmptyString || String.eqb comp "." then nc
  else if negb (String.eqb comp "..") || ((initial =? 0) && negb (nonempty nc))
          || String.eqb (last nc EmptyString) ".." && nonempty nc
  then nc ++ [comp]
  else removelast nc.

(** [os.path.normpath] *)
Definition normpath (path : string) : string :=
  if String.eqb path EmptyString then "." else
  let initial :=
    if Py.startswith "/" path then
      if Py.startswith "//" path && negb (Py.startswith "///" path) then 2 else 1
    else 0 in
  let comps := fold_left (norm_step initial) (Py.split_sep "/" path) [] in
  let p := slashes initial +++ String.concat "/" comps in
  if String.eqb p EmptyString then "." else p.

(** [os.path.abspath] with the working directory [cwd] *)
Definition abspath (cwd p : string) : string :=
  if isabs p then normpath p else normpath (join cwd p).

(** [os.path.splitext(p)[0]] *)
Definition splitext_root (p : string) : string :=
  match rfind "." p with
  | None => p
  | Some d =>
      let sep_ok := match rfind "/" p with None => true | Some s => s <? d end in
      let fi := match rfind "/" p with None => O | Some s => S s end in
      if sep_ok && existsb (fun k => match String.get k p with
                                     | Some ch => negb (Ascii.eqb ch ".")
                                     | None => false
                                     end) (seq fi (d - fi))
      then Py.take_s d p else p
  end.

End Path.

(** [build_profile]'s module paths and [resolve_input] / [resolve_output].
    [here] is [os.path.dirname(__file__)], [cwd] the working directory. *)
Section Resolve.
Variables here cwd : string.

Definition WS_ROOT : string := Path.abspath cwd (Path.join here "..").
Definition IN_DIR : string := Path.join here "input".
Definition OUT_DIR : string := Path.join here "output".

Definition resolve_input (p : string) : string :=
  if String.eqb p EmptyString then p
  else if Path.isabs p then p
  else if Path.has_c "/" p then Path.normpath (Path.join WS_ROOT p)
  else Path.join IN_DIR p.

(** The second component is the list of directories passed to [_ensure_dir]
    so far, in call order. *)
Definition resolve_output (p : string) (made : list string) : string * list string :=
  if String.eqb p EmptyString then (p, made)
  else if Path.isabs p then
    (p, made ++ [if String.eqb (Path.dirname p) EmptyString then "." else Path.dirname p])
  else if Path.has_c "/" p then
    let out_path := Path.normpath (Path.join WS_ROOT p) in
    (out_path, made ++ [Path.dirname out_path])
  else (Path.join OUT_DIR p, made ++ [OUT_DIR]).

End Resolve.

(** [needle in hay] for strings *)
Fixpoint contains (needle hay : string) : bool :=
  String.prefix needle hay ||
  match hay with EmptyString => false | String _ r => contains needle r end.

(** The [[colprof]] section of the configuration, as read by [main]
    ([cfg.get] / [cfg.getboolean] with their fallbacks already applied). *)
Record colprof_cfg := {
  cp_quality : string; cp_b2a : string; cp_illum : string; cp_observer : string;
  cp_algorithm : string; cp_demphasis : string; cp_avgdev : string;
  cp_fwa_enable : bool; cp_fwa_illum : string;
  cp_source_map_perc : string; cp_source_map_both : string;
  cp_use_col_src_p : bool; cp_use_col_src_s : bool;
  cp_source_gamut_file : string; cp_abstract_chain : string;
  cp_perc_intent : string; cp_sat_intent : string; cp_view_in : string; cp_view_out : string;
  cp_gamut_vrml : bool; cp_manufacturer : string; cp_model : string; cp_copyright_s : string;
  cp_attributes : string; cp_default_intent : string;
  cp_total_ink : string; cp_black_ink : string; cp_black_gen : string; cp_k_locus : string;
  cp_no_device_shaper : bool; cp_no_grid_pos : bool; cp_no_output_shaper : bool; cp_no_embed_ti3 : bool;
  cp_input_auto_wp : bool; cp_input_force_abs : bool; cp_input_clip_wp : bool;
  cp_restrict_positive : bool; cp_whitepoint_scale : string }.

(** [has_spectral]: the first 4096 characters of the written [.ti3];
    [None] when opening or reading it raises. *)
Definition detect_spectral (text : option string) : bool :=
  match text with
  | None => false
  | Some t =>
      let head := Py.take_s 4096 t in
      contains ("INSTRUMENT_TYPE_SPECTRAL " +++ Re.dq_s +++ "YES" +++ Re.dq_s) head
      || contains "SPEC_" head
  end.

(** [if v: cmd.extend([flag, v])] *)
Definition opt_arg (flag v : string) : list string :=
  if String.eqb v EmptyString then [] else [flag; v].
(** [if b: cmd.append(flag)] *)
Definition opt_flag (b : bool) (flag : string) : list string :=
  if b then [flag] else [].

Section Colprof.
(** [isfile] is [os.path.isfile]; [shlex_split] is [shlex.split], [None]
    when it raises. *)
Variables here cwd : string.
Variable isfile : string -> bool.
Variable shlex_split : string -> option (list string).

Definition is_file_like (v : string) : bool :=
  existsb (fun e => Path.endswith e (Py.lower v)) [".icc"; ".icm"; ".jpg"; ".jpeg"; ".tif"; ".tiff"].

(** [_append_source_map] *)
Definition append_source_map (flag v : string) : list string :=
  if String.eqb v EmptyString then []
  else if is_file_like v then
    let cand := resolve_input here cwd v in
    if isfile cand then [flag; cand] else []
  else [flag; v].

(** [if v: cmd.append(flag); cmd.extend(shlex.split(v))] *)
Definition opt_split (flag v : string) : option (list string) :=
  if String.eqb v EmptyString then Some []
  else match shlex_split v with Some ws => Some (flag :: ws) | None => None end.

(** The [colprof] command [main] builds and passes to [run]. *)
Definition colprof_cmd (c : colprof_cfg) (has_spectral : bool)
    (desc out_icc out_ti3 : string) : option (list string) :=
  let base := Path.splitext_root out_ti3 in
  match opt_split "-k" (cp_black_gen c), opt_split "-K" (cp_k_locus c) with
  | Some kg, Some kl =>
      Some (["colprof"; "-v"; "-q" +++ cp_quality c; "-b" +++ cp_b2a c]
        ++ opt_arg "-a" (cp_algorithm c) ++ opt_arg "-V" (cp_demphasis c) ++ opt_arg "-r" (cp_avgdev c)
        ++ (if cp_fwa_enable c && has_spectral then
              (if String.eqb (cp_fwa_illum c) EmptyString then ["-f"] else ["-f"; cp_fwa_illum c])
            else [])
        ++ append_source_map "-s" (cp_source_map_perc c)
        ++ append_source_map "-S" (cp_source_map_both c)
        ++ opt_flag (cp_use_col_src_p c) "-nP" ++ opt_flag (cp_use_col_src_s c) "-nS"
        ++ opt_arg "-g" (cp_source_gamut_file c) ++ opt_arg "-p" (cp_abstract_chain c)
        ++ opt_arg "-t" (cp_perc_intent c) ++ opt_arg "-T" (cp_sat_intent c)
        ++ opt_arg "-c" (cp_view_in c) ++ opt_arg "-d" (cp_view_out c)
        ++ opt_flag (cp_gamut_vrml c) "-P"
        ++ opt_arg "-A" (cp_manufacturer c) ++ opt_arg "-M" (cp_model c) ++ opt_arg "-C" (cp_copyright_s c)
        ++ opt_arg "-Z" (cp_attributes c) ++ opt_arg "-Z" (cp_default_intent c)
        ++ opt_arg "-l" (cp_total_ink c) ++ opt_arg "-L" (cp_black_ink c)
        ++ kg ++ kl
        ++ opt_flag (cp_no_device_shaper c) "-ni" ++ opt_flag (cp_no_grid_pos c) "-np"
        ++ opt_flag (cp_no_output_shaper c) "-no" ++ opt_flag (cp_no_embed_ti3 c) "-nc"
        ++ opt_flag (cp_input_auto_wp c) "-u" ++ opt_flag (cp_input_force_abs c) "-ua"
        ++ opt_flag (cp_input_clip_wp c) "-uc" ++ opt_flag (cp_restrict_positive c) "-R"
        ++ opt_arg "-U" (cp_whitepoint_scale c)
        ++ (if has_spectral then ["-i"; cp_illum c; "-o"; cp_observer c] else [])
        ++ ["-D"; desc; "-O"; out_icc; base])
  | _, _ => None
  end.

End Colprof.

(** The [[colprof]] settings when the configuration file sets none of
    them (the [fallback=] values of [main]). *)
Definition colprof_defaults : colprof_cfg :=
  {| cp_quality := "m"; cp_b2a := "m"; cp_illum := "D50"; cp_observer := "1931_2";
     cp_algorithm := EmptyString; cp_demphasis := EmptyString; cp_avgdev := EmptyString;
     cp_fwa_enable := false; cp_fwa_illum := EmptyString;
     cp_source_map_perc := EmptyString; cp_source_map_both := EmptyString;
     cp_use_col_src_p := false; cp_use_col_src_s := false;
     cp_source_gamut_file := EmptyString; cp_abstract_chain := EmptyString;
     cp_perc_intent := EmptyString; cp_sat_intent := EmptyString; cp_view_in := EmptyString; cp_view_out := EmptyString;
     cp_gamut_vrml := false; cp_manufacturer := EmptyString; cp_model := EmptyString; cp_copyright_s := EmptyString;
     cp_attributes := EmptyString; cp_default_intent := EmptyString;
     cp_total_ink := EmptyString; cp_black_ink := EmptyString; cp_black_gen := EmptyString; cp_k_locus := EmptyString;
     cp_no_device_shaper := false; cp_no_grid_pos := false; cp_no_output_shaper := false;
     cp_no_embed_ti3 := false; cp_input_auto_wp := false; cp_input_force_abs := false;
     cp_input_clip_wp := false; cp_restrict_positive := false; cp_whitepoint_scale := EmptyString |}.

(** ** Generic lemmas *)

Lemma nth_map_seq {A} (f : nat -> A) n i d :
  i < n -> nth i (map f (seq 0 n)) d = f i.
Proof.
  intros Hi. rewrite nth_indep with (d' := f 0) by (rewrite length_map, length_seq; lia).
  rewrite map_nth, seq_nth by lia. reflexivity.
Qed.

Lemma nth_firstn_lt {A} n (l : list A) i d : i < n -> nth i (firstn n l) d = nth i l d.
Proof.
  revert n l. induction i as [|i IH]; intros [|n] [|x l] Hi; simpl; try lia; auto.
  apply IH. lia.
Qed.

Lemma nth_firstn_eq {A} n (l1 l2 : list A) i d :
  i < n -> firstn n l1 = firstn n l2 -> nth i l1 d = nth i l2 d.
Proof.
  intros Hi Heq. rewrite <- (nth_firstn_lt n l1 i d Hi), Heq, nth_firstn_lt; auto.
Qed.

Lemma existsb_some {A B} (f : A -> option B) (l : list A) :
  existsb (fun r => is_some (f r)) l = true <-> exists r, In r l /\ f r <> None.
Proof.
  rewrite existsb_exists. split.
  - intros [r [Hin Hs]]. exists r. split; auto. destruct (f r); simpl in *; congruence.
  - intros [r [Hin Hs]]. exists r. split; auto. destruct (f r); simpl; congruence.
Qed.

Lemma xyz_tokens_cases (r : mrow) :
  (forall x y z, m_X r = Some x -> m_Y r = Some y -> m_Z r = Some z ->
     xyz_tokens r = [TFix 6 x; TFix 6 y; TFix 6 z])
  /\ (~ complete_xyz r -> xyz_tokens r = zero3 6).
Proof.
  unfold xyz_tokens, complete_xyz. split.
  - intros x y z -> -> ->. reflexivity.
  - intros Hn. destruct (m_X r) as [x|], (m_Y r) as [y|], (m_Z r) as [z|]; auto.
    exfalso. apply Hn. eauto 7.
Qed.

Lemma lab_tokens_cases (r : mrow) :
  (forall l a b, m_L r = Some l -> m_a r = Some a -> m_b r = Some b ->
     lab_tokens r = [TFix 2 l; TFix 2 a; TFix 2 b])
  /\ (~ complete_lab r -> lab_tokens r = zero3 2).
Proof.
  unfold lab_tokens, complete_lab. split.
  - intros l a b -> -> ->. reflexivity.
  - intros Hn. destruct (m_L r) as [l|], (m_a r) as [a|], (m_b r) as [b|]; auto.
    exfalso. apply Hn. eauto 7.
Qed.

(** The data block of both writers, row by row. *)
Lemma write_ti3_rows now dfs dv cr30 sl dc hls i :
  let rows := ms_rows cr30 in
  let N := Nat.min (length dv) (length rows) in
  i < N ->
  nth i (t_data (write_ti3 now dfs dv cr30 sl dc hls)) [] =
  bp_row (has_xyz rows) (has_lab rows) (spec_wls rows) (loc_table N sl) i
         (nth i dv (0%Z, [])) (nth i rows empty_row).
Proof.
  cbv zeta. intros Hi. unfold write_ti3. cbv zeta. simpl t_data.
  rewrite nth_map_seq by exact Hi. rewrite nth_firstn_lt by exact Hi. reflexivity.
Qed.

Lemma write_ti3_sib_rows now dfs dv cr30 dc ps px i :
  let rows := ms_rows cr30 in
  let inc := sib_include (has_xyz rows) (has_lab rows) (has_spec rows) ps px in
  i < Nat.min (length dv) (length rows) ->
  nth i (t_data (write_ti3_sib now dfs dv cr30 dc ps px)) [] =
  sib_row (fst inc) (snd inc) (spec_wls rows) (nth i dv (0%Z, [])) (nth i rows empty_row).
Proof.
  cbv zeta. intros Hi. unfold write_ti3_sib. cbv zeta.
  destruct (sib_include _ _ _ ps px) as [ix il]. simpl t_data.
  rewrite nth_map_seq by exact Hi. rewrite nth_firstn_lt by exact Hi. reflexivity.
Qed.

(** ** C1: positional pairing *)

(** C1 (amended).  Both writers write [N = min(len(device_values),
    len(rows))] data lines; line [i] is built from [device_values[i]] and
    [rows[i]] together with the aggregates [has_xyz], [has_lab] and the
    spectral band list, which are computed over all parsed rows; device
    samples at positions [>= N] do not influence the document at all. *)
Theorem C1_pairing_amended :
  (forall now dfs dv cr30 sl dc hls,
     let rows := ms_rows cr30 in
     let d := write_ti3 now dfs dv cr30 sl dc hls in
     let N := Nat.min (length dv) (length rows) in
     t_nsets d = N /\ length (t_data d) = N
     /\ (forall i, i < N ->
           nth i (t_data d) [] =
           bp_row (has_xyz rows) (has_lab rows) (spec_wls rows) (loc_table N sl) i
                  (nth i dv (0%Z, [])) (nth i rows empty_row))
     /\ (forall dv', firstn N dv' = firstn N dv ->
           Nat.min (length dv') (length rows) = N ->
           write_ti3 now dfs dv' cr30 sl dc hls = d))
  /\
  (forall now dfs dv cr30 dc ps px,
     let rows := ms_rows cr30 in
     let d := write_ti3_sib now dfs dv cr30 dc ps px in
     let N := Nat.min (length dv) (length rows) in
     let inc := sib_include (has_xyz rows) (has_lab rows) (has_spec rows) ps px in
     t_nsets d = N /\ length (t_data d) = N
     /\ (forall i, i < N ->
           nth i (t_data d) [] =
           sib_row (fst inc) (snd inc) (spec_wls rows) (nth i dv (0%Z, [])) (nth i rows empty_row))
     /\ (forall dv', firstn N dv' = firstn N dv ->
           Nat.min (length dv') (length rows) = N ->
           write_ti3_sib now dfs dv' cr30 dc ps px = d)).
Proof.
  split.
  - intros now dfs dv cr30 sl dc hls. cbv zeta. split; [|split; [|split]].
    + reflexivity.
    + unfold write_ti3. cbv zeta. simpl. rewrite length_map, length_seq. reflexivity.
    + intros i Hi. apply write_ti3_rows. exact Hi.
    + intros dv' Hfirst Hmin. unfold write_ti3. cbv zeta. rewrite Hmin. f_equal.
      apply map_ext_in. intros i Hin. apply in_seq in Hin.
      rewrite (nth_firstn_eq (Nat.min (length dv) (length (ms_rows cr30))) dv' dv i
                 (0%Z, [])) by (lia || exact Hfirst).
      reflexivity.
  - intros now dfs dv cr30 dc ps px. cbv zeta. split; [|split; [|split]].
    + unfold write_ti3_sib. cbv zeta. destruct (sib_include _ _ _ ps px). reflexivity.
    + unfold write_ti3_sib. cbv zeta. destruct (sib_include _ _ _ ps px). simpl.
      rewrite length_map, length_seq. reflexivity.
    + intros i Hi. apply write_ti3_sib_rows. exact Hi.
    + intros dv' Hfirst Hmin. unfold write_ti3_sib. cbv zeta. rewrite Hmin.
      destruct (sib_include _ _ _ ps px) as [ix il]. f_equal.
      apply map_ext_in. intros i Hin. apply in_seq in Hin.
      rewrite (nth_firstn_eq (Nat.min (length dv) (length (ms_rows cr30))) dv' dv i
                 (0%Z, [])) by (lia || exact Hfirst).
      reflexivity.
Qed.

(** C1 (counterexample).  Two measurement lists that agree on the one
    retained row ([N = 1]) but differ at position 1 give different data
    lines: the row beyond [N] switches the XYZ group on. *)
Lemma C1_rows_beyond_N_read :
  let dv := [(1%Z, [])] in
  let d1 := write_ti3 "t" [] dv (mk_set [lab_row; x_only_row]) None "OUTPUT" None in
  let d2 := write_ti3 "t" [] dv (mk_set [lab_row; lab_row]) None "OUTPUT" None in
  firstn 1 [lab_row; x_only_row] = firstn 1 [lab_row; lab_row]
  /\ t_nsets d1 = 1 /\ t_nsets d2 = 1
  /\ t_data d1 <> t_data d2.
Proof.
  cbv zeta. split; [reflexivity|split; [reflexivity|split; [reflexivity|]]].
  vm_compute. discriminate.
Qed.

(** ** C2: colorimetric field groups of the pass-through writer *)

(** C2 (amended).  The XYZ group is written iff some parsed row (at any
    position, retained or not) has [X]; the Lab group iff some parsed row
    has [L].  Within an included group a retained row lacking the complete
    triple gets zeros, and a row with it gets its own values: nothing is
    computed from the other color form. *)
Theorem C2_field_groups_amended :
  forall now dfs dv cr30 sl dc hls,
    let rows := ms_rows cr30 in
    let d := write_ti3 now dfs dv cr30 sl dc hls in
    let N := Nat.min (length dv) (length rows) in
    (has_xyz rows = true <-> exists r, In r rows /\ m_X r <> None)
    /\ (has_lab rows = true <-> exists r, In r rows /\ m_L r <> None)
    /\ t_fields d =
         ["SAMPLE_ID"]
         ++ (if is_some (loc_table N sl) then ["SAMPLE_LOC"] else [])
         ++ dfs
         ++ (if has_xyz rows then ["XYZ_X"; "XYZ_Y"; "XYZ_Z"] else [])
         ++ (if has_lab rows then ["LAB_L"; "LAB_A"; "LAB_B"] else [])
         ++ map spec_field (spec_wls rows)
    /\ (forall i, i < N ->
          let r := nth i rows empty_row in
          nth i (t_data d) [] =
          [TInt (fst (nth i dv (0%Z, [])))]
          ++ match loc_table N sl with Some ls => [TQuoted (nth i ls EmptyString)] | None => [] end
          ++ map (TFix 5) (snd (nth i dv (0%Z, [])))
          ++ (if has_xyz rows then xyz_tokens r else [])
          ++ (if has_lab rows then lab_tokens r else [])
          ++ (if nonempty (spec_wls rows) then spec_tokens (spec_wls rows) r else []))
    /\ (forall r, ~ complete_xyz r -> xyz_tokens r = zero3 6)
    /\ (forall r x y z, m_X r = Some x -> m_Y r = Some y -> m_Z r = Some z ->
          xyz_tokens r = [TFix 6 x; TFix 6 y; TFix 6 z])
    /\ (forall r, ~ complete_lab r -> lab_tokens r = zero3 2)
    /\ (forall r l a b, m_L r = Some l -> m_a r = Some a -> m_b r = Some b ->
          lab_tokens r = [TFix 2 l; TFix 2 a; TFix 2 b]).
Proof.
  intros now dfs dv cr30 sl dc hls. cbv zeta.
  split; [apply existsb_some|].
  split; [apply existsb_some|].
  split; [reflexivity|].
  split; [intros i Hi; rewrite write_ti3_rows by exact Hi; reflexivity|].
  split; [intros r; apply (xyz_tokens_cases r)|].
  split; [intros r; apply (xyz_tokens_cases r)|].
  split; [intros r; apply (lab_tokens_cases r)|].
  intros r; apply (lab_tokens_cases r).
Qed.

(** C2 (counterexample).  One device sample and one parsed row that has [X]
    but no [Y]: the XYZ group is written although no retained row carries a
    complete XYZ triple. *)
Lemma C2_xyz_group_without_complete_triple :
  let d := write_ti3 "t" [] [(1%Z, [])] (mk_set [x_only_row]) None "OUTPUT" None in
  In "XYZ_X" (t_fields d)
  /\ (forall r, In r (firstn (t_nsets d) [x_only_row]) -> m_Y r = None).
Proof.
  cbv zeta. split.
  - vm_compute. right. left. reflexivity.
  - vm_compute. intros r [<-|[]]. reflexivity.
Qed.

(** ** Sorting and set lemmas *)

Lemma insert_by_perm {A} (key : A -> Z) x l : Permutation (insert_by key x l) (x :: l).
Proof.
  induction l as [|y l IH]; simpl; [auto|].
  destruct (key x <=? key y)%Z; [auto|].
  eapply perm_trans; [apply perm_skip, IH|]. apply perm_swap.
Qed.

Lemma sort_by_perm {A} (key : A -> Z) l : Permutation (sort_by key l) l.
Proof.
  induction l as [|x l IH]; simpl; [auto|].
  eapply perm_trans; [apply insert_by_perm|]. auto.
Qed.

Lemma insert_by_sorted {A} (key : A -> Z) x l :
  Sorted (fun a b => (key a <= key b)%Z) l ->
  Sorted (fun a b => (key a <= key b)%Z) (insert_by key x l).
Proof.
  induction 1 as [|y l Hs IH Hhd]; simpl; [auto|].
  destruct (key x <=? key y)%Z eqn:E.
  - apply Z.leb_le in E. constructor; [constructor; auto|constructor; exact E].
  - apply Z.leb_gt in E. constructor; [exact IH|].
    destruct l as [|z l']; simpl; [constructor; lia|].
    inversion Hhd; subst.
    destruct (key x <=? key z)%Z; constructor; lia.
Qed.

Lemma sort_by_sorted {A} (key : A -> Z) l :
  Sorted (fun a b => (key a <= key b)%Z) (sort_by key l).
Proof.
  induction l as [|x l IH]; simpl; [constructor|]. apply insert_by_sorted, IH.
Qed.

(** On a list already ordered by key, the stable sort changes nothing. *)
Lemma insert_by_head {A} (key : A -> Z) x l :
  (forall y, In y l -> (key x <= key y)%Z) -> insert_by key x l = x :: l.
Proof.
  destruct l as [|y l]; simpl; intros H; [reflexivity|].
  replace (key x <=? key y)%Z with true; [reflexivity|].
  symmetry. apply Z.leb_le, H. left. reflexivity.
Qed.

Lemma sort_by_id {A} (key : A -> Z) l :
  StronglySorted (fun a b => (key a <= key b)%Z) l -> sort_by key l = l.
Proof.
  induction 1 as [|x l Hs IH Hall]; simpl; [reflexivity|].
  rewrite IH. apply insert_by_head. intros y Hy.
  rewrite Forall_forall in Hall. apply Hall, Hy.
Qed.

Lemma dedup_Z_In w l : In w (dedup_Z l) <-> In w l.
Proof.
  induction l as [|x l IH]; simpl; [tauto|].
  rewrite filter_In, IH. destruct (Z.eqb_spec w x) as [->|Hne]; simpl; intuition.
Qed.

Lemma dedup_Z_NoDup l : NoDup (dedup_Z l).
Proof.
  induction l as [|x l IH]; simpl; constructor.
  - rewrite filter_In. rewrite Z.eqb_refl. simpl. intros [_ H]. discriminate.
  - apply NoDup_filter, IH.
Qed.

Lemma sorted_set_In w l : In w (sorted_set l) <-> In w l.
Proof.
  unfold sorted_set. split; intros H.
  - apply dedup_Z_In. eapply Permutation_in; [apply sort_by_perm|exact H].
  - eapply Permutation_in; [symmetry; apply sort_by_perm|]. apply dedup_Z_In, H.
Qed.

Lemma sorted_set_strict l : StronglySorted Z.lt (sorted_set l).
Proof.
  unfold sorted_set.
  assert (Hnd : NoDup (sort_by (fun z => z) (dedup_Z l))).
  { eapply Permutation_NoDup; [symmetry; apply sort_by_perm|apply dedup_Z_NoDup]. }
  assert (Hss : StronglySorted Z.le (sort_by (fun z => z) (dedup_Z l))).
  { apply Sorted_StronglySorted; [intros a b c; lia|]. apply (sort_by_sorted (fun z => z)). }
  revert Hnd Hss. generalize (sort_by (fun z => z) (dedup_Z l)) as s.
  induction s as [|x s IH]; intros Hnd Hss; [constructor|].
  inversion Hnd; subst. inversion Hss; subst. constructor; [apply IH; auto|].
  rewrite Forall_forall in *. intros y Hy.
  assert (x <> y) by (intros ->; contradiction). specialize (H4 y Hy). lia.
Qed.

Lemma common_wls_In rows w :
  has_spec rows = true ->
  (In w (common_wls rows) <->
   forall r, In r rows -> nonempty (m_spectral r) = true -> In w (map fst (m_spectral r))).
Proof.
  unfold has_spec, common_wls. intros Hs.
  assert (Hall : forall P : mrow -> Prop,
             (forall r, In r rows -> nonempty (m_spectral r) = true -> P r) <->
             Forall P (filter (fun r => nonempty (m_spectral r)) rows)).
  { intros P. rewrite Forall_forall. setoid_rewrite filter_In. firstorder. }
  rewrite Hall.
  assert (Hne : filter (fun r => nonempty (m_spectral r)) rows <> []).
  { apply existsb_exists in Hs. destruct Hs as [r [Hin Hr]].
    intros Heq. assert (In r (filter (fun r => nonempty (m_spectral r)) rows))
      by (apply filter_In; auto). rewrite Heq in H. exact H. }
  destruct (filter (fun r => nonempty (m_spectral r)) rows) as [|r0 rest]; [congruence|].
  simpl. rewrite filter_In, forallb_forall, Forall_cons_iff, Forall_forall.
  split.
  - intros [Hin Hrest]. split; [exact Hin|]. intros r Hr.
    specialize (Hrest (map fst (m_spectral r)) (in_map _ _ _ Hr)).
    apply existsb_exists in Hrest. destruct Hrest as [w' [Hw' Heq]].
    apply Z.eqb_eq in Heq. subst. exact Hw'.
  - intros [Hin Hrest]. split; [exact Hin|]. intros s Hsin.
    apply in_map_iff in Hsin. destruct Hsin as [r [<- Hr]].
    apply existsb_exists. exists w. split; [apply Hrest, Hr|apply Z.eqb_refl].
Qed.

Lemma spec_tokens_nth wls r k :
  k < length wls ->
  nth k (spec_tokens wls r) (TInt 0%Z) =
  TFix 6 (match dict_get Z.eqb (nth k wls 0%Z) (m_spectral r) with
          | Some v => v | None => 0%Q end).
Proof.
  intros Hk. unfold spec_tokens.
  rewrite nth_indep with (d' := TFix 6 (match dict_get Z.eqb 0%Z (m_spectral r) with
                                        | Some v => v | None => 0%Q end))
    by (rewrite length_map; exact Hk).
  apply (map_nth (fun wl => TFix 6 (match dict_get Z.eqb wl (m_spectral r) with
                                    | Some v => v | None => 0%Q end))).
Qed.

(** ** C3: spectral bands *)

(** C3.  Suppose retained row [i0 < N] has a non-empty spectral map.  Then
    the emitted band list of the pass-through writer holds exactly the
    wavelengths that are keys of every parsed row with spectral data (rows
    whose spectral map is empty impose nothing), without repetition and in
    ascending order; the field list ends with one [SPEC_www] field per band;
    every data row ends with one cell per band, holding the row's value for
    that band or zero when the row has none.  Worked case: rows with bands
    [{400,500}], none, and [{400,500,600}] give the bands [[400; 500]]. *)
Theorem C3_spectral_intersection :
  forall now dfs dv cr30 sl dc hls i0,
    let rows := ms_rows cr30 in
    let d := write_ti3 now dfs dv cr30 sl dc hls in
    let N := Nat.min (length dv) (length rows) in
    let wls := spec_wls rows in
    i0 < N ->
    nonempty (m_spectral (nth i0 rows empty_row)) = true ->
    (forall w, In w wls <->
       forall r, In r rows -> nonempty (m_spectral r) = true -> In w (map fst (m_spectral r)))
    /\ StronglySorted Z.lt wls
    /\ (exists pre, t_fields d = pre ++ map spec_field wls)
    /\ (forall i, i < N -> exists pre,
          nth i (t_data d) [] = pre ++ spec_tokens wls (nth i rows empty_row))
    /\ (forall r k, k < length wls ->
          nth k (spec_tokens wls r) (TInt 0%Z) =
          TFix 6 (match dict_get Z.eqb (nth k wls 0%Z) (m_spectral r) with
                  | Some v => v | None => 0%Q end))
    /\ length (spec_tokens wls (nth i0 rows empty_row)) = length wls
    /\ spec_wls [mk_row None None None None None None [(400%Z, 1%Q); (500%Z, 2%Q)];
                 mk_row None None None None None None [];
                 mk_row None None None None None None [(400%Z, 1%Q); (500%Z, 2%Q); (600%Z, 3%Q)]]
       = [400%Z; 500%Z].
Proof.
  intros now dfs dv cr30 sl dc hls i0. cbv zeta. intros Hi0 Hsp.
  assert (Hhs : has_spec (ms_rows cr30) = true).
  { unfold has_spec. apply existsb_exists. exists (nth i0 (ms_rows cr30) empty_row).
    split; [apply nth_In; lia|exact Hsp]. }
  assert (Hw : spec_wls (ms_rows cr30) = sorted_set (common_wls (ms_rows cr30)))
    by (unfold spec_wls; rewrite Hhs; reflexivity).
  split; [|split; [|split; [|split; [|split; [|split]]]]].
  - intros w. rewrite Hw, sorted_set_In. apply common_wls_In, Hhs.
  - rewrite Hw. apply sorted_set_strict.
  - unfold write_ti3. cbv zeta. simpl t_fields. eexists.
    rewrite !app_assoc, app_comm_cons. reflexivity.
  - intros i Hi. rewrite write_ti3_rows by exact Hi. unfold bp_row.
    destruct (nonempty (spec_wls (ms_rows cr30))) eqn:E.
    + eexists. rewrite !app_assoc. reflexivity.
    + destruct (spec_wls (ms_rows cr30)); [|discriminate].
      simpl spec_tokens. eexists. symmetry. apply app_nil_r.
  - intros r k Hk. apply spec_tokens_nth, Hk.
  - unfold spec_tokens. apply length_map.
  - vm_compute. reflexivity.
Qed.

Lemma C3_spectral_intersection_witness :
  let cr := mk_set [mk_row None None None None None None [(400%Z, 1%Q); (500%Z, 2%Q)];
                    mk_row None None None None None None [(500%Z, 4%Q); (600%Z, 5%Q)]] in
  spec_wls (ms_rows cr) = [500%Z]
  /\ StronglySorted Z.lt (spec_wls (ms_rows cr)).
Proof.
  cbv zeta.
  pose proof (C3_spectral_intersection "t" ["RGB_R"] [(1%Z, [1%Q]); (2%Z, [2%Q])]
    (mk_set [mk_row None None None None None None [(400%Z, 1%Q); (500%Z, 2%Q)];
             mk_row None None None None None None [(500%Z, 4%Q); (600%Z, 5%Q)]])
    None "OUTPUT" None 0) as H.
  cbv zeta in H. destruct H as [_ [Hs _]]; [simpl; lia|reflexivity|].
  split; [vm_compute; reflexivity|exact Hs].
Defined.

(** ** Location labels *)

Lemma row_label_go_app f i s t :
  row_label_go f i (s +++ t) = row_label_go f i s +++ t.
Proof.
  revert i s. induction f as [|f IH]; intros i s; cbn [row_label_go]; [reflexivity|].
  destruct (i / 26 =? 0); [reflexivity|].
  apply (IH (i / 26 - 1) (String (ascii_of_nat (65 + i mod 26)) s)).
Qed.

Lemma row_label_go_fuel f1 f2 i s :
  i < f1 -> i < f2 -> row_label_go f1 i s = row_label_go f2 i s.
Proof.
  revert f2 i s. induction f1 as [|f1 IH]; intros [|f2] i s H1 H2; try lia.
  cbn [row_label_go]. destruct (i / 26 =? 0) eqn:E; [reflexivity|].
  apply Nat.eqb_neq in E.
  assert (i / 26 <= i) by (apply Nat.Div0.div_le_upper_bound; lia).
  apply IH; lia.
Qed.

Lemma row_label_digit d :
  d < 26 -> row_label d = String (ascii_of_nat (65 + d)) EmptyString.
Proof.
  intros Hd. unfold row_label. cbn [row_label_go].
  rewrite Nat.div_small, Nat.mod_small by exact Hd. reflexivity.
Qed.

Lemma row_label_step q d :
  d < 26 ->
  row_label (26 * (q + 1) + d) = row_label q +++ String (ascii_of_nat (65 + d)) EmptyString.
Proof.
  intros Hd. unfold row_label at 1.
  remember (26 * (q + 1) + d) as n eqn:En.
  assert (Hdiv : n / 26 = q + 1).
  { subst n. rewrite Nat.mul_comm, Nat.div_add_l by lia. rewrite Nat.div_small by lia. lia. }
  assert (Hmod : n mod 26 = d).
  { subst n. rewrite Nat.mul_comm, Nat.add_comm, Nat.Div0.mod_add. apply Nat.mod_small, Hd. }
  cbn [row_label_go]. rewrite Hdiv, Hmod.
  replace (q + 1 =? 0) with false by (symmetry; apply Nat.eqb_neq; lia).
  replace (q + 1 - 1) with q by lia.
  change (String (ascii_of_nat (65 + d)) EmptyString)
    with (EmptyString +++ String (ascii_of_nat (65 + d)) EmptyString).
  rewrite row_label_go_app. f_equal. unfold row_label. apply row_label_go_fuel; lia.
Qed.

Lemma map_nth_seq_sorted {B A} (keyB : B -> Z) (key : A -> Z) (F : B -> nat -> A) d :
  (forall b i, key (F b i) = keyB b) ->
  forall l, StronglySorted (fun a b => (keyB a <= keyB b)%Z) l ->
  StronglySorted (fun a b => (key a <= key b)%Z)
                 (map (fun i => F (nth i l d) i) (seq 0 (length l))).
Proof.
  intros HF l Hs. revert F HF. induction Hs as [|x l Hs IH Hall]; intros F HF; simpl.
  - constructor.
  - rewrite <- seq_shift, map_map. constructor.
    + apply (IH (fun b i => F b (S i))). intros b i. apply HF.
    + rewrite Forall_forall in *. intros y Hy. apply in_map_iff in Hy.
      destruct Hy as [i [<- Hi]]. apply in_seq in Hi. rewrite !HF.
      apply Hall, nth_In. lia.
Qed.

Lemma sort_by_fst_sorted {A} (l : list (Z * A)) :
  StronglySorted (fun a b => (fst a <= fst b)%Z) (sort_by fst l).
Proof.
  apply Sorted_StronglySorted; [intros x y z; lia|]. apply (sort_by_sorted fst).
Qed.

(** [derive_locs] when the grid condition holds: the labels in positional
    order, paired with the sorted sample ids. *)
Lemma derive_locs_run pf hm raw c r :
  let dv := sort_by fst raw in
  ti2_grid pf hm = (Some c, Some r) -> (0 < c)%Z -> (0 < r)%Z ->
  Z.of_nat (length dv) = (c * r)%Z ->
  derive_locs pf hm dv =
  map (fun i => (fst (nth i dv (0%Z, [])),
                 grid_label (index_order_of hm) (Z.to_nat c) (Z.to_nat r) i))
      (seq 0 (length dv)).
Proof.
  cbv zeta. intros Hg Hc Hr Hn. unfold derive_locs. rewrite Hg.
  replace ((0 <? c) && (0 <? r) && (Z.of_nat (length (sort_by fst raw)) =? c * r))%Z
    with true by (symmetry; rewrite !andb_true_iff, !Z.ltb_lt, Z.eqb_eq; lia).
  apply sort_by_id.
  apply (map_nth_seq_sorted fst fst
           (fun b i => (fst b, grid_label (index_order_of hm) (Z.to_nat c) (Z.to_nat r) i))).
  - reflexivity.
  - apply sort_by_fst_sorted.
Qed.

(** ** C4: location derivation *)

(** C4.  On the sorted device values [dv] of a layout without explicit
    locations, [derive_locs] yields a non-empty table iff [STEPS_IN_PASS]
    and [PASSES_IN_STRIPS2] parse (through [int(float(...))], so [2.0] is
    read as 2) to positive [cols], [rows] with [cols * rows = len(dv)],
    and the empty table (no locations) otherwise.  When it runs, entry [i]
    is [(sid_i, label i)], the label being
    [row_label (i mod rows) ++ str(i / rows + 1)] for [PATCH_THEN_STRIP]
    and [row_label (i / cols) ++ str(i mod cols + 1)] for [STRIP_THEN_PATCH]
    and any other order; [row_label] is the bijective base-26 numeral
    (0 -> A, 25 -> Z, 26 q + 26 + d -> row_label q followed by letter d).
    With cols 2, rows 3, strip-then-patch and ids 1..6 the labels are
    A1, A2, B1, B2, C1, C2, also when the column count is written [2.0]. *)
Theorem C4_location_derivation :
  (forall pf hm raw,
     let dv := sort_by fst raw in
     (derive_locs pf hm dv <> [] <->
      exists c r, ti2_grid pf hm = (Some c, Some r) /\ (0 < c)%Z /\ (0 < r)%Z
                  /\ Z.of_nat (length dv) = (c * r)%Z)
     /\ (forall c r, ti2_grid pf hm = (Some c, Some r) -> (0 < c)%Z -> (0 < r)%Z ->
           Z.of_nat (length dv) = (c * r)%Z ->
           length (derive_locs pf hm dv) = length dv
           /\ forall i, i < length dv ->
                nth i (derive_locs pf hm dv) (0%Z, EmptyString)
                = (fst (nth i dv (0%Z, [])),
                   if String.eqb (index_order_of hm) "PATCH_THEN_STRIP"
                   then row_label (i mod Z.to_nat r) +++ Py.nat_str (i / Z.to_nat r + 1)
                   else row_label (i / Z.to_nat c) +++ Py.nat_str (i mod Z.to_nat c + 1))))
  /\ (forall d, d < 26 -> row_label d = String (ascii_of_nat (65 + d)) EmptyString)
  /\ (forall q d, d < 26 ->
        row_label (26 * (q + 1) + d) = row_label q +++ String (ascii_of_nat (65 + d)) EmptyString)
  /\ map row_label [0; 25; 26; 27; 701; 702] = ["A"; "Z"; "AA"; "AB"; "ZZ"; "AAA"]
  /\ (forall pf, pf "2" = Some (2 # 1) -> pf "3" = Some (3 # 1) ->
        derive_locs pf hm_2x3 dv_1to6
        = [(1%Z, "A1"); (2%Z, "A2"); (3%Z, "B1"); (4%Z, "B2"); (5%Z, "C1"); (6%Z, "C2")])
  /\ (forall pf, pf "2.0" = Some (2 # 1) -> pf "3" = Some (3 # 1) ->
        map snd (derive_locs pf [("STEPS_IN_PASS", "2.0"); ("PASSES_IN_STRIPS2", "3");
                                 ("INDEX_ORDER", "STRIP_THEN_PATCH")] dv_1to6)
        = ["A1"; "A2"; "B1"; "B2"; "C1"; "C2"]).
Proof.
  split; [|split; [exact row_label_digit|split; [exact row_label_step|idtac]]].
  - intros pf hm raw. cbv zeta. split.
    + split.
      * unfold derive_locs. destruct (ti2_grid pf hm) as [[c|] [r|]];
          try (intros H; exfalso; apply H; reflexivity).
        destruct ((0 <? c) && (0 <? r) && (Z.of_nat (length (sort_by fst raw)) =? c * r))%Z
          eqn:E; [|intros H; exfalso; apply H; reflexivity].
        intros _. exists c, r. rewrite !andb_true_iff, !Z.ltb_lt, Z.eqb_eq in E. tauto.
      * intros (c & r & Hg & Hc & Hr & Hn).
        rewrite (derive_locs_run pf hm raw c r Hg Hc Hr Hn).
        destruct (sort_by fst raw); [simpl in Hn; lia|]. discriminate.
    + intros c r Hg Hc Hr Hn.
      rewrite (derive_locs_run pf hm raw c r Hg Hc Hr Hn). split.
      * rewrite length_map, length_seq. reflexivity.
      * intros i Hi. rewrite nth_map_seq by exact Hi. f_equal.
        unfold grid_label. destruct (String.eqb (index_order_of hm) "STRIP_THEN_PATCH") eqn:E.
        -- apply String.eqb_eq in E. rewrite E. reflexivity.
        -- reflexivity.
  - split; [vm_compute; reflexivity|split].
    + intros pf H2 H3.
      assert (Hg : ti2_grid pf hm_2x3 = (Some 2%Z, Some 3%Z))
        by (unfold ti2_grid, grid_dim; vm_compute; rewrite H2, H3; reflexivity).
      unfold derive_locs. rewrite Hg. vm_compute. reflexivity.
    + intros pf H2 H3.
      assert (Hg : ti2_grid pf [("STEPS_IN_PASS", "2.0"); ("PASSES_IN_STRIPS2", "3");
                                ("INDEX_ORDER", "STRIP_THEN_PATCH")] = (Some 2%Z, Some 3%Z))
        by (unfold ti2_grid, grid_dim; vm_compute; rewrite H2, H3; reflexivity).
      unfold derive_locs. rewrite Hg. vm_compute. reflexivity.
Qed.

(** ** Location column *)

Lemma numeric_groups_unquoted r wls :
  forallb (fun t => negb (is_quoted t)) (xyz_tokens r) = true
  /\ forallb (fun t => negb (is_quoted t)) (lab_tokens r) = true
  /\ forallb (fun t => negb (is_quoted t)) (spec_tokens wls r) = true.
Proof.
  split; [|split].
  - unfold xyz_tokens. destruct (m_X r), (m_Y r), (m_Z r); reflexivity.
  - unfold lab_tokens. destruct (m_L r), (m_a r), (m_b r); reflexivity.
  - unfold spec_tokens. apply forallb_forall. intros t Ht.
    apply in_map_iff in Ht. destruct Ht as [w [<- _]]. reflexivity.
Qed.

Lemma nth_map_snd_firstn (l : list (Z * string)) N i :
  i < N -> N <= length l ->
  nth i (map snd (firstn N l)) EmptyString = snd (nth i l (0%Z, EmptyString)).
Proof.
  intros Hi HN.
  rewrite nth_indep with (d' := snd (0%Z, EmptyString))
    by (rewrite length_map, length_firstn; lia).
  rewrite map_nth, nth_firstn_lt by exact Hi. reflexivity.
Qed.

(** ** C5: location column *)

(** C5.  Let [N = min(len(device_values), len(rows))].  When the layout's
    location table [l] is present and non-empty with [len(l) >= N] (the
    layout parser represents "no locations" by the empty list), the field
    list is [SAMPLE_ID SAMPLE_LOC ...] and data row [i < N] is
    [sid_i "loc_i" ...] with [loc_i] the label of table entry [i];
    otherwise the field list has no [SAMPLE_LOC] entry and no data row
    carries a quoted cell.  End to end: the CSV [csv_scenario] (three rows
    with values and one without) and the layout [ti2_scenario] (four
    samples, no [SAMPLE_LOC], a 2 x 2 strip-then-patch grid) give a TI3
    document with 3 data rows, a [SAMPLE_LOC] column and labels A1, A2, B1. *)
Theorem C5_location_column :
  (forall now dfs dv cr30 sl dc hls,
     let rows := ms_rows cr30 in
     let d := write_ti3 now dfs dv cr30 sl dc hls in
     let N := Nat.min (length dv) (length rows) in
     let rest := dfs
                 ++ (if has_xyz rows then ["XYZ_X"; "XYZ_Y"; "XYZ_Z"] else [])
                 ++ (if has_lab rows then ["LAB_L"; "LAB_A"; "LAB_B"] else [])
                 ++ map spec_field (spec_wls rows) in
     (forall l, sl = Some l -> l <> [] -> N <= length l ->
        t_fields d = "SAMPLE_ID" :: "SAMPLE_LOC" :: rest
        /\ forall i, i < N -> exists cells,
             nth i (t_data d) [] = TInt (fst (nth i dv (0%Z, [])))
                                   :: TQuoted (snd (nth i l (0%Z, EmptyString))) :: cells
             /\ forallb (fun t => negb (is_quoted t)) cells = true)
     /\ ((forall l, sl = Some l -> l = [] \/ length l < N) ->
        t_fields d = "SAMPLE_ID" :: rest
        /\ forall i, i < N -> forallb (fun t => negb (is_quoted t)) (nth i (t_data d) []) = true))
  /\ exists d,
       main_convert decimal_reader "now" "out.ti3" "OUTPUT" csv_scenario ti2_scenario []
       = (Ok tt, [("out.ti3", d)])
       /\ t_nsets d = 3 /\ length (t_data d) = 3
       /\ firstn 2 (t_fields d) = ["SAMPLE_ID"; "SAMPLE_LOC"]
       /\ map (fun row => nth 1 row (TInt 0%Z)) (t_data d)
          = [TQuoted "A1"; TQuoted "A2"; TQuoted "B1"].
Proof.
  split.
  - intros now dfs dv cr30 sl dc hls. cbv zeta. split.
    + intros l -> Hne HN.
      assert (Hlt : loc_table (Nat.min (length dv) (length (ms_rows cr30))) (Some l)
                    = Some (map snd (firstn (Nat.min (length dv) (length (ms_rows cr30))) l))).
      { unfold loc_table. destruct l as [|x l']; [congruence|].
        apply Nat.leb_le in HN. simpl nonempty. rewrite HN. reflexivity. }
      split.
      * unfold write_ti3. cbv zeta. cbn [t_fields]. rewrite Hlt. reflexivity.
      * intros i Hi. rewrite write_ti3_rows by exact Hi. unfold bp_row. rewrite Hlt.
        rewrite nth_map_snd_firstn by (exact Hi || exact HN).
        eexists. split; [reflexivity|].
        destruct (numeric_groups_unquoted (nth i (ms_rows cr30) empty_row)
                    (spec_wls (ms_rows cr30))) as (H1 & H2 & H3).
        rewrite !forallb_app. rewrite !andb_true_iff. split; [|split; [|split]].
        -- apply forallb_forall. intros t Ht. apply in_map_iff in Ht.
           destruct Ht as [v [<- _]]. reflexivity.
        -- destruct (has_xyz _); [exact H1|reflexivity].
        -- destruct (has_lab _); [exact H2|reflexivity].
        -- destruct (nonempty _); [exact H3|reflexivity].
    + intros Hoff.
      assert (Hlt : loc_table (Nat.min (length dv) (length (ms_rows cr30))) sl = None).
      { unfold loc_table. destruct sl as [l|]; [|reflexivity].
        destruct (Hoff l eq_refl) as [->|Hs]; [reflexivity|].
        destruct (nonempty l); simpl; [|reflexivity].
        replace (_ <=? length l) with false by (symmetry; apply Nat.leb_gt; exact Hs).
        reflexivity. }
      split.
      * unfold write_ti3. cbv zeta. cbn [t_fields]. rewrite Hlt. reflexivity.
      * intros i Hi. rewrite write_ti3_rows by exact Hi. unfold bp_row. rewrite Hlt.
        destruct (numeric_groups_unquoted (nth i (ms_rows cr30) empty_row)
                    (spec_wls (ms_rows cr30))) as (H1 & H2 & H3).
        cbn [app forallb]. rewrite !forallb_app. rewrite !andb_true_iff.
        split; [reflexivity|]. split; [|split; [|split]].
        -- apply forallb_forall. intros t Ht. apply in_map_iff in Ht.
           destruct Ht as [v [<- _]]. reflexivity.
        -- destruct (has_xyz _); [exact H1|reflexivity].
        -- destruct (has_lab _); [exact H2|reflexivity].
        -- destruct (nonempty _); [exact H3|reflexivity].
  - eexists. split; [vm_compute; reflexivity|].
    vm_compute. repeat split.
Qed.

(** ** The Lab -> XYZ transform *)

Lemma Q_sq_nonneg (u : Q) : (0 <= u * u)%Q.
Proof.
  destruct (Qlt_le_dec u 0) as [H|H].
  - setoid_replace (u * u)%Q with ((- u) * (- u))%Q by ring.
    apply Qmult_le_0_compat; lra.
  - apply Qmult_le_0_compat; lra.
Qed.

Lemma cube_gt (t : Q) : (6 # 29 < t)%Q -> (cie_eps < t * t * t)%Q.
Proof. unfold cie_eps. intros H. nra. Qed.

Lemma cube_le (t : Q) : (t <= 6 # 29)%Q -> (t * t * t <= cie_eps)%Q.
Proof.
  unfold cie_eps. intros H.
  assert (H1 : (0 <= ((6 # 29) - t) * ((t + (3 # 29)) * (t + (3 # 29)) + (27 # 841)))%Q).
  { apply Qmult_le_0_compat; [lra|]. pose proof (Q_sq_nonneg (t + (3 # 29))). lra. }
  lra.
Qed.


Lemma f_inv_piece t : (f_inv t == cie_piece t)%Q.
Proof.
  unfold f_inv, cie_piece. destruct (Qle_bool t (6 # 29)) eqn:E; simpl negb.
  - apply Qle_bool_iff in E. destruct (Qlt_le_dec cie_eps (t * t * t)) as [H|H].
    + pose proof (cube_le t E). lra.
    + unfold cie_kappa. field.
  - assert (E' : (6 # 29 < t)%Q).
    { apply Qnot_le_lt. intros H. apply Qle_bool_iff in H. congruence. }
    destruct (Qlt_le_dec cie_eps (t * t * t)) as [H|H]; [reflexivity|].
    pose proof (cube_gt t E'). lra.
Qed.

Lemma cie_piece_proper t u : (t == u)%Q -> (cie_piece t == cie_piece u)%Q.
Proof.
  intros H. unfold cie_piece.
  assert (H3 : (t * t * t == u * u * u)%Q) by (rewrite H; reflexivity).
  destruct (Qlt_le_dec cie_eps (t * t * t)), (Qlt_le_dec cie_eps (u * u * u));
    try lra.
  rewrite H. reflexivity.
Qed.

Lemma f_inv_y L :
  (f_inv ((L + (16 # 1)) / (116 # 1)) ==
   if Qlt_le_dec (cie_kappa * cie_eps) L
   then ((L + (16 # 1)) / (116 # 1)) * ((L + (16 # 1)) / (116 # 1)) * ((L + (16 # 1)) / (116 # 1))
   else L / cie_kappa)%Q.
Proof.
  rewrite f_inv_piece. unfold cie_piece.
  assert (Hke : (cie_kappa * cie_eps == 8 # 1)%Q) by reflexivity.
  set (fy := ((L + (16 # 1)) / (116 # 1))%Q).
  assert (Hfy : (fy == (L + (16 # 1)) * (1 # 116))%Q) by (unfold fy; field).
  destruct (Qlt_le_dec cie_eps (fy * fy * fy)) as [H|H];
  destruct (Qlt_le_dec (cie_kappa * cie_eps) L) as [H'|H']; try reflexivity.
  - exfalso. rewrite Hke in H'.
    assert (fy <= 6 # 29)%Q by (rewrite Hfy; lra).
    pose proof (cube_le fy H0). lra.
  - exfalso. rewrite Hke in H'.
    assert (6 # 29 < fy)%Q by (rewrite Hfy; lra).
    pose proof (cube_gt fy H0). lra.
  - rewrite Hfy. unfold cie_kappa. field.
Qed.

(** [lab_to_xyz ... 'D50'] is the CIE L*a*b* -> XYZ inverse for the D50 white. *)
Lemma lab_to_xyz_d50 L a b :
  let '(x, y, z) := lab_to_xyz L a b "D50" in
  let '(x', y', z') := cie_lab_to_xyz d50_white L a b in
  (x == x' /\ y == y' /\ z == z')%Q.
Proof.
  unfold lab_to_xyz, cie_lab_to_xyz.
  change (ref_white "D50") with d50_white. unfold d50_white.
  cbv beta iota zeta. split; [|split].
  - rewrite Qmult_comm, f_inv_piece. apply Qmult_comp; [|reflexivity].
    apply cie_piece_proper. ring.
  - rewrite Qmult_comm, f_inv_y. reflexivity.
  - rewrite Qmult_comm, f_inv_piece. reflexivity.
Qed.

Lemma sib_include_xyz hx hl hs ps px :
  fst (sib_include hx hl hs ps px) = true -> sib_include hx hl hs ps px = (true, false).
Proof. unfold sib_include. destruct hx, hl, hs, ps, px; simpl; intros H; congruence. Qed.

Lemma spec_part_eq wls r :
  (if nonempty wls then spec_tokens wls r else []) = spec_tokens wls r.
Proof. destruct wls; reflexivity. Qed.

(** ** C6: the single-path writer *)

(** C6.  In [cr30_to_ti3.write_ti3], when some parsed row has spectral
    data and spectral output is preferred, the field list is
    [SAMPLE_ID], the device fields and the [SPEC_www] fields only (no XYZ
    and no Lab group), and each data row holds the id, the device values
    and the spectral cells only.  When the XYZ group is selected and
    retained row [i] lacks a complete XYZ triple but has a complete Lab
    triple [(l, a, b)], its XYZ cells are [lab_to_xyz l a b 'D50'], and
    this transform equals the CIE L*a*b* -> XYZ inverse (epsilon
    216/24389, kappa 24389/27) for the D50 white, component by component. *)
Theorem C6_sibling_policy :
  (forall now dfs dv cr30 dc px,
     let rows := ms_rows cr30 in
     let d := write_ti3_sib now dfs dv cr30 dc true px in
     has_spec rows = true ->
     t_fields d = "SAMPLE_ID" :: dfs ++ map spec_field (spec_wls rows)
     /\ forall i, i < Nat.min (length dv) (length rows) ->
          nth i (t_data d) [] =
          TInt (fst (nth i dv (0%Z, []))) :: map (TFix 5) (snd (nth i dv (0%Z, [])))
          ++ spec_tokens (spec_wls rows) (nth i rows empty_row))
  /\ (forall now dfs dv cr30 dc ps px i l a b,
        let rows := ms_rows cr30 in
        let r := nth i rows empty_row in
        fst (sib_include (has_xyz rows) (has_lab rows) (has_spec rows) ps px) = true ->
        i < Nat.min (length dv) (length rows) ->
        ~ complete_xyz r -> m_L r = Some l -> m_a r = Some a -> m_b r = Some b ->
        let '(x, y, z) := lab_to_xyz l a b "D50" in
        nth i (t_data (write_ti3_sib now dfs dv cr30 dc ps px)) [] =
        TInt (fst (nth i dv (0%Z, []))) :: map (TFix 5) (snd (nth i dv (0%Z, [])))
        ++ [TFix 6 x; TFix 6 y; TFix 6 z] ++ spec_tokens (spec_wls rows) r)
  /\ (forall L a b,
        let '(x, y, z) := lab_to_xyz L a b "D50" in
        let '(x', y', z') := cie_lab_to_xyz d50_white L a b in
        (x == x' /\ y == y' /\ z == z')%Q).
Proof.
  split; [|split].
  - intros now dfs dv cr30 dc px. cbv zeta. intros Hs.
    assert (Hinc : sib_include (has_xyz (ms_rows cr30)) (has_lab (ms_rows cr30))
                     (has_spec (ms_rows cr30)) true px = (false, false))
      by (unfold sib_include; rewrite Hs; reflexivity).
    split.
    + unfold write_ti3_sib. cbv zeta. rewrite Hinc. reflexivity.
    + intros i Hi. rewrite write_ti3_sib_rows by exact Hi. rewrite Hinc.
      unfold sib_row. simpl fst. simpl snd. rewrite spec_part_eq. reflexivity.
  - intros now dfs dv cr30 dc ps px i l a b. cbv zeta. intros Hx Hi Hn HL Ha Hb.
    apply sib_include_xyz in Hx.
    destruct (lab_to_xyz l a b "D50") as [[x y] z] eqn:Ec.
    rewrite write_ti3_sib_rows by exact Hi. rewrite Hx. unfold sib_row.
    simpl fst. simpl snd. rewrite spec_part_eq. f_equal. f_equal. f_equal.
    unfold xyz_tokens_sib.
    destruct (m_X (nth i (ms_rows cr30) empty_row)) eqn:EX,
             (m_Y (nth i (ms_rows cr30) empty_row)) eqn:EY,
             (m_Z (nth i (ms_rows cr30) empty_row)) eqn:EZ;
      try (exfalso; apply Hn; unfold complete_xyz; eauto 7; fail);
      rewrite HL, Ha, Hb, Ec; reflexivity.
  - exact lab_to_xyz_d50.
Qed.

(** ** Format block *)

(** What a successful scan of [parse_ti2]/[parse_ti1] has seen: the
    [END_DATA_FORMAT] line at [b] and a [BEGIN_DATA_FORMAT] line at [j]
    with [a = j + 1] before it (or the start already recorded). *)
Lemma fmt_scan_sound k lines st a b :
  fmt_scan k lines st = (Some a, Some b) ->
  k <= b /\ b - k < length lines
  /\ Py.strip (nth (b - k) lines EmptyString) = "END_DATA_FORMAT"
  /\ (st = Some a
      \/ exists j, a = S j /\ k <= j /\ j < b
                   /\ Py.strip (nth (j - k) lines EmptyString) = "BEGIN_DATA_FORMAT").
Proof.
  revert k st. induction lines as [|ln r IH]; intros k st H; simpl in H; [discriminate|].
  destruct (String.eqb (Py.strip ln) "BEGIN_DATA_FORMAT") eqn:EB.
  - apply String.eqb_eq in EB.
    destruct (IH (S k) (Some (S k)) H) as (Hk & Hlen & Hend & Hbeg).
    split; [lia|split; [simpl; lia|split]].
    + replace (b - k) with (S (b - S k)) by lia. exact Hend.
    + right. destruct Hbeg as [Heq|(j & -> & Hj1 & Hj2 & Hj3)].
      * injection Heq as <-. exists k. split; [reflexivity|split; [lia|split; [lia|]]].
        rewrite Nat.sub_diag. exact EB.
      * exists j. split; [reflexivity|split; [lia|split; [lia|]]].
        replace (j - k) with (S (j - S k)) by lia. exact Hj3.
  - destruct (String.eqb (Py.strip ln) "END_DATA_FORMAT") eqn:EE.
    + apply String.eqb_eq in EE. injection H as -> <-.
      split; [lia|split; [simpl; lia|split]].
      * rewrite Nat.sub_diag. exact EE.
      * left. reflexivity.
    + destruct (IH (S k) st H) as (Hk & Hlen & Hend & Hbeg).
      split; [lia|split; [simpl; lia|split]].
      * replace (b - k) with (S (b - S k)) by lia. exact Hend.
      * destruct Hbeg as [Heq|(j & -> & Hj1 & Hj2 & Hj3)]; [left; exact Heq|].
        right. exists j. split; [reflexivity|split; [lia|split; [lia|]]].
        replace (j - k) with (S (j - S k)) by lia. exact Hj3.
Qed.

Lemma fmt_bounds_block lines a b :
  fmt_bounds lines = Some (a, b) -> has_format_block lines.
Proof.
  unfold fmt_bounds. destruct (fmt_scan 0 lines None) as [[a'|] [b'|]] eqn:E;
    intros H; try discriminate.
  destruct (fmt_scan_sound 0 lines None a' b' E) as (_ & Hlen & Hend & Hbeg).
  destruct Hbeg as [Heq|(j & _ & _ & Hj & Hbeg)]; [discriminate|].
  exists j, b'. rewrite !Nat.sub_0_r in *. repeat split; assumption.
Qed.

Lemma fmt_bounds_none lines : ~ has_format_block lines -> fmt_bounds lines = None.
Proof.
  intros Hn. destruct (fmt_bounds lines) as [[a b]|] eqn:E; [|reflexivity].
  exfalso. apply Hn. exact (fmt_bounds_block lines a b E).
Qed.

(** ** C7: layouts without a format block *)

(** C7.  A layout with no [BEGIN_DATA_FORMAT] line followed by an
    [END_DATA_FORMAT] line makes both layout parsers raise (the
    [ValueError] that is the spec's ParseError), and a conversion run of
    either program on it fails and leaves the written files as they were:
    the writer is never reached. *)
Theorem C7_missing_format_block :
  forall pf lines, ~ has_format_block lines ->
    parse_ti2 pf lines = Err ParseError
    /\ parse_ti1 pf lines = Err ParseError
    /\ (forall now out dc csv fs,
          snd (main_convert pf now out dc csv lines fs) = fs
          /\ exists e, fst (main_convert pf now out dc csv lines fs) = Err e)
    /\ (forall now out dc nps pl csv fs,
          snd (main_convert_sib pf now out dc nps pl csv lines fs) = fs
          /\ exists e, fst (main_convert_sib pf now out dc nps pl csv lines fs) = Err e).
Proof.
  intros pf lines Hn.
  assert (H2 : parse_ti2 pf lines = Err ParseError)
    by (unfold parse_ti2; rewrite (fmt_bounds_none lines Hn); reflexivity).
  assert (H1 : parse_ti1 pf lines = Err ParseError)
    by (unfold parse_ti1; rewrite (fmt_bounds_none lines Hn); reflexivity).
  split; [exact H2|split; [exact H1|split]].
  - intros now out dc csv fs. unfold main_convert, io_bind, io_lift.
    destruct (parse_cr30_csv pf csv) as [cr|e].
    + rewrite H2. split; [reflexivity|eexists; reflexivity].
    + split; [reflexivity|eexists; reflexivity].
  - intros now out dc nps pl csv fs. unfold main_convert_sib, io_bind, io_lift.
    destruct (parse_cr30_csv pf csv) as [cr|e].
    + rewrite H1. split; [reflexivity|eexists; reflexivity].
    + split; [reflexivity|eexists; reflexivity].
Qed.

Lemma C7_missing_format_block_witness :
  ~ has_format_block ["BEGIN_DATA_FORMAT"; "SAMPLE_ID RGB_R"]
  /\ parse_ti2 decimal_reader ["BEGIN_DATA_FORMAT"; "SAMPLE_ID RGB_R"] = Err ParseError
  /\ main_convert decimal_reader "now" "out.ti3" "OUTPUT" csv_scenario
       ["BEGIN_DATA_FORMAT"; "SAMPLE_ID RGB_R"] [] = (Err ParseError, []).
Proof.
  assert (Hn : ~ has_format_block ["BEGIN_DATA_FORMAT"; "SAMPLE_ID RGB_R"]).
  { intros (i & j & Hij & Hj & _ & Hend). simpl in Hj.
    destruct j as [|[|j]]; [lia| |lia]. vm_compute in Hend. discriminate. }
  destruct (C7_missing_format_block decimal_reader ["BEGIN_DATA_FORMAT"; "SAMPLE_ID RGB_R"] Hn)
    as (H2 & _ & _ & _).
  split; [exact Hn|split; [exact H2|]].
  vm_compute. reflexivity.
Defined.

(** ** C8: empty and undecodable CSV files *)

(** C8.  Decoding never raises: [_read_text_with_fallback] returns a text
    for every byte content, the latin-1 text (newlines translated) when
    every other decoder fails.  An
    empty CSV file, however, is not rejected: its text [''] splits into
    the single line [''], so the [if not lines] guard never fires, and the
    parser returns a measurement set with no rows (both for the text and
    for the zero-byte file, whose utf-8 decoding is ['']). *)
Theorem C8_empty_csv_accepted :
  (forall utf8 utf8_sig cp1252 bs,
     exists t, read_text_with_fallback utf8 utf8_sig cp1252 bs = Ok t)
  /\ (forall utf8 utf8_sig cp1252 bs,
        utf8 bs = None -> utf8_sig bs = None -> cp1252 bs = None ->
        read_text_with_fallback utf8 utf8_sig cp1252 bs = Ok (univ_nl (latin1 bs)))
  /\ (forall pf,
        parse_cr30_csv pf EmptyString
        = Ok {| ms_rows := []; ms_illum_code := None; ms_observer_deg := None |})
  /\ (forall pf utf8 utf8_sig cp1252,
        utf8 [] = Some EmptyString ->
        parse_cr30_csv_file pf utf8 utf8_sig cp1252 []
        = Ok {| ms_rows := []; ms_illum_code := None; ms_observer_deg := None |}).
Proof.
  split; [|split; [|split]].
  - intros utf8 utf8_sig cp1252 bs. unfold read_text_with_fallback.
    destruct (first_map _ _); eexists; reflexivity.
  - intros utf8 utf8_sig cp1252 bs H1 H2 H3. unfold read_text_with_fallback. simpl.
    rewrite H1, H2, H3. reflexivity.
  - intros pf. reflexivity.
  - intros pf utf8 utf8_sig cp1252 H. unfold parse_cr30_csv_file, read_text_with_fallback.
    simpl. rewrite H. reflexivity.
Qed.

(** ** CSV header lookups *)

Lemma dict_get_set_str k k' (v : nat) d :
  dict_get String.eqb k (dict_set String.eqb k' v d)
  = if String.eqb k k' then Some v else dict_get String.eqb k d.
Proof.
  induction d as [|[k0 v0] d IH]; simpl.
  - destruct (String.eqb k k'); reflexivity.
  - destruct (String.eqb k' k0) eqn:E1; simpl.
    + apply String.eqb_eq in E1. subst k0. destruct (String.eqb k k'); reflexivity.
    + destruct (String.eqb k k0) eqn:E2.
      * apply String.eqb_eq in E2. subst k0.
        destruct (String.eqb k k') eqn:E3; [|reflexivity].
        apply String.eqb_eq in E3. subst k'. rewrite String.eqb_refl in E1. discriminate.
      * exact IH.
Qed.

Lemma hm_fold_absent k (pairs : list (nat * string)) d :
  (forall i h, In (i, h) pairs -> norm h <> k) ->
  dict_get String.eqb k
    (fold_left (fun d '(i, h) => dict_set String.eqb (norm h) i d) pairs d)
  = dict_get String.eqb k d.
Proof.
  revert d. induction pairs as [|[i h] pairs IH]; intros d Hn; simpl; [reflexivity|].
  rewrite IH by (intros i' h' Hin; apply (Hn i' h'); right; exact Hin).
  rewrite dict_get_set_str.
  destruct (String.eqb k (norm h)) eqn:E; [|reflexivity].
  apply String.eqb_eq in E. exfalso. apply (Hn i h); [left; reflexivity|symmetry; exact E].
Qed.

Lemma in_combine_seq {A} (l : list A) s i x :
  In (i, x) (combine (seq s (length l)) l) -> s <= i /\ In x l.
Proof.
  revert s. induction l as [|y l IH]; intros s H; simpl in H; [contradiction|].
  destruct H as [H|H].
  - injection H as -> ->. split; [lia|left; reflexivity].
  - destruct (IH (S s) H) as [H1 H2]. split; [lia|right; exact H2].
Qed.

(** [hmap.get(k)] for a key that only the first header cell has. *)
Lemma header_map_first k h0 rest :
  norm h0 = k -> (forall h, In h rest -> norm h <> k) ->
  dict_get String.eqb k (header_map_csv (h0 :: rest)) = Some 0.
Proof.
  intros H0 Hr. unfold header_map_csv, enumerate. simpl.
  rewrite hm_fold_absent.
  - simpl. rewrite H0, String.eqb_refl. reflexivity.
  - intros i h Hin. apply in_combine_seq in Hin. apply Hr, Hin.
Qed.

(** [hmap.get(k)] for a key no header cell has. *)
Lemma header_map_absent k header :
  (forall h, In h header -> norm h <> k) ->
  dict_get String.eqb k (header_map_csv header) = None.
Proof.
  intros Hn. unfold header_map_csv, enumerate.
  rewrite hm_fold_absent; [reflexivity|].
  intros i h Hin. apply in_combine_seq in Hin. apply Hn, Hin.
Qed.

Lemma filter_s_all p s : Py.all_s p (Py.filter_s p s) = true.
Proof.
  induction s as [|c s IH]; simpl; [reflexivity|].
  destruct (p c) eqn:E; simpl; [rewrite E|]; exact IH.
Qed.

(** [norm] never keeps a [*]: the keys [l*], [a*], [b*] are never present. *)
Lemma norm_no_star h k : Py.all_s (fun c => Py.is_lower c || Py.is_digit c || Ascii.eqb c "_") k = false ->
  norm h <> k.
Proof.
  intros Hk Heq. unfold norm in Heq. rewrite <- Heq, filter_s_all in Hk. discriminate.
Qed.

(** Every row [parse_cr30_csv] keeps comes from one data line, through the
    column indices; and it has [L] or [X]. *)
Lemma csv_rows_from_cells pf ix sc lines st r :
  In r (cs_rows (fold_left (csv_line pf ix sc) lines st)) ->
  In r (cs_rows st)
  \/ (exists parts, m_L r = num_cell pf parts (idx_L ix) /\ m_a r = num_cell pf parts (idx_a ix)
                    /\ m_b r = num_cell pf parts (idx_b ix) /\ m_X r = num_cell pf parts (idx_X ix))
     /\ (m_L r <> None \/ m_X r <> None).
Proof.
  revert st. induction lines as [|line lines IH]; intros st H; simpl in H; [left; exact H|].
  destruct (IH _ H) as [H1|H1]; [|right; exact H1].
  unfold csv_line in H1.
  destruct (String.eqb (Py.strip line) EmptyString); [left; exact H1|].
  destruct (num_cell pf (Py.split_sep ";" line) (idx_L ix)) as [vl|] eqn:EL;
  destruct (num_cell pf (Py.split_sep ";" line) (idx_X ix)) as [vx|] eqn:EX;
  try (left; exact H1);
  (match type of H1 with
   | In r (cs_rows (let '(_, _) := ?m in _)) => destruct m as [il ob]
   end);
  simpl in H1; (destruct H1 as [<-|H1]; [right|left; exact H1]); simpl;
  (split; [exists (Py.split_sep ";" line); rewrite ?EL, ?EX; repeat split; reflexivity|]);
  try (left; discriminate); right; discriminate.
Qed.

Lemma parse_cr30_csv_rows pf text ms :
  parse_cr30_csv pf text = Ok ms ->
  forall r, In r (ms_rows ms) ->
  exists parts,
    let ix := csv_indices (header_map_csv (csv_header text)) in
    (m_L r = num_cell pf parts (idx_L ix) /\ m_a r = num_cell pf parts (idx_a ix)
     /\ m_b r = num_cell pf parts (idx_b ix) /\ m_X r = num_cell pf parts (idx_X ix))
    /\ (m_L r <> None \/ m_X r <> None).
Proof.
  unfold parse_cr30_csv, csv_header.
  destruct (map (Py.rstrip_char "013") (Py.split_sep "010" text)) as [|l0 rest];
    [discriminate|].
  intros H. injection H as <-. intros r Hr. simpl in Hr. apply in_rev in Hr.
  destruct (csv_rows_from_cells _ _ _ _ _ _ Hr) as [Hn|((parts & H1) & H2)];
    [contradiction|].
  exists parts. cbv zeta. split; [exact H1|exact H2].
Qed.

Lemma lab_key_absent_idx h0 rest k kstar :
  norm h0 = k -> (forall h, In h rest -> norm h <> k /\ norm h <> kstar) ->
  Py.all_s (fun c => Py.is_lower c || Py.is_digit c || Ascii.eqb c "_") (k +++ "*") = false ->
  k <> kstar ->
  py_or (py_or (dict_get String.eqb k (header_map_csv (h0 :: rest)))
               (dict_get String.eqb (k +++ "*") (header_map_csv (h0 :: rest))))
        (dict_get String.eqb kstar (header_map_csv (h0 :: rest))) = None.
Proof.
  intros H0 Hr Hstar Hne.
  rewrite header_map_first by (exact H0 || (intros h Hh; apply Hr, Hh)).
  rewrite (header_map_absent (k +++ "*")) by (intros h _; apply norm_no_star, Hstar).
  rewrite (header_map_absent kstar); [reflexivity|].
  intros h [<-|Hh]; [rewrite H0; exact Hne|apply Hr, Hh].
Qed.

(** ** C9: Lab columns at index 0 *)

(** C9.  Let the CSV header be [h0 :: rest].  If [h0] normalizes to [l]
    (resp. [a], [b]) and no other cell normalizes to [l] or [lstar] (resp.
    [a]/[astar], [b]/[bstar]), the index chain [hmap.get('l') or ...] is
    [None], because [hmap.get('l') = 0] is falsy: every parsed row has
    [L = None] (resp. [a], [b]); for [L] with no cell normalizing to [x],
    no row is kept at all.  A plain lookup ([name], [date], [x], [y], [z])
    of the first cell is index 0. *)
Theorem C9_index0_lab_lookup :
  forall pf text h0 rest,
    csv_header text = h0 :: rest ->
    let ix := csv_indices (header_map_csv (h0 :: rest)) in
    (norm h0 = "l" -> (forall h, In h rest -> norm h <> "l" /\ norm h <> "lstar") ->
       idx_L ix = None
       /\ (forall ms, parse_cr30_csv pf text = Ok ms ->
             forall r, In r (ms_rows ms) -> m_L r = None)
       /\ ((forall h, In h rest -> norm h <> "x") ->
           forall ms, parse_cr30_csv pf text = Ok ms -> ms_rows ms = []))
    /\ (norm h0 = "a" -> (forall h, In h rest -> norm h <> "a" /\ norm h <> "astar") ->
          idx_a ix = None
          /\ forall ms, parse_cr30_csv pf text = Ok ms ->
               forall r, In r (ms_rows ms) -> m_a r = None)
    /\ (norm h0 = "b" -> (forall h, In h rest -> norm h <> "b" /\ norm h <> "bstar") ->
          idx_b ix = None
          /\ forall ms, parse_cr30_csv pf text = Ok ms ->
               forall r, In r (ms_rows ms) -> m_b r = None)
    /\ (norm h0 = "name" -> (forall h, In h rest -> norm h <> "name") -> idx_name ix = Some 0)
    /\ (norm h0 = "date" -> (forall h, In h rest -> norm h <> "date") -> idx_date ix = Some 0)
    /\ (norm h0 = "x" -> (forall h, In h rest -> norm h <> "x") -> idx_X ix = Some 0)
    /\ (norm h0 = "y" -> (forall h, In h rest -> norm h <> "y") -> idx_Y ix = Some 0)
    /\ (norm h0 = "z" -> (forall h, In h rest -> norm h <> "z") -> idx_Z ix = Some 0).
Proof.
  intros pf text h0 rest Hh. cbv zeta.
  split; [|split; [|split; [|split; [|split; [|split; [|split]]]]]].
  - intros H0 Hr.
    assert (HL : idx_L (csv_indices (header_map_csv (h0 :: rest))) = None)
      by (apply (lab_key_absent_idx h0 rest "l" "lstar"); [exact H0|exact Hr|reflexivity|discriminate]).
    split; [exact HL|split].
    + intros ms Hp r Hr'. destruct (parse_cr30_csv_rows pf text ms Hp r Hr')
        as (parts & (H1 & _) & _).
      rewrite Hh, HL in H1. exact H1.
    + intros Hx ms Hp. destruct (ms_rows ms) as [|r rs] eqn:Er; [reflexivity|exfalso].
      assert (Hin : In r (ms_rows ms)) by (rewrite Er; left; reflexivity).
      destruct (parse_cr30_csv_rows pf text ms Hp r Hin) as (parts & (H1 & _ & _ & H4) & H5).
      rewrite Hh, HL in H1.
      assert (HX : idx_X (csv_indices (header_map_csv (h0 :: rest))) = None).
      { simpl. apply header_map_absent. intros h [<-|Hin']; [rewrite H0; discriminate|].
        apply Hx, Hin'. }
      rewrite Hh, HX in H4. destruct H5 as [H5|H5]; apply H5; assumption.
  - intros H0 Hr.
    assert (Ha : idx_a (csv_indices (header_map_csv (h0 :: rest))) = None)
      by (apply (lab_key_absent_idx h0 rest "a" "astar"); [exact H0|exact Hr|reflexivity|discriminate]).
    split; [exact Ha|].
    intros ms Hp r Hr'. destruct (parse_cr30_csv_rows pf text ms Hp r Hr')
      as (parts & (_ & H2 & _) & _).
    rewrite Hh, Ha in H2. exact H2.
  - intros H0 Hr.
    assert (Hb : idx_b (csv_indices (header_map_csv (h0 :: rest))) = None)
      by (apply (lab_key_absent_idx h0 rest "b" "bstar"); [exact H0|exact Hr|reflexivity|discriminate]).
    split; [exact Hb|].
    intros ms Hp r Hr'. destruct (parse_cr30_csv_rows pf text ms Hp r Hr')
      as (parts & (_ & _ & H3 & _) & _).
    rewrite Hh, Hb in H3. exact H3.
  - intros H0 Hr. apply header_map_first; assumption.
  - intros H0 Hr. apply header_map_first; assumption.
  - intros H0 Hr. apply header_map_first; assumption.
  - intros H0 Hr. apply header_map_first; assumption.
  - intros H0 Hr. apply header_map_first; assumption.
Qed.

Lemma C9_index0_lab_lookup_witness :
  csv_header ("L;a;b" +++ nl +++ "50;1;2") = ["L"; "a"; "b"]
  /\ parse_cr30_csv decimal_reader ("L;a;b" +++ nl +++ "50;1;2")
     = Ok {| ms_rows := []; ms_illum_code := None; ms_observer_deg := None |}.
Proof.
  assert (Hh : csv_header ("L;a;b" +++ nl +++ "50;1;2") = ["L"; "a"; "b"])
    by (vm_compute; reflexivity).
  split; [exact Hh|].
  destruct (C9_index0_lab_lookup decimal_reader ("L;a;b" +++ nl +++ "50;1;2") "L" ["a"; "b"] Hh)
    as [HL _].
  destruct (parse_cr30_csv decimal_reader ("L;a;b" +++ nl +++ "50;1;2")) as [ms|e] eqn:Ep.
  - destruct HL as (_ & _ & Hrows).
    + vm_compute. reflexivity.
    + intros h [<-|[<-|[]]]; split; vm_compute; discriminate.
    + specialize (Hrows ltac:(intros h [<-|[<-|[]]]; vm_compute; discriminate) ms eq_refl).
      destruct ms as [rows il ob]. simpl in Hrows. subst rows.
      revert Ep. vm_compute. intros Ep. injection Ep as <- <-. reflexivity.
  - revert Ep. vm_compute. discriminate.
Defined.

(** ** COLOR_REP scan *)

Lemma first_map_spec {A B} (f : A -> option B) l v :
  first_map f l = Some v <->
  exists k x, nth_error l k = Some x /\ f x = Some v
              /\ forall j y, j < k -> nth_error l j = Some y -> f y = None.
Proof.
  induction l as [|x l IH]; simpl.
  - split; [discriminate|]. intros (k & x & Hk & _). destruct k; discriminate.
  - destruct (f x) as [w|] eqn:Ef.
    + split.
      * intros H. injection H as <-. exists 0, x. split; [reflexivity|split; [exact Ef|]].
        intros j y Hj. lia.
      * intros (k & y & Hk & Hy & Hbefore). destruct k as [|k].
        -- injection Hk as <-. congruence.
        -- rewrite (Hbefore 0 x ltac:(lia) eq_refl) in Ef. discriminate.
    + rewrite IH. split.
      * intros (k & y & Hk & Hy & Hbefore). exists (S k), y. split; [exact Hk|split; [exact Hy|]].
        intros [|j] z Hj Hz; [injection Hz as <-; exact Ef|].
        apply (Hbefore j z); [lia|exact Hz].
      * intros (k & y & Hk & Hy & Hbefore). destruct k as [|k].
        -- injection Hk as <-. congruence.
        -- exists k, y. split; [exact Hk|split; [exact Hy|]].
           intros j z Hj Hz. apply (Hbefore (S j) z); [lia|exact Hz].
Qed.

Lemma nth_error_firstn_lt {A} (l : list A) n k :
  k < n -> nth_error (firstn n l) k = nth_error l k.
Proof.
  revert n l. induction k as [|k IH]; intros [|n] [|x l] Hk; simpl; try lia; auto.
  apply IH. lia.
Qed.

Lemma nth_error_firstn_ge {A} (l : list A) n k :
  n <= k -> nth_error (firstn n l) k = None.
Proof.
  intros Hk. apply nth_error_None. rewrite length_firstn. lia.
Qed.

Lemma color_rep_line ln v :
  (match Re.rmatch Re.color_rep_re ln with Some [g] => Some g | _ => None end) = Some v
  <-> Re.rmatch Re.color_rep_re ln = Some [v].
Proof.
  destruct (Re.rmatch Re.color_rep_re ln) as [[|g [|g' gs]]|]; split; intros H;
    try discriminate; try congruence.
Qed.

Lemma color_rep_no_line ln :
  (match Re.rmatch Re.color_rep_re ln with Some [g] => Some g | _ => None end) = None
  <-> forall g, Re.rmatch Re.color_rep_re ln <> Some [g].
Proof.
  destruct (Re.rmatch Re.color_rep_re ln) as [[|g [|g' gs]]|]; split; intros H;
    try congruence; try (intros g0; congruence).
  exfalso. apply (H g). reflexivity.
Qed.

Lemma color_rep_scan_spec n lines v :
  color_rep_scan n lines = Some v <->
  exists k ln, k < n /\ nth_error lines k = Some ln /\ Re.rmatch Re.color_rep_re ln = Some [v]
    /\ forall j ln', j < k -> nth_error lines j = Some ln' ->
         forall g, Re.rmatch Re.color_rep_re ln' <> Some [g].
Proof.
  unfold color_rep_scan. rewrite first_map_spec. split.
  - intros (k & x & Hk & Hx & Hb).
    assert (Hkn : k < n).
    { destruct (Nat.lt_ge_cases k n) as [H|H]; [exact H|].
      rewrite nth_error_firstn_ge in Hk by exact H. discriminate. }
    rewrite nth_error_firstn_lt in Hk by exact Hkn.
    exists k, x. split; [exact Hkn|split; [exact Hk|split; [apply color_rep_line, Hx|]]].
    intros j y Hj Hy. apply color_rep_no_line. apply (Hb j y Hj).
    rewrite nth_error_firstn_lt by lia. exact Hy.
  - intros (k & x & Hkn & Hk & Hx & Hb).
    exists k, x. rewrite nth_error_firstn_lt by exact Hkn.
    split; [exact Hk|split; [apply color_rep_line, Hx|]].
    intros j y Hj Hy. rewrite nth_error_firstn_lt in Hy by lia.
    apply color_rep_no_line. apply (Hb j y Hj Hy).
Qed.

(** ** C10: declared color representation *)

(** Where the two layout parsers take the declared representation from:
    [parse_ti2] from the first of the first 80 lines matching
    [COLOR_REP \s+ Q([^Q]+)Q] (Q the double quote), [parse_ti1] from the
    first of the first 50; the parse fails exactly when the format block is
    missing, so a missing [COLOR_REP] line is not an error. *)
Lemma color_rep_parsers :
  forall pf lines,
    (forall t, parse_ti2 pf lines = Ok t -> color_rep_device t = color_rep_scan 80 lines)
    /\ (forall t, parse_ti1 pf lines = Ok t -> t1_color_rep_device t = color_rep_scan 50 lines)
    /\ ((exists t, parse_ti2 pf lines = Ok t) <-> fmt_bounds lines <> None)
    /\ ((exists t, parse_ti1 pf lines = Ok t) <-> fmt_bounds lines <> None)
    /\ (forall n v, color_rep_scan n lines = Some v <->
          exists k ln, k < n /\ nth_error lines k = Some ln
            /\ Re.rmatch Re.color_rep_re ln = Some [v]
            /\ forall j ln', j < k -> nth_error lines j = Some ln' ->
                 forall g, Re.rmatch Re.color_rep_re ln' <> Some [g]).
Proof.
  intros pf lines. split; [|split; [|split; [|split]]].
  - intros t. unfold parse_ti2. destruct (fmt_bounds lines) as [[a b]|]; [|discriminate].
    destruct (ti_data _ _ _ _ _ _) as [dv_raw locs_raw].
    intros H. injection H as <-. reflexivity.
  - intros t. unfold parse_ti1. destruct (fmt_bounds lines) as [[a b]|]; [|discriminate].
    intros H. injection H as <-. reflexivity.
  - unfold parse_ti2. destruct (fmt_bounds lines) as [[a b]|].
    + destruct (ti_data _ _ _ _ _ _) as [dv_raw locs_raw].
      split; [intros _; discriminate|intros _; eexists; reflexivity].
    + split; [intros [t H]; discriminate|intros H; exfalso; apply H; reflexivity].
  - unfold parse_ti1. destruct (fmt_bounds lines) as [[a b]|].
    + split; [intros _; discriminate|intros _; eexists; reflexivity].
    + split; [intros [t H]; discriminate|intros H; exfalso; apply H; reflexivity].
  - intros n v. apply color_rep_scan_spec.
Qed.

(** C10 (code bug).  [parse_ti2] scans the first 80 lines for [COLOR_REP],
    the first match winning and its absence not being an error, but the
    sibling [parse_ti1] of [cr30_to_ti3.py] scans only [lines[:50]]: on a
    layout whose [COLOR_REP] line is line 61, [parse_ti2] reads [RGB] and
    [parse_ti1] reads no representation. *)
Theorem C10_ti1_scans_50_lines :
  (forall pf lines,
    (forall t, parse_ti2 pf lines = Ok t -> color_rep_device t = color_rep_scan 80 lines)
    /\ (forall t, parse_ti1 pf lines = Ok t -> t1_color_rep_device t = color_rep_scan 50 lines)
    /\ ((exists t, parse_ti2 pf lines = Ok t) <-> fmt_bounds lines <> None)
    /\ ((exists t, parse_ti1 pf lines = Ok t) <-> fmt_bounds lines <> None)
    /\ (forall n v, color_rep_scan n lines = Some v <->
          exists k ln, k < n /\ nth_error lines k = Some ln
            /\ Re.rmatch Re.color_rep_re ln = Some [v]
            /\ forall j ln', j < k -> nth_error lines j = Some ln' ->
                 forall g, Re.rmatch Re.color_rep_re ln' <> Some [g]))
  /\ color_rep_scan 80 late_color_rep = Some "RGB"
  /\ match parse_ti2 (fun _ => None) late_color_rep with
     | Ok t => color_rep_device t = Some "RGB"
     | Err _ => False
     end
  /\ match parse_ti1 (fun _ => None) late_color_rep with
     | Ok t => t1_color_rep_device t = None
     | Err _ => False
     end.
Proof.
  split; [apply color_rep_parsers|].
  split; [vm_compute; reflexivity|split; vm_compute; reflexivity].
Qed.

(** ** Extra properties *)

Lemma ti_data_lengths pf fs dfs li b lines e :
  In e (fst (ti_data pf fs dfs li b lines)) -> length (snd e) = length dfs.
Proof.
  revert b. induction lines as [|ln r IH]; intros b H; simpl in H; [contradiction|].
  destruct (String.eqb (Py.strip ln) "BEGIN_DATA"); [eapply IH; exact H|].
  destruct (String.eqb (Py.strip ln) "END_DATA"); [contradiction|].
  destruct (b && negb (String.eqb (Py.strip ln) EmptyString)); [|eapply IH; exact H].
  destruct (Py.py_int _) as [sid|]; [|eapply IH; exact H].
  destruct (ti_data pf fs dfs li b r) as [dv locs] eqn:E. simpl in H.
  destruct H as [<-|H].
  - simpl. apply length_map.
  - apply (IH b). rewrite E. exact H.
Qed.

Lemma ti_data_fst pf fs dfs li b lines :
  fst (ti_data pf fs dfs li b lines) = fst (ti_data pf fs dfs None b lines).
Proof.
  revert b. induction lines as [|ln r IH]; intros b; simpl; [reflexivity|].
  destruct (String.eqb (Py.strip ln) "BEGIN_DATA"); [apply IH|].
  destruct (String.eqb (Py.strip ln) "END_DATA"); [reflexivity|].
  destruct (b && negb (String.eqb (Py.strip ln) EmptyString)); [|apply IH].
  destruct (Py.py_int _) as [sid|]; [|apply IH].
  specialize (IH b).
  destruct (ti_data pf fs dfs li b r) as [dv locs].
  destruct (ti_data pf fs dfs None b r) as [dv' locs']. simpl in *. congruence.
Qed.

Lemma ti_data_skip_pre pf fs dfs li pre rest :
  (forall l, In l pre -> is_marker l = false) ->
  ti_data pf fs dfs li false (pre ++ rest) = ti_data pf fs dfs li false rest.
Proof.
  induction pre as [|ln pre IH]; intros H; simpl; [reflexivity|].
  pose proof (H ln (or_introl eq_refl)) as Hm. unfold is_marker in Hm.
  apply orb_false_iff in Hm as [H1 H2]. rewrite H1, H2. simpl.
  apply IH. intros l Hl. apply H. right. exact Hl.
Qed.

Lemma ti_data_mid pf fs dfs li mid e post :
  (forall l, In l mid -> is_marker l = false) ->
  String.eqb (Py.strip e) "END_DATA" = true ->
  ti_data pf fs dfs li true (mid ++ e :: post) = ti_data pf fs dfs li true mid.
Proof.
  intros H He. induction mid as [|ln mid IH]; simpl.
  - rewrite He. destruct (String.eqb (Py.strip e) "BEGIN_DATA") eqn:Eb; [|reflexivity].
    apply String.eqb_eq in Eb. apply String.eqb_eq in He. rewrite Eb in He. discriminate.
  - pose proof (H ln (or_introl eq_refl)) as Hm. unfold is_marker in Hm.
    apply orb_false_iff in Hm as [H1 H2]. rewrite H1, H2.
    rewrite IH by (intros l Hl; apply H; right; exact Hl). reflexivity.
Qed.

(** X1.  The data loop of [parse_ti2] / [parse_ti1] reads exactly the lines
    between the first [BEGIN_DATA] and the next [END_DATA]: lines before the
    marker and lines after [END_DATA] never contribute. *)
Theorem X1_data_block pf fs dfs li pre b mid e post :
  (forall l, In l pre -> is_marker l = false) ->
  String.eqb (Py.strip b) "BEGIN_DATA" = true ->
  (forall l, In l mid -> is_marker l = false) ->
  String.eqb (Py.strip e) "END_DATA" = true ->
  ti_data pf fs dfs li false (pre ++ b :: mid ++ e :: post) = ti_data pf fs dfs li true mid.
Proof.
  intros Hp Hb Hm He. rewrite ti_data_skip_pre by exact Hp. simpl. rewrite Hb.
  apply ti_data_mid; assumption.
Qed.

(** X2.  The canonical fallback list of [parse_ti2] never adds a field: the
    device fields are exactly the format fields with an allowed prefix, in
    file order (every canonical name has such a prefix, so the fallback runs
    only when it finds nothing). *)
Theorem X2_device_fields_no_fallback fields :
  select_device_fields fields
  = filter (fun f => existsb (fun p => Py.startswith p f) allowed_prefixes) fields.
Proof.
  unfold select_device_fields.
  destruct (filter _ fields) as [|x l] eqn:E; [|reflexivity].
  assert (Hc : forall c, In c canonical_fields -> existsb (String.eqb c) fields = false).
  { intros c Hc. destruct (existsb (String.eqb c) fields) eqn:Ex; [|reflexivity].
    apply existsb_exists in Ex as (y & Hy & Ey). apply String.eqb_eq in Ey. subst y.
    assert (Hin : In c (filter (fun f => existsb (fun p => Py.startswith p f) allowed_prefixes) fields)).
    { apply filter_In. split; [exact Hy|].
      cbn [canonical_fields In] in Hc. repeat (destruct Hc as [<-|Hc]; [reflexivity|]). contradiction. }
    rewrite E in Hin. contradiction. }
  assert (Hnil : forall l0, (forall c, In c l0 -> existsb (String.eqb c) fields = false) ->
            filter (fun f => existsb (String.eqb f) fields) l0 = []).
  { induction l0 as [|c l0 IH]; intros Hl; [reflexivity|]. cbn [filter].
    rewrite Hl by (left; reflexivity). apply IH. intros c' Hc'. apply Hl. right. exact Hc'. }
  apply Hnil, Hc.
Qed.

Lemma get_app_l (s t : string) k : k < String.length s -> String.get k (s +++ t) = String.get k s.
Proof.
  revert k. induction s as [|c s IH]; intros k Hk; simpl in *; [lia|].
  destruct k; [reflexivity|]. apply IH. lia.
Qed.
Lemma get_app_r (s t : string) k : String.get (String.length s + k) (s +++ t) = String.get k t.
Proof. induction s as [|c s IH]; simpl; [reflexivity|exact IH]. Qed.
Lemma length_app_s (s t : string) : String.length (s +++ t) = String.length s + String.length t.
Proof. induction s as [|c s IH]; simpl; [reflexivity|]. rewrite IH. reflexivity. Qed.
Lemma substring_app (s t : string) : String.substring 0 (String.length s) (s +++ t) = s.
Proof. induction s as [|c s IH]; simpl; [destruct t; reflexivity|]. f_equal. exact IH. Qed.

(** X3.  Round trip of a location label: [write_ti3] writes it between
    double quotes and [parse_ti2] strips them again, giving back the label. *)
Theorem X3_unquote_quoted s : unquote (quoted s) = s.
Proof.
  unfold unquote, quoted, Re.dq_s. simpl String.append.
  assert (Hl : String.length (String Re.dq (s +++ String Re.dq EmptyString)) = String.length s + 2).
  { simpl. rewrite length_app_s. simpl. lia. }
  rewrite Hl.
  replace (2 <=? String.length s + 2) with true by (symmetry; apply Nat.leb_le; lia).
  assert (H0 : is_dq_at 0 (String Re.dq (s +++ String Re.dq EmptyString)) = true).
  { unfold is_dq_at. cbn [String.get]. apply Ascii.eqb_refl. }
  assert (H1 : is_dq_at (String.length s + 2 - 1) (String Re.dq (s +++ String Re.dq EmptyString)) = true).
  { unfold is_dq_at. replace (String.length s + 2 - 1) with (S (String.length s + 0)) by lia.
    cbn [String.get]. rewrite get_app_r. cbn [String.get]. apply Ascii.eqb_refl. }
  rewrite H0, H1. simpl andb. cbv iota.
  replace (String.length s + 2 - 2) with (String.length s) by lia.
  cbn [String.substring]. apply substring_app.
Qed.

Lemma dict_get_set_gen {V} k k' (v : V) d :
  dict_get String.eqb k (dict_set String.eqb k' v d)
  = if String.eqb k k' then Some v else dict_get String.eqb k d.
Proof.
  induction d as [|[k0 v0] d IH]; simpl.
  - destruct (String.eqb k k'); reflexivity.
  - destruct (String.eqb k' k0) eqn:E1; simpl.
    + apply String.eqb_eq in E1. subst k0. destruct (String.eqb k k'); reflexivity.
    + destruct (String.eqb k k0) eqn:E2.
      * apply String.eqb_eq in E2. subst k0.
        destruct (String.eqb k k') eqn:E3; [|reflexivity].
        apply String.eqb_eq in E3. subst k'. rewrite String.eqb_refl in E1. discriminate.
      * exact IH.
Qed.

Lemma first_map_app {A B} (f : A -> option B) l1 l2 :
  first_map f (l1 ++ l2) = match first_map f l1 with Some b => Some b | None => first_map f l2 end.
Proof.
  induction l1 as [|x l1 IH]; simpl; [reflexivity|]. destruct (f x); [reflexivity|exact IH].
Qed.

(** X4.  The TI2 header map holds, for each key, the value of the last
    header line that matches [KEY value] with that key (later lines
    overwrite earlier ones); a key no line matches is absent. *)
Theorem X4_header_map_last_wins hl k :
  dict_get String.eqb k (ti2_header_map hl) = first_map (header_value k) (rev hl).
Proof.
  unfold ti2_header_map.
  assert (G : forall d, dict_get String.eqb k (fold_left (fun d h =>
      match Re.rmatch Re.header_kv_re (Py.strip h) with
      | Some [k; v] => dict_set String.eqb k v d | _ => d end) hl d)
    = match first_map (header_value k) (rev hl) with Some v => Some v
      | None => dict_get String.eqb k d end).
  { induction hl as [|h hl IH]; intros d; cbn [fold_left rev]; [reflexivity|].
    rewrite IH, first_map_app. cbn [first_map].
    destruct (first_map (header_value k) (rev hl)); [reflexivity|].
    unfold header_value at 1.
    destruct (Re.rmatch Re.header_kv_re (Py.strip h)) as [[|k' [|v [|x l]]]|]; try reflexivity.
    rewrite dict_get_set_gen. rewrite (String.eqb_sym k k'). destruct (String.eqb k' k); reflexivity. }
  rewrite G. destruct (first_map _ _); reflexivity.
Qed.

(** X5.  Every TI2 header line that [write_ti3] copies into the output
    header is [KEY value] with [KEY] one of [COMP_GREY_STEPS], [PAPER_SIZE],
    [CHART_ID]. *)
Theorem X5_promoted_whitelisted hls p :
  In p (promoted hls) -> exists k rest, In k whitelist /\ p = k +++ " " +++ rest.
Proof.
  unfold promoted. destruct hls as [l|]; [|intros []].
  intros H. apply in_flat_map in H as (hl & _ & H).
  destruct (String.eqb (Py.strip hl) EmptyString); [destruct H|].
  destruct (Re.rmatch Re.promote_re (Py.strip hl)) as [[|k [|rest [|x l']]]|]; try destruct H.
  destruct (existsb (String.eqb k) whitelist) eqn:E; [|destruct H].
  destruct H as [<-|[]]. apply existsb_exists in E as (w & Hw & Ew).
  apply String.eqb_eq in Ew. subst w. exists k, rest. split; [exact Hw|reflexivity].
Qed.

Lemma sort_by_in {A} (key : A -> Z) l x : In x (sort_by key l) <-> In x l.
Proof. split; apply Permutation_in; [|symmetry]; apply sort_by_perm. Qed.

Lemma parse_ti2_lengths pf lines t :
  parse_ti2 pf lines = Ok t ->
  forall e, In e (device_values t) -> length (snd e) = length (device_fields t).
Proof.
  unfold parse_ti2. destruct (fmt_bounds lines) as [[a b]|]; [|discriminate].
  destruct (ti_data pf _ _ _ false lines) as [dv locs] eqn:E.
  intros H. injection H as <-. simpl. intros e He. apply sort_by_in in He.
  eapply ti_data_lengths. rewrite E. exact He.
Qed.

Lemma parse_ti1_lengths pf lines t :
  parse_ti1 pf lines = Ok t ->
  forall e, In e (t1_device_values t) -> length (snd e) = length (t1_device_fields t).
Proof.
  unfold parse_ti1. destruct (fmt_bounds lines) as [[a b]|]; [|discriminate].
  intros H. injection H as <-. simpl. intros e He. apply sort_by_in in He.
  eapply ti_data_lengths. exact He.
Qed.

(** X6.  A successful [parse_ti2] returns its device values and its location
    table (read or derived) sorted by [SAMPLE_ID]. *)
Theorem X6_parse_ti2_sorted pf lines t :
  parse_ti2 pf lines = Ok t ->
  StronglySorted (fun a b => (fst a <= fst b)%Z) (device_values t)
  /\ StronglySorted (fun a b => (fst a <= fst b)%Z) (sample_locs t).
Proof.
  unfold parse_ti2. destruct (fmt_bounds lines) as [[a b]|]; [|discriminate].
  destruct (ti_data pf _ _ _ false lines) as [dv locs] eqn:E.
  intros H. injection H as <-. simpl. split; [apply sort_by_fst_sorted|].
  destruct locs as [|l0 locs]; [|apply sort_by_fst_sorted].
  unfold derive_locs. destruct (ti2_grid pf _) as [[c|] [r|]]; try constructor.
  destruct (_ && _ && _)%Z; [apply sort_by_fst_sorted|constructor].
Qed.

(** X7.  On the same layout file, [parse_ti1] and [parse_ti2] both fail or
    both succeed, and then return the same device fields and the same
    device values. *)
Theorem X7_ti1_ti2_agree pf lines :
  match parse_ti2 pf lines, parse_ti1 pf lines with
  | Ok t, Ok t1 => device_fields t = t1_device_fields t1 /\ device_values t = t1_device_values t1
  | Err _, Err _ => True
  | _, _ => False
  end.
Proof.
  unfold parse_ti2, parse_ti1. destruct (fmt_bounds lines) as [[a b]|]; [|exact I].
  pose proof (ti_data_fst pf (fmt_fields lines a b) (select_device_fields (fmt_fields lines a b))
                (index_of "SAMPLE_LOC" (fmt_fields lines a b)) false lines) as Hf.
  destruct (ti_data pf _ _ (index_of "SAMPLE_LOC" _) false lines) as [dv locs].
  simpl in Hf. simpl. split; [reflexivity|]. rewrite Hf. reflexivity.
Qed.

Lemma xyz_tokens_length r : length (xyz_tokens r) = 3.
Proof. unfold xyz_tokens. destruct (m_X r), (m_Y r), (m_Z r); reflexivity. Qed.
Lemma lab_tokens_length r : length (lab_tokens r) = 3.
Proof. unfold lab_tokens. destruct (m_L r), (m_a r), (m_b r); reflexivity. Qed.
Lemma xyz_tokens_sib_length r : length (xyz_tokens_sib r) = 3.
Proof.
  unfold xyz_tokens_sib. destruct (m_X r), (m_Y r), (m_Z r); try reflexivity;
  destruct (m_L r), (m_a r), (m_b r); try reflexivity;
  destruct (lab_to_xyz _ _ _ _) as [[? ?] ?]; reflexivity.
Qed.
Lemma spec_part_length wls r :
  length (if nonempty wls then spec_tokens wls r else []) = length (map spec_field wls).
Proof. unfold spec_tokens. destruct wls; simpl; [reflexivity|]. rewrite !length_map. reflexivity. Qed.

Lemma nth_In_dv (dv : list (Z * list Q)) i : i < length dv -> In (nth i dv (0%Z, [])) dv.
Proof. apply nth_In. Qed.

Lemma write_ti3_rows_match now dfs dv cr30 sl dc hls :
  (forall e, In e dv -> length (snd e) = length dfs) ->
  rows_match_fields (write_ti3 now dfs dv cr30 sl dc hls).
Proof.
  intros Hdv. unfold rows_match_fields, write_ti3. cbv zeta. cbn [t_data t_nsets t_fields].
  split; [rewrite length_map, length_seq; reflexivity|].
  intros row Hrow. apply in_map_iff in Hrow as (i & <- & Hi). apply in_seq in Hi.
  unfold bp_row. rewrite !length_app. rewrite length_map.
  rewrite Hdv by (apply nth_In_dv; lia).
  rewrite spec_part_length.
  destruct (loc_table _ sl); destruct (has_xyz _); destruct (has_lab _);
    simpl; rewrite ?xyz_tokens_length, ?lab_tokens_length; lia.
Qed.

Lemma write_ti3_sib_rows_match now dfs dv cr30 dc ps px :
  (forall e, In e dv -> length (snd e) = length dfs) ->
  rows_match_fields (write_ti3_sib now dfs dv cr30 dc ps px).
Proof.
  intros Hdv. unfold rows_match_fields, write_ti3_sib. cbv zeta.
  destruct (sib_include _ _ _ ps px) as [ix il].
  cbn [t_data t_nsets t_fields].
  split; [rewrite length_map, length_seq; reflexivity|].
  intros row Hrow. apply in_map_iff in Hrow as (i & <- & Hi). apply in_seq in Hi.
  unfold sib_row. rewrite !length_app. rewrite length_map.
  rewrite Hdv by (apply nth_In_dv; lia).
  rewrite spec_part_length.
  destruct ix; destruct il; simpl; rewrite ?xyz_tokens_sib_length, ?lab_tokens_length; lia.
Qed.

(** X8.  If every device value has one entry per device field, every data
    line [build_profile.write_ti3] writes has one value per field of its
    [BEGIN_DATA_FORMAT] line, and [NUMBER_OF_SETS] counts the data lines. *)
Theorem X8_write_ti3_well_formed now dfs dv cr30 sl dc hls :
  (forall e, In e dv -> length (snd e) = length dfs) ->
  rows_match_fields (write_ti3 now dfs dv cr30 sl dc hls).
Proof. apply write_ti3_rows_match. Qed.

(** X9.  The same for the single-path writer of [cr30_to_ti3]. *)
Theorem X9_write_ti3_sib_well_formed now dfs dv cr30 dc ps px :
  (forall e, In e dv -> length (snd e) = length dfs) ->
  rows_match_fields (write_ti3_sib now dfs dv cr30 dc ps px).
Proof. apply write_ti3_sib_rows_match. Qed.

Lemma dict_get_set_same {V} k (v : V) d : dict_get String.eqb k (dict_set String.eqb k v d) = Some v.
Proof. rewrite dict_get_set_gen, String.eqb_refl. reflexivity. Qed.

(** X10.  A successful run of [build_profile.main]'s conversion leaves at
    the output path a document whose [NUMBER_OF_SETS] is its number of data
    lines and whose data lines each have one value per field. *)
Theorem X10_main_convert_well_formed pf now out dc csv ti2 fs fs' :
  main_convert pf now out dc csv ti2 fs = (Ok tt, fs') ->
  exists d, dict_get String.eqb out fs' = Some d /\ rows_match_fields d.
Proof.
  unfold main_convert, io_bind, io_lift, write_file.
  destruct (parse_cr30_csv pf csv) as [cr30|e]; [|discriminate].
  destruct (parse_ti2 pf ti2) as [t|e] eqn:Et; [|discriminate].
  intros H. injection H as <-. eexists. split; [apply dict_get_set_same|].
  apply write_ti3_rows_match. apply (parse_ti2_lengths pf ti2 t Et).
Qed.

(** X11.  A successful run of [cr30_to_ti3.main] leaves at the output path a
    document whose [NUMBER_OF_SETS] is its number of data lines and whose
    data lines each have one value per field. *)
Theorem X11_main_convert_sib_well_formed pf now out dc nps pl csv ti1 fs fs' :
  main_convert_sib pf now out dc nps pl csv ti1 fs = (Ok tt, fs') ->
  exists d, dict_get String.eqb out fs' = Some d /\ rows_match_fields d.
Proof.
  unfold main_convert_sib, io_bind, io_lift, write_file.
  destruct (parse_cr30_csv pf csv) as [cr30|e]; [|discriminate].
  destruct (parse_ti1 pf ti1) as [t|e] eqn:Et; [|discriminate].
  intros H. injection H as <-. eexists. split; [apply dict_get_set_same|].
  apply write_ti3_sib_rows_match. apply (parse_ti1_lengths pf ti1 t Et).
Qed.


Lemma csv_line_rows pf ix sc st line :
  cs_rows (csv_line pf ix sc st line) = cs_rows st
  \/ exists r, cs_rows (csv_line pf ix sc st line) = r :: cs_rows st.
Proof.
  unfold csv_line.
  destruct (String.eqb (Py.strip line) EmptyString); [left; reflexivity|].
  destruct (num_cell pf (Py.split_sep ";" line) (idx_L ix));
  destruct (num_cell pf (Py.split_sep ";" line) (idx_X ix)); try (left; reflexivity);
  (match goal with
   | |- context [let '(_, _) := ?m in _] => destruct m
   end); right; eexists; reflexivity.
Qed.

Lemma csv_fold_length pf ix sc lines st :
  length (cs_rows (fold_left (csv_line pf ix sc) lines st)) <= length (cs_rows st) + length lines.
Proof.
  revert st. induction lines as [|line lines IH]; intros st; simpl; [lia|].
  specialize (IH (csv_line pf ix sc st line)).
  destruct (csv_line_rows pf ix sc st line) as [E|[r E]]; rewrite E in IH; simpl in IH; lia.
Qed.

(** X12.  [parse_cr30_csv] returns fewer measurement rows than the text has
    lines: the header line never becomes a row, and each further line gives
    at most one. *)
Theorem X12_csv_row_count pf text ms :
  parse_cr30_csv pf text = Ok ms ->
  length (ms_rows ms) < length (Py.split_sep "010" text).
Proof.
  unfold parse_cr30_csv.
  pose proof (length_map (Py.rstrip_char "013") (Py.split_sep "010" text)) as Hl.
  destruct (map (Py.rstrip_char "013") (Py.split_sep "010" text)) as [|l0 rest];
    [discriminate|].
  intros H. injection H as <-. simpl. rewrite length_rev.
  pose proof (csv_fold_length pf (csv_indices (header_map_csv (map Py.strip (Py.split_sep ";" l0))))
     (spec_cols_of (header_map_csv (map Py.strip (Py.split_sep ";" l0)))) rest
     {| cs_rows := []; cs_illum := None; cs_observer := None |}) as Hf.
  simpl in Hf, Hl. lia.
Qed.

Lemma dict_set_keys_Z (k : Z) (v : Q) d :
  (forall w, In w (map fst (dict_set Z.eqb k v d)) -> w = k \/ In w (map fst d))
  /\ (NoDup (map fst d) -> NoDup (map fst (dict_set Z.eqb k v d))).
Proof.
  induction d as [|[k0 v0] d [IH1 IH2]]; simpl.
  - split; [intros w [<-|[]]; left; reflexivity|]. intros _. constructor; [intros []|constructor].
  - destruct (Z.eqb k k0) eqn:E; simpl.
    + split; [intros w H; right; exact H|intros H; exact H].
    + split.
      * intros w [<-|H]; [right; left; reflexivity|].
        destruct (IH1 w H) as [H'|H']; [left; exact H'|right; right; exact H'].
      * intros H. inversion H as [|x l Hx Hd]; subst. constructor; [|apply IH2, Hd].
        intros Hin. destruct (IH1 k0 Hin) as [H'|H'].
        -- subst. rewrite Z.eqb_refl in E. discriminate.
        -- contradiction.
Qed.

Lemma spectral_fold_good pf parts (sc : list (nat * Z)) sp :
  (forall ci wl, In (ci, wl) sc -> (300 <= wl <= 1100)%Z) -> good_spec sp ->
  good_spec (fold_left (fun sp '(ci, wl) =>
        match nth_error parts ci with
        | Some p => match to_float pf p with
                    | Some v => dict_set Z.eqb wl v sp
                    | None => sp
                    end
        | None => sp
        end) sc sp).
Proof.
  revert sp. induction sc as [|[ci wl] sc IH]; intros sp Hsc Hg; simpl; [exact Hg|].
  apply IH; [intros c w H; apply (Hsc c w); right; exact H|].
  assert (Hwl : (300 <= wl <= 1100)%Z) by (apply (Hsc ci wl); left; reflexivity).
  destruct (nth_error parts ci) as [p|]; [|exact Hg].
  destruct (to_float pf p) as [v|]; [|exact Hg].
  destruct Hg as [Hn Hr]. destruct (dict_set_keys_Z wl v sp) as [K1 K2]. split.
  - apply K2, Hn.
  - intros w Hw. destruct (K1 w Hw) as [->|H]; [exact Hwl|apply Hr, H].
Qed.

Lemma spec_cols_range hmap ci wl : In (ci, wl) (spec_cols_of hmap) -> (300 <= wl <= 1100)%Z.
Proof.
  unfold spec_cols_of. intros H. apply sort_by_in in H. apply in_flat_map in H as ([key i] & _ & H).
  destruct (Re.rsearch Re.spectral_re key) as [[|g [|x l]]|]; try destruct H.
  destruct ((300 <=? Py.digits_val g) && (Py.digits_val g <=? 1100))%Z eqn:E; [|destruct H].
  destruct H as [H|[]]. injection H as <- <-.
  apply andb_true_iff in E as [E1 E2]. apply Z.leb_le in E1, E2. lia.
Qed.

Lemma csv_fold_spectral pf ix sc lines st :
  (forall ci wl, In (ci, wl) sc -> (300 <= wl <= 1100)%Z) ->
  (forall r, In r (cs_rows st) -> good_spec (m_spectral r)) ->
  forall r, In r (cs_rows (fold_left (csv_line pf ix sc) lines st)) -> good_spec (m_spectral r).
Proof.
  intros Hsc. revert st. induction lines as [|line lines IH]; intros st Hst; simpl; [exact Hst|].
  apply IH. intros r Hr. unfold csv_line in Hr.
  destruct (String.eqb (Py.strip line) EmptyString); [apply Hst, Hr|].
  destruct (num_cell pf (Py.split_sep ";" line) (idx_L ix));
  destruct (num_cell pf (Py.split_sep ";" line) (idx_X ix)); try (apply Hst, Hr);
  (match type of Hr with
   | In r (cs_rows (let '(_, _) := ?m in _)) => destruct m
   end); simpl in Hr; (destruct Hr as [<-|Hr]; [|apply Hst, Hr]); simpl;
  (apply spectral_fold_good; [exact Hsc|split; [constructor|intros w []]]).
Qed.

(** X13.  Every spectral map [parse_cr30_csv] builds has distinct wavelength
    keys, all within 300..1100 nm. *)
Theorem X13_csv_spectral_keys pf text ms :
  parse_cr30_csv pf text = Ok ms ->
  forall r, In r (ms_rows ms) -> good_spec (m_spectral r).
Proof.
  unfold parse_cr30_csv.
  destruct (map (Py.rstrip_char "013") (Py.split_sep "010" text)) as [|l0 rest];
    [discriminate|].
  intros H. injection H as <-. intros r Hr. simpl in Hr. apply in_rev in Hr.
  revert r Hr. apply csv_fold_spectral; [apply spec_cols_range|intros r []].
Qed.


Lemma csv_fold_illum pf ix sc lines st :
  illum_inv (rev (cs_rows st)) (cs_illum st) (cs_observer st) ->
  let st' := fold_left (csv_line pf ix sc) lines st in
  illum_inv (rev (cs_rows st')) (cs_illum st') (cs_observer st').
Proof.
  cbv zeta. revert st. induction lines as [|line lines IH]; intros st Hst;
    cbn [fold_left]; [exact Hst|].
  apply IH. unfold csv_line.
  destruct (String.eqb (Py.strip line) EmptyString); [exact Hst|].
  destruct st as [rows ic ob]. cbn [cs_rows cs_illum cs_observer] in Hst.
  unfold illum_inv in Hst.
  destruct (num_cell pf (Py.split_sep ";" line) (idx_L ix)) as [vl|];
  destruct (num_cell pf (Py.split_sep ";" line) (idx_X ix)) as [vx|];
  try exact Hst;
  remember (str_cell (Py.split_sep ";" line) (idx_lsag ix)) as lsag eqn:Elsag;
  destruct (first_map illum_of (rev rows)) as [[c o]|] eqn:F;
    destruct Hst as [-> ->];
  lazymatch goal with
  | F : _ = Some _ |- _ =>
    unfold illum_inv; cbn [cs_rows cs_illum cs_observer rev];
    rewrite first_map_app, F; split; reflexivity
  | F : _ = None |- _ => destruct (negb (String.eqb lsag EmptyString)) eqn:El;
    [destruct (Re.rmatch Re.illum_re lsag) as [[|g1 [|g2 [|x l]]]|] eqn:Em|];
    unfold illum_inv; cbn [cs_rows cs_illum cs_observer rev];
    rewrite first_map_app, F; cbn [first_map]; unfold illum_of; cbn [m_lsag];
    rewrite El; try rewrite Em; split; reflexivity
  end.
Qed.

(** X14.  The illuminant and observer of the measurement set come from the
    first kept measurement row whose light-source field is non-empty and
    matches the illuminant pattern; with no such row both are absent. *)
Theorem X14_csv_illuminant pf text ms :
  parse_cr30_csv pf text = Ok ms ->
  match first_map illum_of (ms_rows ms) with
  | Some (c, o) => ms_illum_code ms = Some c /\ ms_observer_deg ms = Some o
  | None => ms_illum_code ms = None /\ ms_observer_deg ms = None
  end.
Proof.
  unfold parse_cr30_csv.
  destruct (map (Py.rstrip_char "013") (Py.split_sep "010" text)) as [|l0 rest];
    [discriminate|].
  intros H. injection H as <-. cbn [ms_rows ms_illum_code ms_observer_deg].
  apply csv_fold_illum. split; reflexivity.
Qed.


Section MapS.
Variable f : ascii -> ascii.
Lemma map_s_app s t : Py.map_s f (s +++ t) = Py.map_s f s +++ Py.map_s f t.
Proof. induction s as [|c s IH]; simpl; [reflexivity|]. rewrite IH. reflexivity. Qed.
Lemma map_s_rev s : Py.map_s f (Py.rev_s s) = Py.rev_s (Py.map_s f s).
Proof. induction s as [|c s IH]; simpl; [reflexivity|]. rewrite map_s_app, IH. reflexivity. Qed.
Lemma map_s_lstrip p s : (forall c, p (f c) = p c) ->
  Py.lstrip_by p (Py.map_s f s) = Py.map_s f (Py.lstrip_by p s).
Proof.
  intros Hp. induction s as [|c s IH]; simpl; [reflexivity|]. rewrite Hp.
  destruct (p c); [exact IH|reflexivity].
Qed.
Lemma map_s_strip s : (forall c, Py.is_space (f c) = Py.is_space c) ->
  Py.strip (Py.map_s f s) = Py.map_s f (Py.strip s).
Proof.
  intros Hp. unfold Py.strip, Py.rstrip_by.
  rewrite map_s_lstrip, <- map_s_rev, map_s_lstrip, map_s_rev by exact Hp. reflexivity.
Qed.
Lemma map_s_idem s : (forall c, f (f c) = f c) -> Py.map_s f (Py.map_s f s) = Py.map_s f s.
Proof. intros H. induction s as [|c s IH]; simpl; [reflexivity|]. rewrite H, IH. reflexivity. Qed.
End MapS.

(** X15.  [_to_float] treats a decimal comma as a decimal point: replacing
    every comma of the cell by a point does not change the result. *)
Theorem X15_to_float_comma pf v : to_float pf (Py.replace_c "," "." v) = to_float pf v.
Proof.
  unfold to_float, Py.replace_c.
  set (f := fun c : ascii => if Ascii.eqb c "," then "."%char else c).
  assert (Hs : forall c, Py.is_space (f c) = Py.is_space c).
  { intros c. unfold f. destruct (Ascii.eqb c ",") eqn:E; [|reflexivity].
    apply Ascii.eqb_eq in E. subst c. reflexivity. }
  assert (Hi : forall c, f (f c) = f c).
  { intros c. unfold f. destruct (Ascii.eqb c ",") eqn:E; [reflexivity|]. rewrite E. reflexivity. }
  rewrite map_s_strip by exact Hs. rewrite map_s_idem by exact Hi. reflexivity.
Qed.


Lemma f_inv_lt t u : (t < u)%Q -> (f_inv t < f_inv u)%Q.
Proof.
  intros H. unfold f_inv.
  destruct (Qle_bool t (6 # 29)) eqn:Et; destruct (Qle_bool u (6 # 29)) eqn:Eu;
    simpl negb; cbv iota.
  - apply Qle_bool_iff in Et, Eu. lra.
  - apply Qle_bool_iff in Et. assert (Hu : ~ (u <= 6 # 29)%Q) by (intros Hc; apply Qle_bool_iff in Hc; congruence).
    apply Qnot_le_lt in Hu.
    pose proof (cube_gt u Hu) as Hc. unfold cie_eps in Hc.
    assert (Hl : ((3 # 1) * (6 # 29) * (6 # 29) * (t - (4 # 29)) <= 216 # 24389)%Q) by lra.
    lra.
  - exfalso. apply Qle_bool_iff in Eu.
    assert (Ht : ~ (t <= 6 # 29)%Q) by (intros Hc; apply Qle_bool_iff in Hc; congruence).
    apply Ht. lra.
  - assert (Ht : ~ (t <= 6 # 29)%Q) by (intros Hc; apply Qle_bool_iff in Hc; congruence).
    apply Qnot_le_lt in Ht.
    assert (Hd : (0 < u - t)%Q) by lra.
    assert (Hs : (0 < u * u + u * t + t * t)%Q) by nra.
    assert (Hm : (0 < (u - t) * (u * u + u * t + t * t))%Q) by (apply Qmult_lt_0_compat; assumption).
    nra.
Qed.

Lemma ref_white_Y s : snd (fst (ref_white s)) = (100 # 1)%Q.
Proof. unfold ref_white. destruct (String.eqb _ "D50"); [reflexivity|]. destruct (String.eqb _ "D65"); reflexivity. Qed.

(** X16.  In [lab_to_xyz] (exact arithmetic), Y strictly increases with L,
    whatever a, b and the illuminant. *)
Theorem X16_lab_to_xyz_Y_increasing L1 a1 b1 L2 a2 b2 s :
  (L1 < L2)%Q ->
  (snd (fst (lab_to_xyz L1 a1 b1 s)) < snd (fst (lab_to_xyz L2 a2 b2 s)))%Q.
Proof.
  intros H. unfold lab_to_xyz. pose proof (ref_white_Y s) as HY.
  destruct (ref_white s) as [[xn yn] zn]. simpl in HY |- *. subst yn.
  apply Qmult_lt_l; [reflexivity|]. apply f_inv_lt.
  apply Qmult_lt_r; [reflexivity|]. lra.
Qed.

(** X17.  [lab_to_xyz] maps L* = 100, a* = b* = 0 to the reference white of
    the illuminant, and L* = a* = b* = 0 to X = Y = Z = 0. *)
Theorem X17_lab_to_xyz_white_black s :
  let '(Xn, Yn, Zn) := ref_white s in
  let '(xw, yw, zw) := lab_to_xyz (100 # 1) 0%Q 0%Q s in
  let '(xb, yb, zb) := lab_to_xyz 0%Q 0%Q 0%Q s in
  (xw == Xn /\ yw == Yn /\ zw == Zn /\ xb == 0 /\ yb == 0 /\ zb == 0)%Q.
Proof.
  unfold lab_to_xyz. destruct (ref_white s) as [[xn yn] zn].
  assert (E1 : (f_inv (((100 # 1) + (16 # 1)) / (116 # 1)) == 1)%Q) by reflexivity.
  assert (E2 : (f_inv (((100 # 1) + (16 # 1)) / (116 # 1) + 0 / (500 # 1)) == 1)%Q) by reflexivity.
  assert (E3 : (f_inv (((100 # 1) + (16 # 1)) / (116 # 1) - 0 / (200 # 1)) == 1)%Q) by reflexivity.
  assert (E4 : (f_inv ((0 + (16 # 1)) / (116 # 1)) == 0)%Q) by reflexivity.
  assert (E5 : (f_inv ((0 + (16 # 1)) / (116 # 1) + 0 / (500 # 1)) == 0)%Q) by reflexivity.
  assert (E6 : (f_inv ((0 + (16 # 1)) / (116 # 1) - 0 / (200 # 1)) == 0)%Q) by reflexivity.
  rewrite E1, E2, E3, E4, E5, E6. repeat split; ring.
Qed.


Lemma sort_by_perm' {A} (key : A -> Z) l : Permutation (sort_by key l) l.
Proof. apply sort_by_perm. Qed.

Lemma all_s_app p s t : Py.all_s p (s +++ t) = Py.all_s p s && Py.all_s p t.
Proof. induction s as [|c s IH]; simpl; [reflexivity|]. rewrite IH. apply andb_assoc. Qed.

Lemma letter_upper d : d < 26 -> Py.is_upper (ascii_of_nat (65 + d)) = true.
Proof.
  intros Hd. unfold Py.is_upper. rewrite Ascii.nat_ascii_embedding by lia.
  apply andb_true_iff; split; apply Nat.leb_le; lia.
Qed.

Lemma letter_inj d e : d < 26 -> e < 26 -> ascii_of_nat (65 + d) = ascii_of_nat (65 + e) -> d = e.
Proof.
  intros Hd He H. apply (f_equal nat_of_ascii) in H.
  rewrite !Ascii.nat_ascii_embedding in H by lia. lia.
Qed.

Lemma row_label_split n :
  n < 26 \/ (exists q d, d < 26 /\ q < n /\ n = 26 * (q + 1) + d).
Proof.
  destruct (Nat.lt_ge_cases n 26) as [H|H]; [left; exact H|right].
  exists (n / 26 - 1), (n mod 26).
  assert (H1 : 1 <= n / 26) by (apply Nat.div_le_lower_bound; lia).
  pose proof (Nat.div_mod n 26 ltac:(lia)) as Hdm.
  pose proof (Nat.mod_upper_bound n 26 ltac:(lia)).
  split; [assumption|]. split; lia.
Qed.

Lemma row_label_shape n :
  Py.all_s Py.is_upper (row_label n) = true /\ 1 <= String.length (row_label n).
Proof.
  induction n as [n IH] using (well_founded_induction lt_wf).
  destruct (row_label_split n) as [H|(q & d & Hd & Hq & ->)].
  - rewrite row_label_digit by exact H. cbn [Py.all_s String.length].
    rewrite letter_upper by exact H. split; [reflexivity|lia].
  - rewrite row_label_step by exact Hd. destruct (IH q Hq) as [H1 H2].
    rewrite all_s_app, H1, length_app_s. cbn [Py.all_s String.length].
    rewrite letter_upper by exact Hd. split; [reflexivity|lia].
Qed.

Lemma app_single_inj s1 s2 c1 c2 :
  s1 +++ String c1 EmptyString = s2 +++ String c2 EmptyString -> s1 = s2 /\ c1 = c2.
Proof.
  revert s2. induction s1 as [|x s1 IH]; intros [|y s2] H; cbn [String.append] in H.
  - injection H as ->. split; reflexivity.
  - injection H as -> H. destruct s2; discriminate.
  - injection H as -> H. destruct s1; discriminate.
  - injection H as -> H. destruct (IH s2 H) as [-> ->]. split; reflexivity.
Qed.

Lemma row_label_inj n m : row_label n = row_label m -> n = m.
Proof.
  revert m. induction n as [n IH] using (well_founded_induction lt_wf). intros m H.
  destruct (row_label_split n) as [Hn|(q & d & Hd & Hq & ->)];
  destruct (row_label_split m) as [Hm|(q' & d' & Hd' & Hq' & ->)].
  - rewrite !row_label_digit in H by assumption. injection H as H. apply letter_inj; assumption.
  - exfalso. rewrite (row_label_digit n) in H by exact Hn. rewrite (row_label_step q' d') in H by exact Hd'.
    apply (f_equal String.length) in H. rewrite length_app_s in H.
    pose proof (proj2 (row_label_shape q')). cbn [String.length] in H. lia.
  - exfalso. rewrite (row_label_digit m) in H by exact Hm. rewrite (row_label_step q d) in H by exact Hd.
    apply (f_equal String.length) in H. rewrite length_app_s in H.
    pose proof (proj2 (row_label_shape q)). cbn [String.length] in H. lia.
  - rewrite (row_label_step q d), (row_label_step q' d') in H by assumption. apply app_single_inj in H as [H1 H2].
    apply IH in H1; [|exact Hq]. apply letter_inj in H2; [|assumption|assumption]. subst. reflexivity.
Qed.

Lemma string_of_uint_digits u : Py.all_s Py.is_digit (NilEmpty.string_of_uint u) = true.
Proof. induction u; simpl; try rewrite IHu; reflexivity. Qed.

Lemma nat_str_digits n : Py.all_s Py.is_digit (Py.nat_str n) = true.
Proof.
  unfold Py.nat_str, Py.z_str. destruct n as [|n]; [reflexivity|]. simpl.
  unfold NilZero.string_of_uint. destruct (Pos.to_uint _); try reflexivity;
  apply string_of_uint_digits.
Qed.

Lemma z_str_inj a b : Py.z_str a = Py.z_str b -> a = b.
Proof.
  unfold Py.z_str. intros H.
  assert (G : forall d, exists d', NilZero.int_of_string (NilZero.string_of_int d) = Some d'
                              /\ Z.of_int d' = Z.of_int d).
  { intros [u|u]; destruct u;
    first [ eexists; split; [reflexivity|reflexivity]
          | eexists; split; [apply NilZero.isi; discriminate|reflexivity] ]. }
  destruct (G (Z.to_int a)) as (da & Ha & Ea). destruct (G (Z.to_int b)) as (db & Hb & Eb).
  rewrite H, Hb in Ha. injection Ha as ->. rewrite !DecimalZ.of_to in Ea, Eb. congruence.
Qed.

Lemma nat_str_inj a b : Py.nat_str a = Py.nat_str b -> a = b.
Proof. unfold Py.nat_str. intros H. apply z_str_inj in H. lia. Qed.

Lemma upper_digit_split a1 a2 d1 d2 :
  Py.all_s Py.is_upper a1 = true -> Py.all_s Py.is_upper a2 = true ->
  Py.all_s Py.is_digit d1 = true -> Py.all_s Py.is_digit d2 = true ->
  a1 +++ d1 = a2 +++ d2 -> a1 = a2 /\ d1 = d2.
Proof.
  revert a2. induction a1 as [|x a1 IH]; intros [|y a2] U1 U2 D1 D2 H; simpl in *.
  - split; [reflexivity|exact H].
  - exfalso. subst d1. simpl in D1. apply andb_true_iff in D1 as [D1 _].
    apply andb_true_iff in U2 as [U2 _]. unfold Py.is_digit, Py.is_upper in *.
    apply andb_true_iff in D1 as [D1 D1']. apply andb_true_iff in U2 as [U2 U2'].
    apply Nat.leb_le in D1, D1', U2, U2'. lia.
  - exfalso. subst d2. simpl in D2. apply andb_true_iff in D2 as [D2 _].
    apply andb_true_iff in U1 as [U1 _]. unfold Py.is_digit, Py.is_upper in *.
    apply andb_true_iff in D2 as [D2 D2']. apply andb_true_iff in U1 as [U1 U1'].
    apply Nat.leb_le in D2, D2', U1, U1'. lia.
  - injection H as -> H. apply andb_true_iff in U1 as [_ U1]. apply andb_true_iff in U2 as [_ U2].
    destruct (IH a2 U1 U2 D1 D2 H) as [-> ->]. split; reflexivity.
Qed.

Lemma label_inj a b c d :
  row_label a +++ Py.nat_str c = row_label b +++ Py.nat_str d -> a = b /\ c = d.
Proof.
  intros H. apply upper_digit_split in H;
    [|apply row_label_shape|apply row_label_shape|apply nat_str_digits|apply nat_str_digits].
  destruct H as [H1 H2]. split; [apply row_label_inj, H1|]. apply nat_str_inj in H2. lia.
Qed.

Lemma grid_label_inj io c r i j :
  0 < c -> 0 < r -> grid_label io c r i = grid_label io c r j -> i = j.
Proof.
  intros Hc Hr. unfold grid_label.
  destruct (String.eqb io "STRIP_THEN_PATCH");
  [|destruct (String.eqb io "PATCH_THEN_STRIP")];
  intros H; apply label_inj in H as [H1 H2].
  - rewrite (Nat.div_mod i c), (Nat.div_mod j c) by lia. lia.
  - rewrite (Nat.div_mod i r), (Nat.div_mod j r) by lia. lia.
  - rewrite (Nat.div_mod i c), (Nat.div_mod j c) by lia. lia.
Qed.

Lemma NoDup_map_inj {A B} (f : A -> B) l :
  (forall x y, f x = f y -> x = y) -> NoDup l -> NoDup (map f l).
Proof.
  intros Hf H. induction H as [|x l Hx Hl IH]; simpl; constructor; [|exact IH].
  intros Hin. apply in_map_iff in Hin as (y & Hy & Hy'). apply Hf in Hy. subst. contradiction.
Qed.

(** X18.  The [SAMPLE_LOC] labels that [parse_ti2] derives from the header
    grid are pairwise distinct. *)
Theorem X18_derived_locs_distinct pf hm dv : NoDup (map snd (derive_locs pf hm dv)).
Proof.
  unfold derive_locs. destruct (ti2_grid pf hm) as [[c|] [r|]]; try constructor.
  destruct ((0 <? c) && (0 <? r) && (Z.of_nat (length dv) =? c * r))%Z eqn:E; [|constructor].
  apply andb_true_iff in E as [E _]. apply andb_true_iff in E as [Ec Er].
  apply Z.ltb_lt in Ec, Er.
  eapply Permutation_NoDup; [symmetry; apply Permutation_map, sort_by_perm|].
  rewrite map_map. cbn [snd].
  apply NoDup_map_inj; [|apply seq_NoDup].
  intros i j. apply grid_label_inj; lia.
Qed.


Lemma str_app_assoc (a b c : string) : (a +++ b) +++ c = a +++ b +++ c.
Proof. induction a as [|x a IH]; cbn; [reflexivity|now rewrite IH]. Qed.

Lemma str_app_nil_r (a : string) : a +++ EmptyString = a.
Proof. induction a as [|x a IH]; cbn; [reflexivity|now rewrite IH]. Qed.

Lemma rev_s_app (s t : string) : Py.rev_s (s +++ t) = Py.rev_s t +++ Py.rev_s s.
Proof.
  induction s as [|x s IH]; cbn.
  - now rewrite str_app_nil_r.
  - rewrite IH. apply str_app_assoc.
Qed.

Lemma rev_s_involutive (s : string) : Py.rev_s (Py.rev_s s) = s.
Proof. induction s as [|x s IH]; cbn; [reflexivity|]. rewrite rev_s_app, IH. reflexivity. Qed.

Lemma all_s_rev (f : ascii -> bool) (s : string) : Py.all_s f (Py.rev_s s) = Py.all_s f s.
Proof.
  induction s as [|x s IH]; cbn; [reflexivity|].
  rewrite all_s_app, IH. cbn. rewrite andb_true_r. apply andb_comm.
Qed.

Lemma lstrip_by_empty (f : ascii -> bool) (s : string) :
  Py.lstrip_by f s = EmptyString -> Py.all_s f s = true.
Proof.
  induction s as [|x s IH]; cbn; [reflexivity|].
  destruct (f x); cbn; [exact IH|discriminate].
Qed.

Lemma rev_s_empty (s : string) : Py.rev_s s = EmptyString -> s = EmptyString.
Proof.
  destruct s as [|x s]; [reflexivity|]. cbn. intros H.
  apply (f_equal String.length) in H. rewrite length_app_s in H. cbn in H. lia.
Qed.

Lemma rstrip_char_nonempty (ch : ascii) (s : string) :
  Py.all_s (fun c => Ascii.eqb c ch) s = false -> Py.rstrip_char ch s <> EmptyString.
Proof.
  unfold Py.rstrip_char, Py.rstrip_by. intros Hf He.
  apply rev_s_empty, lstrip_by_empty in He. rewrite all_s_rev in He. congruence.
Qed.

Lemma rfind_go_app (c : ascii) (s t : string) (i : nat) (acc : option nat) :
  Path.rfind_go c (s +++ t) i acc = Path.rfind_go c t (i + String.length s) (Path.rfind_go c s i acc).
Proof.
  revert i acc. induction s as [|x s IH]; intros i acc; cbn.
  - now rewrite Nat.add_0_r.
  - rewrite IH. now rewrite Nat.add_succ_r.
Qed.

Lemma rfind_go_absent (c : ascii) (t : string) (j : nat) (acc : option nat) :
  Path.has_c c t = false -> Path.rfind_go c t j acc = acc.
Proof.
  unfold Path.has_c. intros H. apply negb_false_iff in H. revert j acc H.
  induction t as [|x t IH]; intros j acc H; cbn in *; [reflexivity|].
  apply andb_prop in H as [Hx Ht]. apply negb_true_iff in Hx. rewrite Hx. now apply IH.
Qed.

Lemma rfind_go_some (c : ascii) (t : string) (i j : nat) :
  exists k, Path.rfind_go c t i (Some j) = Some k.
Proof.
  revert i j. induction t as [|x t IH]; intros i j; cbn; [eauto|].
  destruct (Ascii.eqb x c); apply IH.
Qed.

Lemma take_s_app (a b : string) (n : nat) :
  Py.take_s (String.length a + n) (a +++ b) = a +++ Py.take_s n b.
Proof. induction a as [|x a IH]; cbn; [reflexivity|now rewrite IH]. Qed.

Lemma out_dir_shape (here : string) : exists X, OUT_DIR here = X +++ "output".
Proof.
  unfold OUT_DIR, Path.join. cbn [Py.startswith String.prefix].
  destruct (String.eqb here EmptyString || Path.endswith "/" here).
  - now exists here.
  - exists (here +++ "/"). now rewrite str_app_assoc.
Qed.

Lemma rev_output (X : string) : Py.rev_s (X +++ "output") = "tuptuo" +++ Py.rev_s X.
Proof. rewrite rev_s_app. reflexivity. Qed.

Lemma dirname_in_dir (X p : string) :
  Path.has_c "/" p = false ->
  Path.dirname ((X +++ "output") +++ "/" +++ p) = X +++ "output".
Proof.
  intros Hp. unfold Path.dirname, Path.rfind.
  rewrite rfind_go_app. cbn [String.append Path.rfind_go]. rewrite Ascii.eqb_refl.
  rewrite (rfind_go_absent _ p _ _ Hp), Nat.add_0_l.
  replace (S (String.length (X +++ "output")))
    with (String.length (X +++ "output") + 1) by lia.
  rewrite take_s_app. cbn [Py.take_s].
  rewrite !str_app_assoc, all_s_app.
  assert (Hc : Py.all_s (fun c => Ascii.eqb c "/") ("output" +++ "/") = false) by reflexivity.
  rewrite Hc, andb_false_r.
  assert (E : String.eqb (X +++ "output" +++ "/") EmptyString = false) by (destruct X; reflexivity).
  rewrite E. cbn [negb andb]. unfold Py.rstrip_char, Py.rstrip_by.
  rewrite rev_s_app.
    assert (Hr : Py.rev_s ("output" +++ "/") = "/tuptuo") by reflexivity.
    rewrite Hr.
    assert (Hl : Py.lstrip_by (fun c => Ascii.eqb c "/") ("/tuptuo" +++ Py.rev_s X)
                 = "tuptuo" +++ Py.rev_s X) by reflexivity.
    rewrite Hl, rev_s_app, rev_s_involutive. reflexivity.
Qed.

Lemma dirname_abs_nonempty (p : string) :
  Path.isabs p = true -> Path.dirname p <> EmptyString.
Proof.
  unfold Path.isabs, Py.startswith. destruct p as [|x r]; cbn [String.prefix]; [discriminate|].
  destruct (ascii_dec "/" x) as [<-|]; [|discriminate].
  intros _. unfold Path.dirname, Path.rfind. cbn [Path.rfind_go]. rewrite Ascii.eqb_refl.
  destruct (rfind_go_some "/" r 1 0) as [k Hk]. rewrite Hk. cbn [Py.take_s].
  cbn [String.eqb negb Py.all_s]. rewrite Ascii.eqb_refl. cbn [andb].
  destruct (Py.all_s (fun c => Ascii.eqb c "/") (Py.take_s k r)) eqn:Ha; cbn [negb andb].
  - discriminate.
  - apply rstrip_char_nonempty. cbn [Py.all_s]. rewrite Ascii.eqb_refl. exact Ha.
Qed.

(** X19.  For a non-empty path, [resolve_output] calls [_ensure_dir] exactly
    once, on the directory part of the path it returns. *)
Theorem X19_resolve_output_ensures_dir (here cwd p : string) (made : list string) :
  p <> EmptyString ->
  snd (resolve_output here cwd p made) = made ++ [Path.dirname (fst (resolve_output here cwd p made))].
Proof.
  intros Hp. unfold resolve_output.
  destruct (String.eqb p EmptyString) eqn:E0; [apply String.eqb_eq in E0; congruence|].
  destruct (Path.isabs p) eqn:Ea.
  - cbn [fst snd]. destruct (String.eqb (Path.dirname p) EmptyString) eqn:Ed; [|reflexivity].
    apply String.eqb_eq in Ed. exfalso. exact (dirname_abs_nonempty p Ea Ed).
  - destruct (Path.has_c "/" p) eqn:Eh; [reflexivity|]. cbn [fst snd].
    destruct (out_dir_shape here) as [X HX]. rewrite HX.
    unfold Path.join at 1. unfold Path.isabs in Ea. rewrite Ea.
    assert (Hne : String.eqb (X +++ "output") EmptyString = false).
    { destruct (String.eqb (X +++ "output") EmptyString) eqn:E; [|reflexivity].
      apply String.eqb_eq, (f_equal String.length) in E. rewrite length_app_s in E. cbn in E. lia. }
    assert (Hend : Path.endswith "/" (X +++ "output") = false).
    { unfold Path.endswith. rewrite rev_output. reflexivity. }
    rewrite Hne, Hend. cbn [orb]. rewrite dirname_in_dir by exact Eh. reflexivity.
Qed.

Lemma rfind_go_bound (x : ascii) (s : string) (i k : nat) (acc : option nat) :
  Path.rfind_go x s i acc = Some k -> acc = Some k \/ (i <= k /\ k < i + String.length s).
Proof.
  revert i acc. induction s as [|y s IH]; intros i acc H; cbn in H |- *; [now left|].
  destruct (IH _ _ H) as [Ha|Ha]; [|right; lia].
  destruct (Ascii.eqb y x); [right; injection Ha; lia|now left].
Qed.

Lemma get_length_app (a r : string) (c : ascii) :
  String.get (String.length a) (a +++ String c r) = Some c.
Proof. induction a as [|y a IH]; cbn; [reflexivity|exact IH]. Qed.

Lemma splitext_root_ext (s0 e : string) (c : ascii) :
  c <> "/"%char -> c <> "."%char ->
  Path.has_c "." e = false -> Path.has_c "/" e = false ->
  Path.splitext_root (s0 +++ String c ("." +++ e)) = s0 +++ String c EmptyString.
Proof.
  intros Hc1 Hc2 He1 He2. unfold Path.splitext_root, Path.rfind.
  assert (Hd : Path.rfind_go "." (s0 +++ String c ("." +++ e)) 0 None = Some (S (String.length s0))).
  { rewrite rfind_go_app. cbn [Path.rfind_go String.append].
    replace (Ascii.eqb c ".") with false by (symmetry; apply Ascii.eqb_neq; exact Hc2).
    rewrite Ascii.eqb_refl, rfind_go_absent by exact He1. reflexivity. }
  assert (Hs : Path.rfind_go "/" (s0 +++ String c ("." +++ e)) 0 None
               = Path.rfind_go "/" s0 0 None).
  { rewrite rfind_go_app. cbn [Path.rfind_go String.append].
    replace (Ascii.eqb c "/") with false by (symmetry; apply Ascii.eqb_neq; exact Hc1).
    replace (Ascii.eqb "." "/") with false by reflexivity.
    rewrite rfind_go_absent by exact He2. reflexivity. }
  rewrite Hd, Hs.
  assert (Hex : forall fi, fi <= String.length s0 ->
     existsb (fun k => match String.get k (s0 +++ String c ("." +++ e)) with
                       | Some ch => negb (Ascii.eqb ch ".") | None => false end)
             (seq fi (S (String.length s0) - fi)) = true).
  { intros fi Hfi. apply existsb_exists. exists (String.length s0). split.
    - apply in_seq. lia.
    - rewrite get_length_app. apply negb_true_iff, Ascii.eqb_neq. exact Hc2. }
  assert (Ht : Py.take_s (S (String.length s0)) (s0 +++ String c ("." +++ e))
               = s0 +++ String c EmptyString).
  { replace (S (String.length s0)) with (String.length s0 + 1) by lia.
    rewrite take_s_app. reflexivity. }
  destruct (Path.rfind_go "/" s0 0 None) as [k|] eqn:Ek.
  - apply rfind_go_bound in Ek as [Ek|Ek]; [discriminate|].
    replace (k <? S (String.length s0)) with true by (symmetry; apply Nat.ltb_lt; lia).
    rewrite Hex by lia. cbn [andb]. exact Ht.
  - rewrite Hex by lia. cbn [andb]. exact Ht.
Qed.

Lemma ends_with_cons {A} (a : A) (l T : list A) :
  (exists pre, l = pre ++ T) -> exists pre, a :: l = pre ++ T.
Proof. intros [pre ->]. now exists (a :: pre). Qed.

Lemma ends_with_app {A} (l T : list A) : exists pre, l ++ T = pre ++ T.
Proof. now exists l. Qed.

(** X21.  When the output TI3 path is [base.ext] with an extension free of
    dots and slashes and [base] not ending in a dot or slash, the [colprof]
    command ends with [-D desc -O out_icc base]. *)
Theorem X21_colprof_base here cwd isfile shlex_split c hs desc out_icc s0 ch e cmd :
  ch <> "/"%char -> ch <> "."%char ->
  Path.has_c "." e = false -> Path.has_c "/" e = false ->
  colprof_cmd here cwd isfile shlex_split c hs desc out_icc (s0 +++ String ch ("." +++ e)) = Some cmd ->
  exists pre, cmd = pre ++ ["-D"; desc; "-O"; out_icc; s0 +++ String ch EmptyString].
Proof.
  intros H1 H2 H3 H4 Hc. unfold colprof_cmd in Hc.
  rewrite (splitext_root_ext s0 e ch H1 H2 H3 H4) in Hc.
  destruct (opt_split shlex_split "-k" (cp_black_gen c)) as [kg|]; [|discriminate].
  destruct (opt_split shlex_split "-K" (cp_k_locus c)) as [kl|]; [|discriminate].
  injection Hc as <-. repeat apply ends_with_cons. rewrite !app_assoc. apply ends_with_app.
Qed.

(** ** Examples of the extra properties *)

Lemma X1_data_block_witness :
  ti_data decimal_reader ["SAMPLE_ID"; "RGB_R"] ["RGB_R"] None false
    (["CTI2"] ++ "BEGIN_DATA" :: ["1 5"] ++ "END_DATA" :: ["2 7"])
  = ti_data decimal_reader ["SAMPLE_ID"; "RGB_R"] ["RGB_R"] None true ["1 5"].
Proof.
  apply (X1_data_block decimal_reader ["SAMPLE_ID"; "RGB_R"] ["RGB_R"] None
           ["CTI2"] "BEGIN_DATA" ["1 5"] "END_DATA" ["2 7"]).
  - intros l [<-|[]]. vm_compute. reflexivity.
  - vm_compute. reflexivity.
  - intros l [<-|[]]. vm_compute. reflexivity.
  - vm_compute. reflexivity.
Defined.

Lemma X5_promoted_whitelisted_witness :
  let p := "CHART_ID " +++ Re.dq_s +++ "C1" +++ Re.dq_s in
  In p (promoted (Some [p; "TARGET_INSTRUMENT X"]))
  /\ exists k rest, In k whitelist /\ p = k +++ " " +++ rest.
Proof.
  cbv zeta. assert (H : In ("CHART_ID " +++ Re.dq_s +++ "C1" +++ Re.dq_s)
    (promoted (Some ["CHART_ID " +++ Re.dq_s +++ "C1" +++ Re.dq_s; "TARGET_INSTRUMENT X"])))
    by (vm_compute; left; reflexivity).
  split; [exact H|]. exact (X5_promoted_whitelisted _ _ H).
Defined.

Lemma X6_parse_ti2_sorted_witness :
  match parse_ti2 decimal_reader ti2_scenario with
  | Ok t => StronglySorted (fun a b => (fst a <= fst b)%Z) (device_values t)
            /\ StronglySorted (fun a b => (fst a <= fst b)%Z) (sample_locs t)
  | Err _ => False
  end.
Proof.
  destruct (parse_ti2 decimal_reader ti2_scenario) as [t|e] eqn:E.
  - exact (X6_parse_ti2_sorted _ _ _ E).
  - vm_compute in E. discriminate.
Defined.

Lemma X8_write_ti3_well_formed_witness :
  rows_match_fields (write_ti3 "now" ["RGB_R"] [(1%Z, [1%Q])] (mk_set [lab_row]) None "OUTPUT" None).
Proof.
  apply X8_write_ti3_well_formed. intros e [<-|[]]. reflexivity.
Defined.

Lemma X9_write_ti3_sib_well_formed_witness :
  rows_match_fields (write_ti3_sib "now" ["RGB_R"] [(1%Z, [1%Q])] (mk_set [lab_row]) "OUTPUT" true true).
Proof.
  apply X9_write_ti3_sib_well_formed. intros e [<-|[]]. reflexivity.
Defined.

Lemma X10_main_convert_well_formed_witness :
  exists d, dict_get String.eqb "out.ti3"
              (snd (main_convert decimal_reader "now" "out.ti3" "OUTPUT" csv_scenario ti2_scenario []))
            = Some d /\ rows_match_fields d.
Proof.
  assert (E : main_convert decimal_reader "now" "out.ti3" "OUTPUT" csv_scenario ti2_scenario []
              = (Ok tt, snd (main_convert decimal_reader "now" "out.ti3" "OUTPUT" csv_scenario ti2_scenario [])))
    by (vm_compute; reflexivity).
  exact (X10_main_convert_well_formed _ _ _ _ _ _ _ _ E).
Defined.

Lemma X11_main_convert_sib_well_formed_witness :
  exists d, dict_get String.eqb "out.ti3"
              (snd (main_convert_sib decimal_reader "now" "out.ti3" "OUTPUT" false false
                      csv_scenario ti2_scenario []))
            = Some d /\ rows_match_fields d.
Proof.
  assert (E : main_convert_sib decimal_reader "now" "out.ti3" "OUTPUT" false false csv_scenario ti2_scenario []
              = (Ok tt, snd (main_convert_sib decimal_reader "now" "out.ti3" "OUTPUT" false false
                               csv_scenario ti2_scenario [])))
    by (vm_compute; reflexivity).
  exact (X11_main_convert_sib_well_formed _ _ _ _ _ _ _ _ _ _ E).
Defined.

Lemma X12_csv_row_count_witness :
  match parse_cr30_csv decimal_reader csv_scenario with
  | Ok ms => length (ms_rows ms) < length (Py.split_sep "010" csv_scenario)
  | Err _ => False
  end.
Proof.
  destruct (parse_cr30_csv decimal_reader csv_scenario) as [ms|e] eqn:E.
  - exact (X12_csv_row_count _ _ _ E).
  - vm_compute in E. discriminate.
Defined.

Lemma X13_csv_spectral_keys_witness :
  match parse_cr30_csv decimal_reader csv_spectral with
  | Ok ms => map (fun r => map fst (m_spectral r)) (ms_rows ms) = [[400%Z; 410%Z]]
             /\ forall r, In r (ms_rows ms) -> good_spec (m_spectral r)
  | Err _ => False
  end.
Proof.
  destruct (parse_cr30_csv decimal_reader csv_spectral) as [ms|e] eqn:E.
  - pose proof (X13_csv_spectral_keys _ _ _ E) as H.
    split; [|exact H]. vm_compute in E. injection E as <-. vm_compute. reflexivity.
  - vm_compute in E. discriminate.
Defined.

Lemma X14_csv_illuminant_witness :
  match parse_cr30_csv decimal_reader csv_spectral with
  | Ok ms => first_map illum_of (ms_rows ms) = Some ("D65", 10%Z)
             /\ ms_illum_code ms = Some "D65" /\ ms_observer_deg ms = Some 10%Z
  | Err _ => False
  end.
Proof.
  destruct (parse_cr30_csv decimal_reader csv_spectral) as [ms|e] eqn:E.
  - pose proof (X14_csv_illuminant _ _ _ E) as H.
    assert (F : first_map illum_of (ms_rows ms) = Some ("D65", 10%Z))
      by (vm_compute in E; injection E as <-; vm_compute; reflexivity).
    rewrite F in H. split; [exact F|exact H].
  - vm_compute in E. discriminate.
Defined.

Lemma X16_lab_to_xyz_Y_increasing_witness :
  (0 < 50 # 1)%Q
  /\ (snd (fst (lab_to_xyz 0 0 0 "D50")) < snd (fst (lab_to_xyz (50 # 1) 0 0 "D50")))%Q.
Proof.
  assert (H : (0 < 50 # 1)%Q) by (vm_compute; reflexivity).
  split; [exact H|]. exact (X16_lab_to_xyz_Y_increasing _ _ _ _ _ _ _ H).
Defined.

Lemma X19_resolve_output_ensures_dir_witness :
  "out.ti3" <> EmptyString
  /\ snd (resolve_output "/home/u/proj/src" "/" "out.ti3" [])
     = [Path.dirname (fst (resolve_output "/home/u/proj/src" "/" "out.ti3" []))].
Proof.
  assert (H : "out.ti3" <> EmptyString) by discriminate.
  split; [exact H|]. exact (X19_resolve_output_ensures_dir _ _ _ [] H).
Defined.

Lemma X21_colprof_base_witness :
  match colprof_cmd "/home/u/proj/src" "/" (fun _ => false) (fun s => Some (Py.split_ws s))
          colprof_defaults false "profile" "out/printer.icc" "out/printer.ti3" with
  | Some cmd => exists pre, cmd = pre ++ ["-D"; "profile"; "-O"; "out/printer.icc"; "out/printer"]
  | None => False
  end.
Proof.
  destruct (colprof_cmd "/home/u/proj/src" "/" (fun _ => false) (fun s => Some (Py.split_ws s))
              colprof_defaults false "profile" "out/printer.icc" "out/printer.ti3") as [cmd|] eqn:E.
  - change "out/printer.ti3" with ("out/printe" +++ String "r" ("." +++ "ti3")) in E.
    change "out/printer" with ("out/printe" +++ String "r" EmptyString).
    apply (X21_colprof_base "/home/u/proj/src" "/" (fun _ => false) (fun s => Some (Py.split_ws s))
             colprof_defaults false "profile" "out/printer.icc" "out/printe" "r"%char "ti3" cmd).
    + discriminate.
    + discriminate.
    + reflexivity.
    + reflexivity.
    + exact E.
  - vm_compute in E. discriminate.
Defined.
